(** * VulkanHostDisplay: a shallow embedding of
      src/frontend-common/vulkan_host_display.cpp

    The display object is a record of its member variables.  Every method
    is a computation in a small state-and-fault monad over a [World]: the
    display together with the chronological trace of the calls it made to
    its collaborators (the Vulkan context, the swap chain, the allocator,
    the shader cache, ImGui) and the allocator's live buffers.  A method
    returns, or stops on a fault: a Panic, a failed Assert, a null
    dereference or an index out of bounds.

    The collaborators are not part of this file.  Their answers are taken
    from an [Externals] instance: each answer may depend on the whole trace
    so far, so any sequence of driver answers is the behaviour of some
    instance, and a theorem quantified over the instance covers every run.

    Modelled: ChangeRenderWindow, ResizeRenderWindow, SupportsFullscreen,
    IsFullscreen, SetFullscreen, DestroyRenderSurface, CreateRenderDevice,
    HasRenderSurface, GetRenderPassForDisplay, DestroyStagingBuffer,
    DownloadTexture, CheckStagingBufferSize, Render, RenderScreenshot,
    BeginSwapChainRenderPass, both RenderDisplay, RenderImGui, both
    RenderSoftwareCursor, SetPostProcessingChain,
    CheckPostProcessingRenderTargets and ApplyPostProcessingChain.  Loops
    and the stretches of a method that an early return skips are
    definitions of their own, named in lower case.

    Left out of the trace: log messages, debug scopes and object names.
    Commands are recorded into the context's current command buffer, whose
    handle is not tracked.  Floating-point push constants are not
    computed.

    Modelled besides: SupportsTextureFormat, in the same monad; the move
    constructor of PostProcessingStage (its destructor is
    [destroy_stage]); and, as functions that return their result together
    with the calls they made, since those calls go to collaborators of
    their own (the Vulkan loader, the texture being built): CreateTexture,
    StaticGetAdapterAndModeList and GetAdapterAndModeList.

    The file has the model first, then the collaborators used in examples
    and the vocabulary of the statements, then the lemmas and theorems:
    those of the render window, of Render, of the staging buffer, of
    screenshots and of the post-processing chain, and after them the
    further properties of the same methods: texture formats, the adapter
    list, the staging buffer as the allocator sees it, render passes in
    the command stream, what Render presents, the render targets of the
    chain and the stages SetPostProcessingChain builds. *)

From Stdlib Require Import ZArith List Bool Lia String.
From stdpp Require Import base option list gmap.
Import ListNotations.

#[local] Open Scope Z_scope.

(** ** Machine integers and Vulkan constants *)

Definition u32 (z : Z) : Z := z mod 2 ^ 32.

(** Non-dispatchable Vulkan handles and host pointers; 0 is the null one. *)
Definition VK_NULL_HANDLE : Z := 0.
Definition nullptr : Z := 0.

(** VkResult, by its numeric value in vulkan_core.h. *)
Definition VkResult := Z.
Definition VK_SUCCESS : VkResult := 0.
Definition VK_SUBOPTIMAL_KHR : VkResult := 1000001003.
Definition VK_ERROR_OUT_OF_DATE_KHR : VkResult := -1000001004.
Definition VK_ERROR_SURFACE_LOST_KHR : VkResult := -1000000000.

(** VkFormat. *)
Definition VkFormat := Z.
Definition VK_FORMAT_UNDEFINED : VkFormat := 0.
Definition VK_FORMAT_R5G6B5_UNORM_PACK16 : VkFormat := 4.
Definition VK_FORMAT_A1R5G5B5_UNORM_PACK16 : VkFormat := 8.
Definition VK_FORMAT_R8G8B8A8_UNORM : VkFormat := 37.
Definition VK_FORMAT_R8G8B8A8_SRGB : VkFormat := 43.
Definition VK_FORMAT_B8G8R8A8_UNORM : VkFormat := 44.
Definition VK_FORMAT_B8G8R8A8_SRGB : VkFormat := 50.

(** VkImageLayout. *)
Definition VkImageLayout := Z.
Definition VK_IMAGE_LAYOUT_UNDEFINED : VkImageLayout := 0.
Definition VK_IMAGE_LAYOUT_COLOR_ATTACHMENT_OPTIMAL : VkImageLayout := 2.
Definition VK_IMAGE_LAYOUT_SHADER_READ_ONLY_OPTIMAL : VkImageLayout := 5.
Definition VK_IMAGE_LAYOUT_TRANSFER_SRC_OPTIMAL : VkImageLayout := 6.
Definition VK_IMAGE_LAYOUT_PRESENT_SRC_KHR : VkImageLayout := 1000001002.

(** Flag bits. *)
Definition VK_MEMORY_PROPERTY_HOST_COHERENT_BIT : Z := 4.
Definition VK_MEMORY_PROPERTY_HOST_CACHED_BIT : Z := 8.
Definition VK_BUFFER_USAGE_TRANSFER_DST_BIT : Z := 2.
Definition VK_BUFFER_USAGE_UNIFORM_BUFFER_BIT : Z := 16.
Definition VK_IMAGE_USAGE_TRANSFER_SRC_BIT : Z := 1.
Definition VK_IMAGE_USAGE_SAMPLED_BIT : Z := 4.
Definition VK_IMAGE_USAGE_COLOR_ATTACHMENT_BIT : Z := 16.
Definition VK_IMAGE_ASPECT_COLOR_BIT : Z := 1.
Definition VK_IMAGE_ASPECT_DEPTH_BIT : Z := 2.
Definition VK_SHADER_STAGE_VERTEX_BIT : Z := 1.
Definition VK_SHADER_STAGE_FRAGMENT_BIT : Z := 16.
Definition VMA_MEMORY_USAGE_GPU_TO_CPU : Z := 4.
Definition VMA_ALLOCATION_CREATE_MAPPED_BIT : Z := 4.
Definition VK_DRIVER_ID_QUALCOMM_PROPRIETARY : Z := 8.

(** ** Collaborator data *)

(** WindowInfo::Type.  The header is not among the sources; this file only
    ever tells [Surfaceless] from the rest. *)
Inductive WindowInfo_Type :=
| Surfaceless
| Windowed (platform : Z).

Definition is_surfaceless (t : WindowInfo_Type) : bool :=
  match t with Surfaceless => true | Windowed _ => false end.

Record WindowInfo := {
  wi_type : WindowInfo_Type;
  wi_window_handle : Z;
  wi_surface_width : Z;
  wi_surface_height : Z
}.

(** [WindowInfo{}], the value-initialised window. *)
Definition WindowInfo_default : WindowInfo :=
  {| wi_type := Surfaceless; wi_window_handle := nullptr;
     wi_surface_width := 0; wi_surface_height := 0 |}.

(** Modelled from the spec: WindowInfo::SetSurfaceless is defined outside
    the sources; the claims only say that the window "is surfaceless"
    afterwards, so it turns the type into Surfaceless and drops the handle
    and the surface size. *)
Definition SetSurfaceless (wi : WindowInfo) : WindowInfo :=
  {| wi_type := Surfaceless; wi_window_handle := nullptr;
     wi_surface_width := 0; wi_surface_height := 0 |}.

(** Vulkan::Texture, as what its getters return. *)
Record Texture := {
  tex_image : Z;
  tex_view : Z;
  tex_allocation : Z;
  tex_width : Z;
  tex_height : Z;
  tex_format : VkFormat;
  tex_layout : VkImageLayout
}.

(** A default-constructed (invalid) texture. *)
Definition Texture_default : Texture :=
  {| tex_image := VK_NULL_HANDLE; tex_view := VK_NULL_HANDLE;
     tex_allocation := VK_NULL_HANDLE; tex_width := 0; tex_height := 0;
     tex_format := VK_FORMAT_UNDEFINED; tex_layout := VK_IMAGE_LAYOUT_UNDEFINED |}.

Definition set_tex_layout (l : VkImageLayout) (t : Texture) : Texture :=
  {| tex_image := tex_image t; tex_view := tex_view t;
     tex_allocation := tex_allocation t; tex_width := tex_width t;
     tex_height := tex_height t; tex_format := tex_format t; tex_layout := l |}.

(** A [Vulkan::Texture*]: null, a texture owned outside the display (the
    emulated GPU's display texture), or one of the display's own. *)
Inductive TexRef :=
| RefNull
| RefExternal (t : Texture)
| RefPostProcessingInput
| RefStageOutput (i : nat).

(** GPUTexture::Format, as far as this file names it. *)
Inductive GPUTexture_Format :=
| Format_Unknown
| RGBA8
| BGRA8
| RGB565
| RGBA5551.

(** Vulkan::SwapChain, as what its getters return. *)
Record SwapChain := {
  sc_window_info : WindowInfo;
  sc_texture_format : VkFormat;
  sc_width : Z;
  sc_height : Z;
  sc_swap_chain : Z;
  sc_clear_render_pass : Z;
  sc_current_framebuffer : Z;
  sc_current_image_index : Z;
  sc_current_texture : Texture;
  sc_image_available_semaphore : Z;
  sc_rendering_finished_semaphore : Z;
  sc_vsync_enabled : bool
}.

Definition set_sc_current_texture (t : Texture) (sc : SwapChain) : SwapChain :=
  {| sc_window_info := sc_window_info sc; sc_texture_format := sc_texture_format sc;
     sc_width := sc_width sc; sc_height := sc_height sc;
     sc_swap_chain := sc_swap_chain sc; sc_clear_render_pass := sc_clear_render_pass sc;
     sc_current_framebuffer := sc_current_framebuffer sc;
     sc_current_image_index := sc_current_image_index sc;
     sc_current_texture := t;
     sc_image_available_semaphore := sc_image_available_semaphore sc;
     sc_rendering_finished_semaphore := sc_rendering_finished_semaphore sc;
     sc_vsync_enabled := sc_vsync_enabled sc |}.

(** Vulkan::StreamBuffer. *)
Record StreamBuffer := {
  sb_buffer : Z;
  sb_current_size : Z;
  sb_current_offset : Z;
  sb_host_pointer : Z
}.

Definition StreamBuffer_default : StreamBuffer :=
  {| sb_buffer := VK_NULL_HANDLE; sb_current_size := 0;
     sb_current_offset := 0; sb_host_pointer := nullptr |}.

(** FrontendCommon::PostProcessingShader, as what its getters return. *)
Record PostProcessingShader := {
  shader_name : string;
  shader_use_push_constants : bool;
  shader_uniforms_size : Z
}.

(** VulkanHostDisplay::PostProcessingStage. *)
Record PostProcessingStage := {
  pipeline : Z;
  output_framebuffer : Z;
  output_texture : Texture;
  uniforms_size : Z
}.

Definition PostProcessingStage_default : PostProcessingStage :=
  {| pipeline := VK_NULL_HANDLE; output_framebuffer := VK_NULL_HANDLE;
     output_texture := Texture_default; uniforms_size := 0 |}.

Definition set_pipeline (p : Z) (s : PostProcessingStage) : PostProcessingStage :=
  {| pipeline := p; output_framebuffer := output_framebuffer s;
     output_texture := output_texture s; uniforms_size := uniforms_size s |}.

Definition set_output_framebuffer (f : Z) (s : PostProcessingStage) : PostProcessingStage :=
  {| pipeline := pipeline s; output_framebuffer := f;
     output_texture := output_texture s; uniforms_size := uniforms_size s |}.

Definition set_output_texture (t : Texture) (s : PostProcessingStage) : PostProcessingStage :=
  {| pipeline := pipeline s; output_framebuffer := output_framebuffer s;
     output_texture := t; uniforms_size := uniforms_size s |}.

Definition set_uniforms_size (n : Z) (s : PostProcessingStage) : PostProcessingStage :=
  {| pipeline := pipeline s; output_framebuffer := output_framebuffer s;
     output_texture := output_texture s; uniforms_size := n |}.

(** ** The display object *)

(** Members that the methods modelled here only read: the ones set up by
    CreateResources and the ones kept by the HostDisplay base class. *)
Record Fixed := {
  m_display_texture : option Texture;
  m_display_texture_view_x : Z;
  m_display_texture_view_y : Z;
  m_display_texture_view_width : Z;
  m_display_texture_view_height : Z;
  m_display_linear_filtering : bool;
  m_cursor_texture : option Texture;
  m_descriptor_set_layout : Z;
  m_pipeline_layout : Z;
  m_display_pipeline : Z;
  m_cursor_pipeline : Z;
  m_point_sampler : Z;
  m_linear_sampler : Z;
  m_border_sampler : Z;
  m_post_process_descriptor_set_layout : Z;
  m_post_process_pipeline_layout : Z;
  m_post_process_ubo_descriptor_set_layout : Z;
  m_post_process_ubo_pipeline_layout : Z
}.

Record Display := {
  fixed : Fixed;
  m_window_info : WindowInfo;
  m_swap_chain : option SwapChain;
  m_is_adreno : bool;
  m_readback_staging_buffer : Z;
  m_readback_staging_allocation : Z;
  m_readback_staging_buffer_map : Z;
  m_readback_staging_buffer_size : Z;
  m_post_processing_stages : list PostProcessingStage;
  m_post_processing_chain : list PostProcessingShader;
  m_post_processing_ubo : StreamBuffer;
  m_post_processing_input_texture : Texture;
  m_post_processing_input_framebuffer : Z
}.

Definition set_m_window_info (v : WindowInfo) (d : Display) : Display :=
  {| fixed := fixed d; m_window_info := v; m_swap_chain := m_swap_chain d;
     m_is_adreno := m_is_adreno d;
     m_readback_staging_buffer := m_readback_staging_buffer d;
     m_readback_staging_allocation := m_readback_staging_allocation d;
     m_readback_staging_buffer_map := m_readback_staging_buffer_map d;
     m_readback_staging_buffer_size := m_readback_staging_buffer_size d;
     m_post_processing_stages := m_post_processing_stages d;
     m_post_processing_chain := m_post_processing_chain d;
     m_post_processing_ubo := m_post_processing_ubo d;
     m_post_processing_input_texture := m_post_processing_input_texture d;
     m_post_processing_input_framebuffer := m_post_processing_input_framebuffer d |}.

Definition set_m_swap_chain (v : option SwapChain) (d : Display) : Display :=
  {| fixed := fixed d; m_window_info := m_window_info d; m_swap_chain := v;
     m_is_adreno := m_is_adreno d;
     m_readback_staging_buffer := m_readback_staging_buffer d;
     m_readback_staging_allocation := m_readback_staging_allocation d;
     m_readback_staging_buffer_map := m_readback_staging_buffer_map d;
     m_readback_staging_buffer_size := m_readback_staging_buffer_size d;
     m_post_processing_stages := m_post_processing_stages d;
     m_post_processing_chain := m_post_processing_chain d;
     m_post_processing_ubo := m_post_processing_ubo d;
     m_post_processing_input_texture := m_post_processing_input_texture d;
     m_post_processing_input_framebuffer := m_post_processing_input_framebuffer d |}.

Definition set_m_is_adreno (v : bool) (d : Display) : Display :=
  {| fixed := fixed d; m_window_info := m_window_info d;
     m_swap_chain := m_swap_chain d; m_is_adreno := v;
     m_readback_staging_buffer := m_readback_staging_buffer d;
     m_readback_staging_allocation := m_readback_staging_allocation d;
     m_readback_staging_buffer_map := m_readback_staging_buffer_map d;
     m_readback_staging_buffer_size := m_readback_staging_buffer_size d;
     m_post_processing_stages := m_post_processing_stages d;
     m_post_processing_chain := m_post_processing_chain d;
     m_post_processing_ubo := m_post_processing_ubo d;
     m_post_processing_input_texture := m_post_processing_input_texture d;
     m_post_processing_input_framebuffer := m_post_processing_input_framebuffer d |}.

(** The four staging-buffer members, written together. *)
Definition set_staging (buffer allocation map size : Z) (d : Display) : Display :=
  {| fixed := fixed d; m_window_info := m_window_info d;
     m_swap_chain := m_swap_chain d; m_is_adreno := m_is_adreno d;
     m_readback_staging_buffer := buffer;
     m_readback_staging_allocation := allocation;
     m_readback_staging_buffer_map := map;
     m_readback_staging_buffer_size := size;
     m_post_processing_stages := m_post_processing_stages d;
     m_post_processing_chain := m_post_processing_chain d;
     m_post_processing_ubo := m_post_processing_ubo d;
     m_post_processing_input_texture := m_post_processing_input_texture d;
     m_post_processing_input_framebuffer := m_post_processing_input_framebuffer d |}.

(** The out parameters of vmaCreateBuffer. *)
Definition set_staging_handles (buffer allocation : Z) (d : Display) : Display :=
  set_staging buffer allocation (m_readback_staging_buffer_map d)
    (m_readback_staging_buffer_size d) d.

Definition set_m_readback_staging_buffer_map (map : Z) (d : Display) : Display :=
  set_staging (m_readback_staging_buffer d) (m_readback_staging_allocation d) map
    (m_readback_staging_buffer_size d) d.

Definition set_m_post_processing_stages (v : list PostProcessingStage) (d : Display) : Display :=
  {| fixed := fixed d; m_window_info := m_window_info d;
     m_swap_chain := m_swap_chain d; m_is_adreno := m_is_adreno d;
     m_readback_staging_buffer := m_readback_staging_buffer d;
     m_readback_staging_allocation := m_readback_staging_allocation d;
     m_readback_staging_buffer_map := m_readback_staging_buffer_map d;
     m_readback_staging_buffer_size := m_readback_staging_buffer_size d;
     m_post_processing_stages := v;
     m_post_processing_chain := m_post_processing_chain d;
     m_post_processing_ubo := m_post_processing_ubo d;
     m_post_processing_input_texture := m_post_processing_input_texture d;
     m_post_processing_input_framebuffer := m_post_processing_input_framebuffer d |}.

Definition set_m_post_processing_chain (v : list PostProcessingShader) (d : Display) : Display :=
  {| fixed := fixed d; m_window_info := m_window_info d;
     m_swap_chain := m_swap_chain d; m_is_adreno := m_is_adreno d;
     m_readback_staging_buffer := m_readback_staging_buffer d;
     m_readback_staging_allocation := m_readback_staging_allocation d;
     m_readback_staging_buffer_map := m_readback_staging_buffer_map d;
     m_readback_staging_buffer_size := m_readback_staging_buffer_size d;
     m_post_processing_stages := m_post_processing_stages d;
     m_post_processing_chain := v;
     m_post_processing_ubo := m_post_processing_ubo d;
     m_post_processing_input_texture := m_post_processing_input_texture d;
     m_post_processing_input_framebuffer := m_post_processing_input_framebuffer d |}.

Definition set_m_post_processing_ubo (v : StreamBuffer) (d : Display) : Display :=
  {| fixed := fixed d; m_window_info := m_window_info d;
     m_swap_chain := m_swap_chain d; m_is_adreno := m_is_adreno d;
     m_readback_staging_buffer := m_readback_staging_buffer d;
     m_readback_staging_allocation := m_readback_staging_allocation d;
     m_readback_staging_buffer_map := m_readback_staging_buffer_map d;
     m_readback_staging_buffer_size := m_readback_staging_buffer_size d;
     m_post_processing_stages := m_post_processing_stages d;
     m_post_processing_chain := m_post_processing_chain d;
     m_post_processing_ubo := v;
     m_post_processing_input_texture := m_post_processing_input_texture d;
     m_post_processing_input_framebuffer := m_post_processing_input_framebuffer d |}.

Definition set_m_post_processing_input_texture (v : Texture) (d : Display) : Display :=
  {| fixed := fixed d; m_window_info := m_window_info d;
     m_swap_chain := m_swap_chain d; m_is_adreno := m_is_adreno d;
     m_readback_staging_buffer := m_readback_staging_buffer d;
     m_readback_staging_allocation := m_readback_staging_allocation d;
     m_readback_staging_buffer_map := m_readback_staging_buffer_map d;
     m_readback_staging_buffer_size := m_readback_staging_buffer_size d;
     m_post_processing_stages := m_post_processing_stages d;
     m_post_processing_chain := m_post_processing_chain d;
     m_post_processing_ubo := m_post_processing_ubo d;
     m_post_processing_input_texture := v;
     m_post_processing_input_framebuffer := m_post_processing_input_framebuffer d |}.

Definition set_m_post_processing_input_framebuffer (v : Z) (d : Display) : Display :=
  {| fixed := fixed d; m_window_info := m_window_info d;
     m_swap_chain := m_swap_chain d; m_is_adreno := m_is_adreno d;
     m_readback_staging_buffer := m_readback_staging_buffer d;
     m_readback_staging_allocation := m_readback_staging_allocation d;
     m_readback_staging_buffer_map := m_readback_staging_buffer_map d;
     m_readback_staging_buffer_size := m_readback_staging_buffer_size d;
     m_post_processing_stages := m_post_processing_stages d;
     m_post_processing_chain := m_post_processing_chain d;
     m_post_processing_ubo := m_post_processing_ubo d;
     m_post_processing_input_texture := m_post_processing_input_texture d;
     m_post_processing_input_framebuffer := v |}.

(** HostDisplay's inline helpers; the base class is declared outside the
    sources, and these follow their names: a display texture or a
    software cursor is there when its pointer is not null, the window
    size is the surface size of m_window_info. *)
Definition HasDisplayTexture (d : Display) : bool :=
  bool_decide (is_Some (m_display_texture (fixed d))).

Definition HasSoftwareCursor (d : Display) : bool :=
  bool_decide (is_Some (m_cursor_texture (fixed d))).

Definition IsUsingLinearFiltering (d : Display) : bool :=
  m_display_linear_filtering (fixed d).

Definition GetWindowWidth (d : Display) : Z := wi_surface_width (m_window_info d).
Definition GetWindowHeight (d : Display) : Z := wi_surface_height (m_window_info d).

Definition HasRenderSurface (d : Display) : bool :=
  bool_decide (is_Some (m_swap_chain d)).

(** ** Calls to the collaborators *)

(** One constructor per call the display makes, with the arguments that
    matter and, where the call answers, the answer it got. *)
Inductive Event :=
(* Vulkan::Context and Vulkan::ShaderCache *)
| EvContextCreate (wi : WindowInfo) (ok : bool)
| EvShaderCacheCreate
| EvWaitForGPUIdle
| EvWaitForPresentComplete
| EvExecuteCommandBuffer (wait_for_completion : bool)
| EvSubmitCommandBuffer (wait_semaphore signal_semaphore present_swap_chain
                         present_image_index : Z) (submit_on_thread : bool)
| EvMoveToNextCommandBuffer
| EvAllocateDescriptorSet (layout ds : Z)
| EvDeferFramebufferDestruction (fb : Z)
| EvDeferPipelineDestruction (p : Z)
| EvGetVertexShader (shader : PostProcessingShader) (module : Z)
| EvGetFragmentShader (shader : PostProcessingShader) (module : Z)
| EvDestroyShaderModule (module : Z)
| EvCreatePipeline (vs fs layout render_pass : Z) (p : Z)
(* Vulkan::SwapChain *)
| EvAcquireNextImage (res : VkResult)
| EvResizeSwapChain (width height : Z) (ok : bool)
| EvRecreateSurface (wi : WindowInfo) (ok : bool)
| EvCreateVulkanSurface (wi : WindowInfo) (surface : Z)
| EvDestroyVulkanSurface (surface : Z)
| EvSwapChainCreate (wi : WindowInfo) (surface : Z) (vsync ok : bool)
| EvSwapChainDestroy (swap_chain : Z)
(* VMA *)
| EvVmaCreateBuffer (size usage alloc_usage alloc_flags preferred_flags : Z)
                    (res : VkResult) (buffer : Z)
| EvVmaDestroyBuffer (buffer allocation : Z)
| EvVmaInvalidateAllocation (allocation size : Z) (res : VkResult)
(* Vulkan::Texture and Vulkan::StreamBuffer *)
| EvTextureCreate (width height : Z) (format : VkFormat) (usage : Z) (ok : bool)
| EvTextureDestroy (image : Z) (defer : bool)
| EvTextureCreateFramebuffer (image render_pass fb : Z)
| EvDestroyFramebuffer (fb : Z)
| EvTransitionToLayout (image : Z) (layout : VkImageLayout)
| EvTransitionSubresourcesToLayout (image : Z) (old_layout new_layout : VkImageLayout)
| EvStreamBufferCreate (usage size : Z) (ok : bool)
| EvStreamBufferReserve (size alignment : Z) (ok : bool)
| EvStreamBufferCommit (size : Z)
(* commands *)
| EvBeginRenderPass (render_pass framebuffer width height : Z)
| EvEndRenderPass
| EvCombinedImageSamplerWrite (ds binding view sampler : Z) (layout : VkImageLayout)
| EvBufferDescriptorWrite (ds binding buffer offset size : Z)
| EvBindPipeline (p : Z)
| EvPushConstants (layout stages size : Z)
| EvBindDescriptorSets (layout ds : Z) (dynamic_offset : option Z)
| EvSetViewportAndScissor (left top width height : Z)
| EvDraw (vertex_count : Z)
| EvBufferMemoryBarrier (buffer src_access dst_access offset size : Z)
| EvCopyImageToBuffer (image buffer : Z) (x y width height row_length aspect : Z)
| EvFillUniformBuffer (stage : nat) (texture_width texture_height : Z)
(* host side *)
| EvStrideMemCpy (dst_stride src src_stride copy_size count : Z)
| EvImGuiRender
| EvImGuiRenderDrawData
| EvCreateFromString (config : string) (ok : bool)
| EvTimerReset.

Definition Trace := list Event.

(** What stops a method short of returning. *)
Inductive Fault :=
| Panic (msg : string)
| AssertFailed
| NullDereference
| OutOfBounds.

Record World := {
  disp : Display;
  trace : Trace;
  vma_buffers : gmap Z Z  (* live VMA buffers: handle to size in bytes *)
}.

Definition with_disp (f : Display -> Display) (w : World) : World :=
  {| disp := f (disp w); trace := trace w; vma_buffers := vma_buffers w |}.

Definition log (e : Event) (w : World) : World :=
  {| disp := disp w; trace := trace w ++ [e]; vma_buffers := vma_buffers w |}.

Definition with_vma (f : gmap Z Z -> gmap Z Z) (w : World) : World :=
  {| disp := disp w; trace := trace w; vma_buffers := f (vma_buffers w) |}.

Inductive Outcome (A : Type) :=
| Returned (a : A) (w : World)
| Aborted (f : Fault) (w : World).
Arguments Returned {A} a w.
Arguments Aborted {A} f w.

(** A method body: it runs on a world and returns, or stops on a fault. *)
Definition M (A : Type) : Type := World -> Outcome A.

#[export] Instance M_ret : MRet M := fun A a w => Returned a w.
#[export] Instance M_bind : MBind M := fun A B k m w =>
  match m w with
  | Returned a w' => k a w'
  | Aborted f w' => Aborted f w'
  end.

Definition get {A} (f : Display -> A) : M A := fun w => Returned (f (disp w)) w.
Definition modify (f : Display -> Display) : M unit := fun w => Returned tt (with_disp f w).
Definition emit (e : Event) : M unit := fun w => Returned tt (log e w).
Definition abort {A} (f : Fault) : M A := fun w => Aborted f w.

(** A call that answers: the answer comes from the trace so far and is
    logged with the call. *)
Definition ask {A} (answer : Trace -> A) (ev : A -> Event) : M A :=
  fun w => let a := answer (trace w) in Returned a (log (ev a) w).

(** The collaborators' answers. *)
Class Externals := {
  (* Vulkan::Context::Create: on success the swap chain it stored in the
     out parameter (none for a surfaceless window) and the window info it
     left in local_wi; on failure the out parameter stays as it was. *)
  ext_Context_Create : Trace -> WindowInfo -> option (option SwapChain * WindowInfo);
  ext_vendorID : Trace -> Z;
  ext_driverID : Trace -> Z;
  ext_GetRenderPass : Trace -> VkFormat -> Z;
  ext_GetUniformBufferAlignment : Trace -> Z;
  ext_AllocateDescriptorSet : Trace -> Z -> Z;
  (* Vulkan::SwapChain: the answer and the swap chain object afterwards *)
  ext_AcquireNextImage : Trace -> SwapChain -> VkResult * SwapChain;
  ext_ResizeSwapChain : Trace -> SwapChain -> Z -> Z -> bool * SwapChain;
  ext_RecreateSurface : Trace -> SwapChain -> WindowInfo -> bool * SwapChain;
  ext_CreateVulkanSurface : Trace -> WindowInfo -> Z * WindowInfo;
  ext_SwapChain_Create : Trace -> WindowInfo -> Z -> bool -> option SwapChain;
  (* VMA: result, buffer, allocation, mapped pointer *)
  ext_vmaCreateBuffer : Trace -> Z -> VkResult * Z * Z * Z;
  ext_vmaInvalidateAllocation : Trace -> Z -> Z -> VkResult;
  (* Vulkan::Texture *)
  ext_Texture_Create : Trace -> Texture -> Z -> Z -> VkFormat -> Z -> bool * Texture;
  ext_Texture_CreateFramebuffer : Trace -> Texture -> Z -> Z;
  ext_CalcUpdatePitch : Texture -> Z -> Z;
  ext_CalcUpdateRowLength : Texture -> Z -> Z;
  ext_IsDepthFormat : VkFormat -> bool;
  (* Vulkan::StreamBuffer *)
  ext_StreamBuffer_Create : Trace -> StreamBuffer -> Z -> Z -> bool * StreamBuffer;
  ext_StreamBuffer_ReserveMemory : Trace -> StreamBuffer -> Z -> Z -> bool * StreamBuffer;
  ext_StreamBuffer_CommitMemory : Trace -> StreamBuffer -> Z -> StreamBuffer;
  (* shader cache, pipeline builder, post-processing chain parser *)
  ext_GetVertexShader : Trace -> PostProcessingShader -> Z;
  ext_GetFragmentShader : Trace -> PostProcessingShader -> Z;
  ext_CreatePipeline : Trace -> Z -> Z -> Z -> Z -> Z;
  ext_CreateFromString : Trace -> list PostProcessingShader -> string ->
                         bool * list PostProcessingShader;
  PUSH_CONSTANT_SIZE_THRESHOLD : Z;
  (* HostDisplay and ImGui *)
  ext_CalculateDrawRect : Display -> Z -> Z -> Z * Z * Z * Z;
  ext_CalculateSoftwareCursorDrawRect : Display -> Z * Z * Z * Z;
  ext_ImGui_GetCurrentContext : Trace -> bool;
  (* the pixels StrideMemCpy leaves in a destination of n words *)
  ext_readback : Trace -> nat -> list Z
}.

(** Bookkeeping of the allocator's live buffers. *)
Definition vma_alloc (buffer size : Z) : M unit :=
  fun w => Returned tt (with_vma (insert buffer size) w).
Definition vma_free (buffer : Z) : M unit :=
  fun w => Returned tt (with_vma (delete buffer) w).

(** A getter of a collaborator: answered from the trace, not logged. *)
Definition query {A} (answer : Trace -> A) : M A :=
  fun w => Returned (answer (trace w)) w.

(** IEEE-754 single precision, by bit pattern. *)
Definition float32 := Z.

(** ** The methods *)

Section Methods.
Context {E : Externals}.

(** [m_swap_chain.reset()] *)
Definition reset_swap_chain : M unit :=
  sc ← get m_swap_chain;
  match sc with
  | Some sc => emit (EvSwapChainDestroy (sc_swap_chain sc));;
               modify (set_m_swap_chain None)
  | None => mret tt
  end.

(** [m_swap_chain->] *)
Definition deref_swap_chain : M SwapChain :=
  sc ← get m_swap_chain;
  match sc with
  | Some sc => mret sc
  | None => abort NullDereference
  end.

Definition SwapChain_RecreateSurface (wi : WindowInfo) : M bool :=
  sc ← deref_swap_chain;
  r ← ask (λ t, ext_RecreateSurface t sc wi) (λ r, EvRecreateSurface wi r.1);
  modify (set_m_swap_chain (Some r.2));;
  mret r.1.

Definition SwapChain_ResizeSwapChain (width height : Z) : M bool :=
  sc ← deref_swap_chain;
  r ← ask (λ t, ext_ResizeSwapChain t sc width height)
          (λ r, EvResizeSwapChain width height r.1);
  modify (set_m_swap_chain (Some r.2));;
  mret r.1.

Definition SwapChain_AcquireNextImage : M VkResult :=
  sc ← deref_swap_chain;
  r ← ask (λ t, ext_AcquireNextImage t sc) (λ r, EvAcquireNextImage r.1);
  modify (set_m_swap_chain (Some r.2));;
  mret r.1.

Definition ChangeRenderWindow (new_wi : WindowInfo) : M bool :=
  emit EvWaitForGPUIdle;;
  if is_surfaceless (wi_type new_wi) then
    emit (EvExecuteCommandBuffer true);;
    reset_swap_chain;;
    modify (set_m_window_info new_wi);;
    mret true
  else
    (* recreate surface in existing swap chain if it already exists *)
    has ← get HasRenderSurface;
    recreated ←
      (if has : bool then
         ok ← SwapChain_RecreateSurface new_wi;
         if ok : bool then
           sc ← deref_swap_chain;
           modify (set_m_window_info (sc_window_info sc));;
           mret true
         else
           reset_swap_chain;;
           mret false
       else mret false);
    if recreated : bool then mret true
    else
      r ← ask (λ t, ext_CreateVulkanSurface t new_wi)
              (λ r, EvCreateVulkanSurface new_wi r.1);
      let surface := r.1 in
      let wi_copy := r.2 in
      if surface =? VK_NULL_HANDLE then mret false
      else
        sc ← ask (λ t, ext_SwapChain_Create t wi_copy surface false)
                 (λ sc, EvSwapChainCreate wi_copy surface false (bool_decide (is_Some sc)));
        modify (set_m_swap_chain sc);;
        match sc with
        | None => emit (EvDestroyVulkanSurface surface);; mret false
        | Some sc => modify (set_m_window_info (sc_window_info sc));; mret true
        end.

Definition ResizeRenderWindow (new_window_width new_window_height : Z) : M unit :=
  emit EvWaitForGPUIdle;;
  ok ← SwapChain_ResizeSwapChain new_window_width new_window_height;
  if negb ok then abort (Panic "Failed to resize swap chain")
  else
    sc ← deref_swap_chain;
    modify (set_m_window_info (sc_window_info sc)).

Definition SupportsFullscreen (d : Display) : bool := false.

Definition IsFullscreen : M bool := mret false.

Definition SetFullscreen (fullscreen : bool) (width height : Z)
    (refresh_rate : float32) : M bool :=
  mret false.

Definition DestroyRenderSurface : M unit :=
  modify (λ d, set_m_window_info (SetSurfaceless (m_window_info d)) d);;
  emit EvWaitForGPUIdle;;
  reset_swap_chain.

Definition CreateRenderDevice (wi : WindowInfo) : M bool :=
  r ← ask (λ t, ext_Context_Create t wi)
          (λ r, EvContextCreate wi (bool_decide (is_Some r)));
  match r with
  | None =>
      modify (set_m_window_info WindowInfo_default);;
      mret false
  | Some (sc, local_wi) =>
      modify (set_m_swap_chain sc);;
      emit EvShaderCacheCreate;;
      vendorID ← query ext_vendorID;
      driverID ← query ext_driverID;
      modify (set_m_is_adreno ((vendorID =? 0x5143) || (driverID =? VK_DRIVER_ID_QUALCOMM_PROPRIETARY)));;
      sc ← get m_swap_chain;
      modify (set_m_window_info (match sc with
                                 | Some sc => sc_window_info sc
                                 | None => local_wi
                                 end));;
      mret true
  end.

(** *** The readback staging buffer *)

Definition DestroyStagingBuffer : M unit :=
  buffer ← get m_readback_staging_buffer;
  if buffer =? VK_NULL_HANDLE then mret tt
  else
    allocation ← get m_readback_staging_allocation;
    emit (EvVmaDestroyBuffer buffer allocation);;
    vma_free buffer;;
    (* unmapped as part of the buffer destroy *)
    modify (set_staging VK_NULL_HANDLE VK_NULL_HANDLE nullptr 0).

Definition CheckStagingBufferSize (required_size : Z) : M bool :=
  size ← get m_readback_staging_buffer_size;
  if size >=? required_size then mret true
  else
    DestroyStagingBuffer;;
    is_adreno ← get m_is_adreno;
    let bci_size := required_size in
    let bci_usage := VK_BUFFER_USAGE_TRANSFER_DST_BIT in
    let aci_usage := VMA_MEMORY_USAGE_GPU_TO_CPU in
    let aci_flags := VMA_ALLOCATION_CREATE_MAPPED_BIT in
    let aci_preferredFlags :=
      if is_adreno : bool
      then Z.lor VK_MEMORY_PROPERTY_HOST_CACHED_BIT VK_MEMORY_PROPERTY_HOST_COHERENT_BIT
      else VK_MEMORY_PROPERTY_HOST_CACHED_BIT in
    r ← ask (λ t, ext_vmaCreateBuffer t bci_size)
            (λ r, EvVmaCreateBuffer bci_size bci_usage aci_usage aci_flags
                                    aci_preferredFlags r.1.1.1 r.1.1.2);
    let '(res, buffer, allocation, mapped) := r in
    modify (set_staging_handles buffer allocation);;
    if negb (res =? VK_SUCCESS) then mret false
    else
      vma_alloc buffer bci_size;;
      modify (set_m_readback_staging_buffer_map mapped);;
      mret true.

(** *** Textures *)

(** [t.TransitionToLayout(cmdbuf, layout)]: the texture afterwards. *)
Definition Texture_TransitionToLayout (t : Texture) (layout : VkImageLayout) : M Texture :=
  emit (EvTransitionToLayout (tex_image t) layout);;
  mret (set_tex_layout layout t).

(** [t.Destroy(defer)]; nothing happens for a texture that holds no image. *)
Definition Texture_Destroy (t : Texture) (defer : bool) : M Texture :=
  if tex_image t =? VK_NULL_HANDLE then mret t
  else emit (EvTextureDestroy (tex_image t) defer);; mret Texture_default.

Definition Texture_Create (t : Texture) (width height : Z) (format : VkFormat)
    (usage : Z) : M (bool * Texture) :=
  ask (λ tr, ext_Texture_Create tr t width height format usage)
      (λ r, EvTextureCreate width height format usage r.1).

Definition Texture_CreateFramebuffer (t : Texture) (render_pass : Z) : M Z :=
  ask (λ tr, ext_Texture_CreateFramebuffer tr t render_pass)
      (λ fb, EvTextureCreateFramebuffer (tex_image t) render_pass fb).

(** [*texture] *)
Definition deref_texture (r : TexRef) : M Texture :=
  match r with
  | RefNull => abort NullDereference
  | RefExternal t => mret t
  | RefPostProcessingInput => get m_post_processing_input_texture
  | RefStageOutput i =>
      stages ← get m_post_processing_stages;
      match (stages : list PostProcessingStage) !! i with
      | Some pps => mret (output_texture pps)
      | None => abort OutOfBounds
      end
  end.

(** [static_cast<Vulkan::Texture*>(m_display_texture)] *)
Definition display_texture_ptr (d : Display) : TexRef :=
  match m_display_texture (fixed d) with
  | Some t => RefExternal t
  | None => RefNull
  end.

Definition GetRenderPassForDisplay : M Z :=
  sc ← get m_swap_chain;
  match sc with
  | Some sc => mret (sc_clear_render_pass sc)
  | None =>
      (* If we're running headless, assume RGBA8. *)
      query (λ t, ext_GetRenderPass t VK_FORMAT_R8G8B8A8_UNORM)
  end.

Definition VK_ACCESS_TRANSFER_WRITE_BIT : Z := 0x1000.
Definition VK_ACCESS_HOST_READ_BIT : Z := 0x2000.

(** [out_data] is the destination, in 32-bit words; the result carries what
    it holds afterwards. *)
Definition DownloadTexture (tex : Texture) (x y width height : Z)
    (out_data : list Z) (out_data_stride : Z) : M (bool * list Z) :=
  let pitch := ext_CalcUpdatePitch tex width in
  let size := u32 (pitch * height) in
  ok ← CheckStagingBufferSize size;
  if negb ok then mret (false, out_data)
  else
    let old_layout := tex_layout tex in
    (if negb (old_layout =? VK_IMAGE_LAYOUT_TRANSFER_SRC_OPTIMAL)
     then emit (EvTransitionSubresourcesToLayout (tex_image tex) old_layout
                  VK_IMAGE_LAYOUT_TRANSFER_SRC_OPTIMAL)
     else mret tt);;
    let aspect := if ext_IsDepthFormat (tex_format tex)
                  then VK_IMAGE_ASPECT_DEPTH_BIT else VK_IMAGE_ASPECT_COLOR_BIT in
    buffer ← get m_readback_staging_buffer;
    (* invalidate gpu cache *)
    emit (EvBufferMemoryBarrier buffer 0 VK_ACCESS_TRANSFER_WRITE_BIT 0 size);;
    (* do the copy *)
    emit (EvCopyImageToBuffer (tex_image tex) buffer x y width height
            (ext_CalcUpdateRowLength tex pitch) aspect);;
    (* flush gpu cache *)
    emit (EvBufferMemoryBarrier buffer VK_ACCESS_TRANSFER_WRITE_BIT
            VK_ACCESS_HOST_READ_BIT 0 size);;
    (if negb (old_layout =? VK_IMAGE_LAYOUT_TRANSFER_SRC_OPTIMAL)
     then emit (EvTransitionSubresourcesToLayout (tex_image tex)
                  VK_IMAGE_LAYOUT_TRANSFER_SRC_OPTIMAL old_layout)
     else mret tt);;
    emit (EvExecuteCommandBuffer true);;
    (* invalidate cpu cache before reading *)
    allocation ← get m_readback_staging_allocation;
    ask (λ t, ext_vmaInvalidateAllocation t allocation size)
        (λ res, EvVmaInvalidateAllocation allocation size res);;
    map ← get m_readback_staging_buffer_map;
    emit (EvStrideMemCpy out_data_stride map pitch (Z.min pitch out_data_stride) height);;
    data ← query (λ t, ext_readback t (length out_data));
    mret (true, data).

(** *** Drawing *)

Definition BeginSwapChainRenderPass (framebuffer width height : Z) : M unit :=
  sc ← deref_swap_chain;
  emit (EvBeginRenderPass (sc_clear_render_pass sc) framebuffer width height).

(** [RenderDisplay(left, top, width, height, texture, ...)].  The push
    constants are floating-point texture coordinates; only the call is
    recorded. *)
Definition RenderDisplay_to (left top width height : Z) (texture : TexRef)
    (texture_view_x texture_view_y texture_view_width texture_view_height : Z)
    (linear_filter : bool) : M unit :=
  t ← deref_texture texture;
  layout ← get (λ d, m_descriptor_set_layout (fixed d));
  ds ← ask (λ t, ext_AllocateDescriptorSet t layout) (EvAllocateDescriptorSet layout);
  if ds =? VK_NULL_HANDLE then mret tt
  else
    sampler ← get (λ d, if linear_filter then m_linear_sampler (fixed d)
                         else m_point_sampler (fixed d));
    emit (EvCombinedImageSamplerWrite ds 0 (tex_view t) sampler (tex_layout t));;
    f ← get fixed;
    emit (EvBindPipeline (m_display_pipeline f));;
    emit (EvPushConstants (m_pipeline_layout f) VK_SHADER_STAGE_VERTEX_BIT 16);;
    emit (EvBindDescriptorSets (m_pipeline_layout f) ds None);;
    emit (EvSetViewportAndScissor left top width height);;
    emit (EvDraw 3).

(** *** Post-processing *)

(** [m_post_processing_stages[i]] *)
Definition stage_at (i : nat) : M PostProcessingStage :=
  stages ← get m_post_processing_stages;
  match (stages : list PostProcessingStage) !! i with
  | Some pps => mret pps
  | None => abort OutOfBounds
  end.

Definition set_stage_at (i : nat) (pps : PostProcessingStage) : M unit :=
  modify (λ d, set_m_post_processing_stages (<[i := pps]> (m_post_processing_stages d)) d).

(** [m_post_processing_chain.GetShaderStage(i)] *)
Definition GetShaderStage (i : nat) : M PostProcessingShader :=
  chain ← get m_post_processing_chain;
  match (chain : list PostProcessingShader) !! i with
  | Some shader => mret shader
  | None => abort OutOfBounds
  end.

(** [~PostProcessingStage()] *)
Definition destroy_stage (pps : PostProcessingStage) : M unit :=
  (if negb (output_framebuffer pps =? VK_NULL_HANDLE)
   then emit (EvDeferFramebufferDestruction (output_framebuffer pps))
   else mret tt);;
  Texture_Destroy (output_texture pps) true;;
  if negb (pipeline pps =? VK_NULL_HANDLE)
  then emit (EvDeferPipelineDestruction (pipeline pps))
  else mret tt.

Fixpoint destroy_stages (l : list PostProcessingStage) : M unit :=
  match l with
  | [] => mret tt
  | pps :: l' => destroy_stage pps;; destroy_stages l'
  end.

(** [m_post_processing_stages.clear()] *)
Definition clear_stages : M unit :=
  stages ← get m_post_processing_stages;
  destroy_stages stages;;
  modify (set_m_post_processing_stages []).

(** [m_post_processing_chain.ClearStages()] *)
Definition ClearStages : M unit := modify (set_m_post_processing_chain []).

Definition pp_usage : Z :=
  Z.lor VK_IMAGE_USAGE_COLOR_ATTACHMENT_BIT VK_IMAGE_USAGE_SAMPLED_BIT.

(** The loop of CheckPostProcessingRenderTargets over the first
    [target_count] stages, [n] iterations from index [i]; false as soon as
    an output target cannot be made. *)
Fixpoint check_stage_targets (n i : nat) (target_width target_height : Z) : M bool :=
  match n with
  | O => mret true
  | S n' =>
      pps ← stage_at i;
      ok ←
        (if negb (tex_width (output_texture pps) =? target_width)
            || negb (tex_height (output_texture pps) =? target_height)
         then
           pps ← (if negb (output_framebuffer pps =? VK_NULL_HANDLE)
                  then emit (EvDeferFramebufferDestruction (output_framebuffer pps));;
                       set_stage_at i (set_output_framebuffer VK_NULL_HANDLE pps);;
                       mret (set_output_framebuffer VK_NULL_HANDLE pps)
                  else mret pps);
           sc ← deref_swap_chain;
           r ← Texture_Create (output_texture pps) target_width target_height
                 (sc_texture_format sc) pp_usage;
           let pps := set_output_texture r.2 pps in
           set_stage_at i pps;;
           if negb r.1 then mret false
           else
             rp ← GetRenderPassForDisplay;
             fb ← Texture_CreateFramebuffer (output_texture pps) rp;
             set_stage_at i (set_output_framebuffer fb pps);;
             mret (negb (fb =? VK_NULL_HANDLE))
         else mret true);
      if ok : bool then check_stage_targets n' (S i) target_width target_height
      else mret false
  end.

(** The DebugAssert that the stage list is not empty is compiled out of
    release builds and is not modelled. *)
Definition CheckPostProcessingRenderTargets (target_width target_height : Z) : M bool :=
  input ← get m_post_processing_input_texture;
  ok ←
    (if negb (tex_width input =? target_width) || negb (tex_height input =? target_height)
     then
       fb ← get m_post_processing_input_framebuffer;
       (if negb (fb =? VK_NULL_HANDLE)
        then emit (EvDeferFramebufferDestruction fb);;
             modify (set_m_post_processing_input_framebuffer VK_NULL_HANDLE)
        else mret tt);;
       sc ← deref_swap_chain;
       r ← Texture_Create input target_width target_height (sc_texture_format sc) pp_usage;
       modify (set_m_post_processing_input_texture r.2);;
       if negb r.1 then mret false
       else
         rp ← GetRenderPassForDisplay;
         fb ← Texture_CreateFramebuffer r.2 rp;
         modify (set_m_post_processing_input_framebuffer fb);;
         mret (negb (fb =? VK_NULL_HANDLE))
     else mret true);
  if ok : bool then
    stages ← get m_post_processing_stages;
    let target_count := u32 (Z.of_nat (length (stages : list PostProcessingStage)) - 1) in
    check_stage_targets (Z.to_nat target_count) 0 target_width target_height
  else mret false.

(** One iteration of the stage loop of ApplyPostProcessingChain.  [None]
    when the method returns from inside the loop, otherwise the texture
    the next stage reads. *)
Definition apply_stage (i : nat) (final_stage : Z) (target_fb : Z) (texture : TexRef)
    (target_width target_height : Z) : M (option TexRef) :=
  pps ← stage_at i;
  shader ← GetShaderStage i;
  (if negb (Z.of_nat i =? final_stage)
   then
     t ← Texture_TransitionToLayout (output_texture pps)
           VK_IMAGE_LAYOUT_COLOR_ATTACHMENT_OPTIMAL;
     set_stage_at i (set_output_texture t pps);;
     BeginSwapChainRenderPass (output_framebuffer pps) target_width target_height
   else
     BeginSwapChainRenderPass target_fb target_width target_height);;
  let use_push_constants := shader_use_push_constants shader in
  f ← get fixed;
  let layout := if use_push_constants then m_post_process_descriptor_set_layout f
                else m_post_process_ubo_descriptor_set_layout f in
  ds ← ask (λ t, ext_AllocateDescriptorSet t layout) (EvAllocateDescriptorSet layout);
  if ds =? VK_NULL_HANDLE then mret None
  else
    src ← deref_texture texture;
    let stages_vf := Z.lor VK_SHADER_STAGE_VERTEX_BIT VK_SHADER_STAGE_FRAGMENT_BIT in
    (if use_push_constants then
       (if uniforms_size pps <=? PUSH_CONSTANT_SIZE_THRESHOLD then mret tt
        else abort AssertFailed);;
       emit (EvFillUniformBuffer i (tex_width src) (tex_height src));;
       emit (EvPushConstants (m_post_process_pipeline_layout f) stages_vf (uniforms_size pps));;
       emit (EvCombinedImageSamplerWrite ds 1 (tex_view src) (m_border_sampler f) (tex_layout src));;
       emit (EvBindDescriptorSets (m_post_process_pipeline_layout f) ds None)
     else
       ubo ← get m_post_processing_ubo;
       alignment ← query ext_GetUniformBufferAlignment;
       r ← ask (λ t, ext_StreamBuffer_ReserveMemory t ubo (uniforms_size pps) (u32 alignment))
               (λ r, EvStreamBufferReserve (uniforms_size pps) (u32 alignment) r.1);
       modify (set_m_post_processing_ubo r.2);;
       (if negb r.1 then abort (Panic "Failed to reserve space in post-processing UBO")
        else mret tt);;
       let offset := sb_current_offset r.2 in
       emit (EvFillUniformBuffer i (tex_width src) (tex_height src));;
       ubo ← get m_post_processing_ubo;
       ubo' ← query (λ t, ext_StreamBuffer_CommitMemory t ubo (uniforms_size pps));
       emit (EvStreamBufferCommit (uniforms_size pps));;
       modify (set_m_post_processing_ubo ubo');;
       emit (EvCombinedImageSamplerWrite ds 1 (tex_view src) (m_border_sampler f) (tex_layout src));;
       emit (EvBufferDescriptorWrite ds 0 (sb_buffer ubo') 0 (uniforms_size pps));;
       emit (EvBindDescriptorSets (m_post_process_ubo_pipeline_layout f) ds (Some offset)));;
    emit (EvBindPipeline (pipeline pps));;
    emit (EvDraw 3);;
    if negb (Z.of_nat i =? final_stage)
    then
      emit EvEndRenderPass;;
      pps ← stage_at i;
      t ← Texture_TransitionToLayout (output_texture pps)
            VK_IMAGE_LAYOUT_SHADER_READ_ONLY_OPTIMAL;
      set_stage_at i (set_output_texture t pps);;
      mret (Some (RefStageOutput i))
    else mret (Some texture).

(** The stage loop: [n] iterations from index [i]. *)
Fixpoint apply_stages (n i : nat) (final_stage : Z) (target_fb : Z) (texture : TexRef)
    (target_width target_height : Z) : M unit :=
  match n with
  | O => mret tt
  | S n' =>
      r ← apply_stage i final_stage target_fb texture target_width target_height;
      match r with
      | None => mret tt
      | Some texture' =>
          apply_stages n' (S i) final_stage target_fb texture' target_width target_height
      end
  end.

Definition ApplyPostProcessingChain (target_fb : Z)
    (final_left final_top final_width final_height : Z) (texture : TexRef)
    (texture_view_x texture_view_y texture_view_width texture_view_height : Z)
    (target_width target_height : Z) : M unit :=
  ok ← CheckPostProcessingRenderTargets target_width target_height;
  linear ← get IsUsingLinearFiltering;
  if negb ok then
    BeginSwapChainRenderPass target_fb target_width target_height;;
    RenderDisplay_to final_left final_top final_width final_height texture
      texture_view_x texture_view_y texture_view_width texture_view_height linear
  else
    (* downsample/upsample - use same viewport for remainder *)
    input ← get m_post_processing_input_texture;
    input ← Texture_TransitionToLayout input VK_IMAGE_LAYOUT_COLOR_ATTACHMENT_OPTIMAL;
    modify (set_m_post_processing_input_texture input);;
    input_fb ← get m_post_processing_input_framebuffer;
    BeginSwapChainRenderPass input_fb target_width target_height;;
    RenderDisplay_to final_left final_top final_width final_height texture
      texture_view_x texture_view_y texture_view_width texture_view_height linear;;
    emit EvEndRenderPass;;
    input ← get m_post_processing_input_texture;
    input ← Texture_TransitionToLayout input VK_IMAGE_LAYOUT_SHADER_READ_ONLY_OPTIMAL;
    modify (set_m_post_processing_input_texture input);;
    stages ← get m_post_processing_stages;
    let size := u32 (Z.of_nat (length (stages : list PostProcessingStage))) in
    let final_stage := u32 (size - 1) in
    apply_stages (Z.to_nat size) 0 final_stage target_fb RefPostProcessingInput
      target_width target_height.

(** *** Presenting a frame *)

(** [RenderDisplay()] *)
Definition RenderDisplay : M unit :=
  has ← get HasDisplayTexture;
  if negb has then
    sc ← deref_swap_chain;
    BeginSwapChainRenderPass (sc_current_framebuffer sc) (sc_width sc) (sc_height sc)
  else
    d ← get id;
    let '(draw_left, draw_top, width, height) :=
      ext_CalculateDrawRect d (GetWindowWidth d) (GetWindowHeight d) in
    let f := fixed d in
    if negb (bool_decide (m_post_processing_chain d = [])) then
      sc ← deref_swap_chain;
      ApplyPostProcessingChain (sc_current_framebuffer sc) draw_left draw_top width height
        (display_texture_ptr d)
        (m_display_texture_view_x f) (m_display_texture_view_y f)
        (m_display_texture_view_width f) (m_display_texture_view_height f)
        (sc_width sc) (sc_height sc)
    else
      sc ← deref_swap_chain;
      BeginSwapChainRenderPass (sc_current_framebuffer sc) (sc_width sc) (sc_height sc);;
      RenderDisplay_to draw_left draw_top width height (display_texture_ptr d)
        (m_display_texture_view_x f) (m_display_texture_view_y f)
        (m_display_texture_view_width f) (m_display_texture_view_height f)
        (IsUsingLinearFiltering d).

Definition RenderImGui : M unit :=
  emit EvImGuiRender;;
  emit EvImGuiRenderDrawData.

(** [RenderSoftwareCursor(left, top, width, height, texture)] *)
Definition RenderSoftwareCursor_to (left top width height : Z) (texture : Texture) : M unit :=
  f ← get fixed;
  ds ← ask (λ t, ext_AllocateDescriptorSet t (m_descriptor_set_layout f))
           (EvAllocateDescriptorSet (m_descriptor_set_layout f));
  if ds =? VK_NULL_HANDLE then mret tt
  else
    (* the layout is the builder's default argument *)
    emit (EvCombinedImageSamplerWrite ds 0 (tex_view texture) (m_linear_sampler f)
            VK_IMAGE_LAYOUT_SHADER_READ_ONLY_OPTIMAL);;
    emit (EvBindPipeline (m_cursor_pipeline f));;
    emit (EvPushConstants (m_pipeline_layout f) VK_SHADER_STAGE_VERTEX_BIT 16);;
    emit (EvBindDescriptorSets (m_pipeline_layout f) ds None);;
    emit (EvSetViewportAndScissor left top width height);;
    emit (EvDraw 3).

(** [RenderSoftwareCursor()] *)
Definition RenderSoftwareCursor : M unit :=
  d ← get id;
  match m_cursor_texture (fixed d) with
  | None => mret tt
  | Some cursor =>
      let '(cursor_left, cursor_top, width, height) :=
        ext_CalculateSoftwareCursorDrawRect d in
      RenderSoftwareCursor_to cursor_left cursor_top width height cursor
  end.

(** The swap chain's current texture, through the reference Render holds. *)
Definition swap_chain_texture_update (f : Texture -> M Texture) : M unit :=
  sc ← deref_swap_chain;
  t ← f (sc_current_texture sc);
  sc ← deref_swap_chain;
  modify (set_m_swap_chain (Some (set_sc_current_texture t sc))).

(** The acquire at the head of Render, with its retries.  [None] when
    Render has already returned false from inside the surface-lost branch,
    otherwise the result the following test looks at. *)
Definition acquire_with_retry (res : VkResult) : M (option VkResult) :=
  if (res =? VK_SUBOPTIMAL_KHR) || (res =? VK_ERROR_OUT_OF_DATE_KHR) then
    ResizeRenderWindow 0 0;;
    res ← SwapChain_AcquireNextImage;
    mret (Some res)
  else if res =? VK_ERROR_SURFACE_LOST_KHR then
    wi ← get m_window_info;
    ok ← SwapChain_RecreateSurface wi;
    if negb ok then
      emit (EvExecuteCommandBuffer false);;
      reset_swap_chain;;
      mret None
    else
      res ← SwapChain_AcquireNextImage;
      mret (Some res)
  else mret (Some res).

(** The part of Render after a usable image was acquired. *)
Definition render_frame : M bool :=
  (* Swap chain images start in undefined *)
  swap_chain_texture_update (λ t, mret (set_tex_layout VK_IMAGE_LAYOUT_UNDEFINED t));;
  swap_chain_texture_update
    (λ t, Texture_TransitionToLayout t VK_IMAGE_LAYOUT_COLOR_ATTACHMENT_OPTIMAL);;
  RenderDisplay;;
  ctx ← query ext_ImGui_GetCurrentContext;
  (if ctx : bool then RenderImGui else mret tt);;
  RenderSoftwareCursor;;
  emit EvEndRenderPass;;
  swap_chain_texture_update
    (λ t, Texture_TransitionToLayout t VK_IMAGE_LAYOUT_PRESENT_SRC_KHR);;
  sc ← deref_swap_chain;
  emit (EvSubmitCommandBuffer (sc_image_available_semaphore sc)
          (sc_rendering_finished_semaphore sc) (sc_swap_chain sc)
          (sc_current_image_index sc) (negb (sc_vsync_enabled sc)));;
  emit EvMoveToNextCommandBuffer;;
  mret true.

Definition Render (skip_present : bool) : M bool :=
  has ← get HasRenderSurface;
  if skip_present || negb has then
    ctx ← query ext_ImGui_GetCurrentContext;
    (if ctx : bool then emit EvImGuiRender else mret tt);;
    mret false
  else
    (* Previous frame needs to be presented before we can acquire the swap chain. *)
    emit EvWaitForPresentComplete;;
    res ← SwapChain_AcquireNextImage;
    if negb (res =? VK_SUCCESS) then
      r ← acquire_with_retry res;
      match r with
      | None => mret false
      | Some res =>
          (* This can happen when multiple resize events happen in quick succession.
             In this case, just wait until the next frame to try again. *)
          if negb (res =? VK_SUCCESS) && negb (res =? VK_SUBOPTIMAL_KHR) then
            (* Still submit the command buffer, otherwise we'll end up with
               several frames waiting. *)
            emit (EvExecuteCommandBuffer false);;
            mret false
          else render_frame
      end
    else render_frame.

(** *** Screenshots *)

Record Screenshot := {
  out_pixels : list Z;
  out_stride : Z;
  out_format : GPUTexture_Format
}.

(** [std::vector<u32>::resize(n)] *)
Definition vector_resize (n : Z) (v : list Z) : list Z :=
  take (Z.to_nat n) v ++ replicate (Z.to_nat n - length v) 0.

(** [std::fill(v.begin(), v.end(), 0u)] *)
Definition vector_fill_zero (v : list Z) : list Z := replicate (length v) 0.

(** The switch on the swap-chain format at the head of RenderScreenshot. *)
Definition size_for_format (format : VkFormat) (width height : Z) (out : Screenshot)
    : Screenshot :=
  if (format =? VK_FORMAT_R8G8B8A8_UNORM) || (format =? VK_FORMAT_R8G8B8A8_SRGB) then
    {| out_format := RGBA8; out_stride := u32 (4 * width);
       out_pixels := vector_resize (u32 (width * height)) (out_pixels out) |}
  else if (format =? VK_FORMAT_B8G8R8A8_UNORM) || (format =? VK_FORMAT_B8G8R8A8_SRGB) then
    {| out_format := BGRA8; out_stride := u32 (4 * width);
       out_pixels := vector_resize (u32 (width * height)) (out_pixels out) |}
  else if format =? VK_FORMAT_A1R5G5B5_UNORM_PACK16 then
    {| out_format := RGBA5551; out_stride := u32 (2 * width);
       out_pixels := vector_resize (u32 (u32 (width * height) + 1) / 2) (out_pixels out) |}
  else if format =? VK_FORMAT_R5G6B5_UNORM_PACK16 then
    {| out_format := RGB565; out_stride := u32 (2 * width);
       out_pixels := vector_resize (u32 (u32 (width * height) + 1) / 2) (out_pixels out) |}
  else out.

Definition set_out_pixels (v : list Z) (out : Screenshot) : Screenshot :=
  {| out_pixels := v; out_stride := out_stride out; out_format := out_format out |}.

(** [out] holds what the caller's out_pixels, out_stride and out_format
    hold at the call; the result carries what they hold at the return. *)
Definition RenderScreenshot (width height : Z) (out : Screenshot) : M (bool * Screenshot) :=
  (* in theory we could do this without a swap chain, but postprocessing
     assumes it for now... *)
  sc ← get m_swap_chain;
  match sc with
  | None => mret (false, out)
  | Some sc =>
      let format := sc_texture_format sc in
      let out := size_for_format format width height out in
      (* if we don't have a texture (display off), then just write out nothing. *)
      has ← get HasDisplayTexture;
      if negb has then
        mret (true, set_out_pixels (vector_fill_zero (out_pixels out)) out)
      else
        r ← Texture_Create Texture_default width height format
              (Z.lor VK_IMAGE_USAGE_COLOR_ATTACHMENT_BIT VK_IMAGE_USAGE_TRANSFER_SRC_BIT);
        let tex := r.2 in
        if negb r.1 then Texture_Destroy tex true;; mret (false, out)
        else
          sc' ← get m_swap_chain;
          rp ← match sc' with
               | Some sc' => mret (sc_clear_render_pass sc')
               | None => query (λ t, ext_GetRenderPass t format)
               end;
          if rp =? VK_NULL_HANDLE then Texture_Destroy tex true;; mret (false, out)
          else
            fb ← Texture_CreateFramebuffer tex rp;
            if fb =? VK_NULL_HANDLE then Texture_Destroy tex true;; mret (false, out)
            else
              tex ← Texture_TransitionToLayout tex VK_IMAGE_LAYOUT_COLOR_ATTACHMENT_OPTIMAL;
              d ← get id;
              let f := fixed d in
              let '(draw_left, draw_top, draw_width, draw_height) :=
                ext_CalculateDrawRect d width height in
              (if negb (bool_decide (m_post_processing_chain d = [])) then
                 ApplyPostProcessingChain fb draw_left draw_top draw_width draw_height
                   (display_texture_ptr d)
                   (m_display_texture_view_x f) (m_display_texture_view_y f)
                   (m_display_texture_view_width f) (m_display_texture_view_height f)
                   width height
               else
                 BeginSwapChainRenderPass fb width height;;
                 RenderDisplay_to draw_left draw_top draw_width draw_height
                   (display_texture_ptr d)
                   (m_display_texture_view_x f) (m_display_texture_view_y f)
                   (m_display_texture_view_width f) (m_display_texture_view_height f)
                   (IsUsingLinearFiltering d));;
              emit EvEndRenderPass;;
              tex ← Texture_TransitionToLayout tex VK_IMAGE_LAYOUT_TRANSFER_SRC_OPTIMAL;
              dl ← DownloadTexture tex 0 0 width height (out_pixels out) (out_stride out);
              (* destroying these immediately should be safe since nothing's
                 going to access them, and it's not part of the command stream *)
              emit (EvDestroyFramebuffer fb);;
              Texture_Destroy tex false;;
              mret (true, set_out_pixels dl.2 out)
  end.

(** *** Building the post-processing chain *)

Definition UBO_SIZE : Z := 1 * 1024 * 1024.

(** The loop of SetPostProcessingChain over the chain's shaders, [n]
    iterations from index [i].  [None] when the method has cleaned up and
    returned false from inside the loop, otherwise the final value of
    [only_use_push_constants]. *)
Fixpoint build_stages (n i : nat) (only_use_push_constants : bool) : M (option bool) :=
  match n with
  | O => mret (Some only_use_push_constants)
  | S n' =>
      shader ← GetShaderStage i;
      let use_push_constants := shader_use_push_constants shader in
      let only_use_push_constants := only_use_push_constants && use_push_constants in
      let stage := set_uniforms_size (shader_uniforms_size shader)
                     PostProcessingStage_default in
      vs_mod ← ask (λ t, ext_GetVertexShader t shader) (EvGetVertexShader shader);
      fs_mod ← ask (λ t, ext_GetFragmentShader t shader) (EvGetFragmentShader shader);
      if (vs_mod =? VK_NULL_HANDLE) || (fs_mod =? VK_NULL_HANDLE) then
        (if negb (vs_mod =? VK_NULL_HANDLE) then emit (EvDestroyShaderModule vs_mod)
         else mret tt);;
        (if negb (fs_mod =? VK_NULL_HANDLE) then emit (EvDestroyShaderModule vs_mod)
         else mret tt);;
        clear_stages;;
        ClearStages;;
        mret None
      else
        f ← get fixed;
        let layout := if use_push_constants then m_post_process_pipeline_layout f
                      else m_post_process_ubo_pipeline_layout f in
        rp ← GetRenderPassForDisplay;
        p ← ask (λ t, ext_CreatePipeline t vs_mod fs_mod layout rp)
                (EvCreatePipeline vs_mod fs_mod layout rp);
        emit (EvDestroyShaderModule vs_mod);;
        emit (EvDestroyShaderModule fs_mod);;
        if p =? VK_NULL_HANDLE then
          clear_stages;;
          ClearStages;;
          mret None
        else
          modify (λ d, set_m_post_processing_stages
                         (m_post_processing_stages d ++ [set_pipeline p stage]) d);;
          build_stages n' (S i) only_use_push_constants
  end.

Definition SetPostProcessingChain (config : string) : M bool :=
  emit (EvExecuteCommandBuffer true);;
  match config with
  | EmptyString =>
      clear_stages;;
      ClearStages;;
      mret true
  | _ =>
      chain ← get m_post_processing_chain;
      r ← ask (λ t, ext_CreateFromString t chain config) (λ r, EvCreateFromString config r.1);
      modify (set_m_post_processing_chain r.2);;
      if negb r.1 then mret false
      else
        clear_stages;;
        chain ← get m_post_processing_chain;
        built ← build_stages (length (chain : list PostProcessingShader)) 0 true;
        match built with
        | None => mret false
        | Some only_use_push_constants =>
            ubo ← get m_post_processing_ubo;
            ok ←
              (if negb only_use_push_constants && (sb_current_size ubo <? UBO_SIZE) then
                 r ← ask (λ t, ext_StreamBuffer_Create t ubo
                                 VK_BUFFER_USAGE_UNIFORM_BUFFER_BIT UBO_SIZE)
                         (λ r, EvStreamBufferCreate VK_BUFFER_USAGE_UNIFORM_BUFFER_BIT
                                 UBO_SIZE r.1);
                 modify (set_m_post_processing_ubo r.2);;
                 mret r.1
               else mret true);
            if negb ok then
              clear_stages;;
              ClearStages;;
              mret false
            else
              emit EvTimerReset;;
              mret true
        end
  end.

End Methods.

(** ** Methods that need no command stream *)

(** VkFormatFeatureFlagBits. *)
Definition VK_FORMAT_FEATURE_SAMPLED_IMAGE_BIT : Z := 0x1.
Definition VK_FORMAT_FEATURE_TRANSFER_DST_BIT : Z := 0x8000.

(** What SupportsTextureFormat asks of its collaborators:
    Vulkan::Texture::GetVkFormat and the optimalTilingFeatures that
    vkGetPhysicalDeviceFormatProperties reports for a format. *)
Class FormatExternals := {
  ext_GetVkFormat : GPUTexture_Format -> VkFormat;
  ext_optimalTilingFeatures : Trace -> VkFormat -> Z
}.

Definition SupportsTextureFormat `{FormatExternals} (format : GPUTexture_Format) : M bool :=
  let vk_format := ext_GetVkFormat format in
  if vk_format =? VK_FORMAT_UNDEFINED then mret false
  else
    optimalTilingFeatures ← query (λ t, ext_optimalTilingFeatures t vk_format);
    let required := Z.lor VK_FORMAT_FEATURE_SAMPLED_IMAGE_BIT
                          VK_FORMAT_FEATURE_TRANSFER_DST_BIT in
    mret (Z.land optimalTilingFeatures required =? required).

(** [PostProcessingStage(PostProcessingStage&& move)]: the stage built, and
    what the constructor leaves in [move].  The move constructor of
    Vulkan::Texture is outside the sources; [moved_texture] is the texture
    it leaves behind. *)
Definition PostProcessingStage_move (move : PostProcessingStage) (moved_texture : Texture)
    : PostProcessingStage * PostProcessingStage :=
  ({| pipeline := pipeline move; output_framebuffer := output_framebuffer move;
      output_texture := output_texture move; uniforms_size := uniforms_size move |},
   {| pipeline := VK_NULL_HANDLE; output_framebuffer := VK_NULL_HANDLE;
      output_texture := moved_texture; uniforms_size := 0 |}).

(** *** The adapter and fullscreen-mode list *)

(** Vulkan::SwapChain::FullscreenModeInfo *)
Record FullscreenModeInfo := {
  fmi_width : Z;
  fmi_height : Z;
  fmi_refresh_rate : float32
}.

(** HostDisplay::AdapterAndModeList *)
Record AdapterAndModeList := {
  adapter_names : list string;
  fullscreen_modes : list string
}.

(** The calls StaticGetAdapterAndModeList makes to the Vulkan loader and
    to the context; it touches nothing of the display. *)
Inductive LoaderEvent :=
| LdLoadVulkanLibrary (ok : bool)
| LdUnloadVulkanLibrary
| LdCreateVulkanInstance (instance : Z)
| LdDestroyInstance (instance : Z)
| LdLoadVulkanInstanceFunctions (instance : Z) (ok : bool)
| LdEnumerateGPUNames (instance : Z)
| LdGetSurfaceFullscreenModes (instance : Z) (wi : WindowInfo).

Class LoaderExternals := {
  ext_LoadVulkanLibrary : bool;
  ext_CreateVulkanInstance : Z;
  ext_LoadVulkanInstanceFunctions : Z -> bool;
  ext_EnumerateGPUNames : Z -> list string;
  ext_GetSurfaceFullscreenModes : Z -> WindowInfo -> list FullscreenModeInfo;
  ext_GetFullscreenModeString : Z -> Z -> float32 -> string
}.

(** [g_vulkan_context] is the global context, given by its Vulkan instance
    when there is one.  The result comes with the calls made, in order;
    the two ScopedGuards run when their blocks are left, the instance guard
    first. *)
Definition StaticGetAdapterAndModeList `{LoaderExternals} (g_vulkan_context : option Z)
    (wi : option WindowInfo) : AdapterAndModeList * list LoaderEvent :=
  let '(names, fsmodes, calls) :=
    match g_vulkan_context with
    | Some instance =>
        let names := ext_EnumerateGPUNames instance in
        match wi with
        | Some wi =>
            (names, ext_GetSurfaceFullscreenModes instance wi,
             [LdEnumerateGPUNames instance; LdGetSurfaceFullscreenModes instance wi])
        | None => (names, [], [LdEnumerateGPUNames instance])
        end
    | None =>
        if ext_LoadVulkanLibrary then
          let instance := ext_CreateVulkanInstance in
          if negb (instance =? VK_NULL_HANDLE) then
            if ext_LoadVulkanInstanceFunctions instance then
              (ext_EnumerateGPUNames instance, [],
               [LdLoadVulkanLibrary true; LdCreateVulkanInstance instance;
                LdLoadVulkanInstanceFunctions instance true;
                LdEnumerateGPUNames instance;
                LdDestroyInstance instance; LdUnloadVulkanLibrary])
            else
              ([], [],
               [LdLoadVulkanLibrary true; LdCreateVulkanInstance instance;
                LdLoadVulkanInstanceFunctions instance false;
                LdDestroyInstance instance; LdUnloadVulkanLibrary])
          else
            ([], [],
             [LdLoadVulkanLibrary true; LdCreateVulkanInstance instance;
              LdUnloadVulkanLibrary])
        else ([], [], [LdLoadVulkanLibrary false])
    end in
  ({| adapter_names := names;
      fullscreen_modes :=
        match fsmodes with
        | [] => []
        | _ :: _ =>
            (λ fmi, ext_GetFullscreenModeString (fmi_width fmi) (fmi_height fmi)
                      (fmi_refresh_rate fmi)) <$> fsmodes
        end |},
   calls).

Definition GetAdapterAndModeList `{LoaderExternals} (g_vulkan_context : option Z)
    (d : Display) : AdapterAndModeList * list LoaderEvent :=
  StaticGetAdapterAndModeList g_vulkan_context
    (if negb (is_surfaceless (wi_type (m_window_info d)))
     then Some (m_window_info d) else None).

(** *** CreateTexture *)

Definition VK_IMAGE_LAYOUT_TRANSFER_DST_OPTIMAL : VkImageLayout := 7.
Definition VK_IMAGE_USAGE_TRANSFER_DST_BIT : Z := 2.
Definition VK_IMAGE_VIEW_TYPE_2D : Z := 1.
Definition VK_IMAGE_VIEW_TYPE_2D_ARRAY : Z := 5.
Definition VK_IMAGE_TILING_OPTIMAL : Z := 0.

(** The calls CreateTexture makes on the texture it builds and on the
    current command buffer; it touches nothing of the display. *)
Inductive TextureCall :=
| TcCreate (width height levels layers : Z) (format : VkFormat)
           (samples view_type tiling usage : Z) (ok : bool)
| TcTransitionToLayout (image : Z) (layout : VkImageLayout)
| TcUpdate (image : Z) (x y width height level layer : Z) (data data_stride : Z)
| TcClearColorImage (image : Z) (layout : VkImageLayout).

(** Vulkan::Texture::Create on a fresh texture: the texture made, or none
    when it fails. *)
Class TextureFactory := {
  ext_Texture_Create_image :
    Z -> Z -> Z -> Z -> VkFormat -> Z -> Z -> Z -> Z -> option Texture
}.

(** [data] is the pointer to the initial contents, null for none.  The
    result is the texture handed to the caller, none for the empty
    unique_ptr, with the calls made, in order. *)
Definition CreateTexture `{FormatExternals} `{TextureFactory}
    (width height layers levels samples : Z) (format : GPUTexture_Format)
    (data data_stride : Z) : option Texture * list TextureCall :=
  let vk_format := ext_GetVkFormat format in
  if vk_format =? VK_FORMAT_UNDEFINED then (None, [])
  else
    let usage := Z.lor (Z.lor VK_IMAGE_USAGE_TRANSFER_SRC_BIT VK_IMAGE_USAGE_TRANSFER_DST_BIT)
                       VK_IMAGE_USAGE_SAMPLED_BIT in
    let view_type := if layers >? 1 then VK_IMAGE_VIEW_TYPE_2D_ARRAY
                     else VK_IMAGE_VIEW_TYPE_2D in
    let created := ext_Texture_Create_image width height levels layers vk_format samples
                     view_type VK_IMAGE_TILING_OPTIMAL usage in
    let create := TcCreate width height levels layers vk_format samples view_type
                    VK_IMAGE_TILING_OPTIMAL usage (bool_decide (is_Some created)) in
    match created with
    | None => (None, [create])
    | Some texture =>
        let texture := set_tex_layout VK_IMAGE_LAYOUT_TRANSFER_DST_OPTIMAL texture in
        let fill :=
          if negb (data =? nullptr)
          then TcUpdate (tex_image texture) 0 0 width height 0 0 data data_stride
          else
            (* clear it instead so we don't read uninitialized data (and keep
               the validation layer happy!) *)
            TcClearColorImage (tex_image texture) (tex_layout texture) in
        (Some (set_tex_layout VK_IMAGE_LAYOUT_SHADER_READ_ONLY_OPTIMAL texture),
         [create;
          TcTransitionToLayout (tex_image texture) VK_IMAGE_LAYOUT_TRANSFER_DST_OPTIMAL;
          fill;
          TcTransitionToLayout (tex_image texture)
            VK_IMAGE_LAYOUT_SHADER_READ_ONLY_OPTIMAL])
    end.

(** ** Concrete collaborators

    A scripted driver, used to run the methods on explicit inputs.  Fresh
    handles are numbered after the length of the trace, so two calls never
    get the same one. *)

Record Script := {
  script_acquire : list VkResult;      (* successive AcquireNextImage answers *)
  script_resize_ok : bool;
  script_recreate_ok : bool;
  script_surface_ok : bool;
  script_swap_chain : option SwapChain; (* what SwapChain::Create builds *)
  script_context_ok : bool;
  script_vendorID : Z;
  script_driverID : Z;
  script_vma_ok : bool;
  script_texture_ok : bool;
  script_descriptor_ok : bool;
  script_shader_ok : bool;
  script_pipeline_ok : bool;
  script_ubo_ok : bool;
  script_parse : option (list PostProcessingShader);
  script_imgui : bool
}.

Definition fresh (t : Trace) : Z := 1000 + Z.of_nat (length t).

Definition is_acquire (e : Event) : bool :=
  match e with EvAcquireNextImage _ => true | _ => false end.

Definition count_acquires (t : Trace) : nat := length (List.filter is_acquire t).

Definition with_window_info (wi : WindowInfo) (sc : SwapChain) : SwapChain :=
  {| sc_window_info := wi; sc_texture_format := sc_texture_format sc;
     sc_width := wi_surface_width wi; sc_height := wi_surface_height wi;
     sc_swap_chain := sc_swap_chain sc; sc_clear_render_pass := sc_clear_render_pass sc;
     sc_current_framebuffer := sc_current_framebuffer sc;
     sc_current_image_index := sc_current_image_index sc;
     sc_current_texture := sc_current_texture sc;
     sc_image_available_semaphore := sc_image_available_semaphore sc;
     sc_rendering_finished_semaphore := sc_rendering_finished_semaphore sc;
     sc_vsync_enabled := sc_vsync_enabled sc |}.

Definition scripted (s : Script) : Externals := {|
  ext_Context_Create t wi :=
    if script_context_ok s
    then Some (if is_surfaceless (wi_type wi) then None else script_swap_chain s, wi)
    else None;
  ext_vendorID _ := script_vendorID s;
  ext_driverID _ := script_driverID s;
  ext_GetRenderPass _ _ := 7;
  ext_GetUniformBufferAlignment _ := 256;
  ext_AllocateDescriptorSet t _ := if script_descriptor_ok s then fresh t else VK_NULL_HANDLE;
  ext_AcquireNextImage t sc := (nth (count_acquires t) (script_acquire s) VK_SUCCESS, sc);
  ext_ResizeSwapChain t sc _ _ := (script_resize_ok s, sc);
  ext_RecreateSurface t sc wi :=
    (script_recreate_ok s, if script_recreate_ok s then with_window_info wi sc else sc);
  ext_CreateVulkanSurface t wi :=
    (if script_surface_ok s then fresh t else VK_NULL_HANDLE, wi);
  ext_SwapChain_Create t wi _ _ := with_window_info wi <$> script_swap_chain s;
  ext_vmaCreateBuffer t size :=
    if script_vma_ok s then (VK_SUCCESS, fresh t, fresh t + 1, fresh t + 2)
    else (-1, VK_NULL_HANDLE, VK_NULL_HANDLE, nullptr);
  ext_vmaInvalidateAllocation _ _ _ := VK_SUCCESS;
  ext_Texture_Create t tex width height format _ :=
    if script_texture_ok s
    then (true, {| tex_image := fresh t; tex_view := fresh t + 1;
                   tex_allocation := fresh t + 2; tex_width := width;
                   tex_height := height; tex_format := format;
                   tex_layout := VK_IMAGE_LAYOUT_UNDEFINED |})
    else (false, tex);
  ext_Texture_CreateFramebuffer t _ _ := 5000 + fresh t;
  ext_CalcUpdatePitch _ width := u32 (4 * width);
  ext_CalcUpdateRowLength _ pitch := pitch / 4;
  ext_IsDepthFormat _ := false;
  ext_StreamBuffer_Create t sb _ size :=
    if script_ubo_ok s
    then (true, {| sb_buffer := fresh t; sb_current_size := size;
                   sb_current_offset := 0; sb_host_pointer := fresh t + 1 |})
    else (false, sb);
  ext_StreamBuffer_ReserveMemory t sb _ _ := (script_ubo_ok s, sb);
  ext_StreamBuffer_CommitMemory t sb size :=
    {| sb_buffer := sb_buffer sb; sb_current_size := sb_current_size sb;
       sb_current_offset := sb_current_offset sb + size;
       sb_host_pointer := sb_host_pointer sb |};
  ext_GetVertexShader t _ := if script_shader_ok s then fresh t else VK_NULL_HANDLE;
  ext_GetFragmentShader t _ := if script_shader_ok s then fresh t else VK_NULL_HANDLE;
  ext_CreatePipeline t _ _ _ _ := if script_pipeline_ok s then fresh t else VK_NULL_HANDLE;
  ext_CreateFromString t chain _ :=
    match script_parse s with
    | Some parsed => (true, parsed)
    | None => (false, chain)
    end;
  PUSH_CONSTANT_SIZE_THRESHOLD := 128;
  ext_CalculateDrawRect _ width height := (0, 0, width, height);
  ext_CalculateSoftwareCursorDrawRect _ := (0, 0, 16, 16);
  ext_ImGui_GetCurrentContext _ := script_imgui s;
  ext_readback _ n := replicate n 0xFF000000
|}.

Definition a_window : WindowInfo :=
  {| wi_type := Windowed 1; wi_window_handle := 77;
     wi_surface_width := 640; wi_surface_height := 480 |}.

Definition a_swap_chain : SwapChain :=
  {| sc_window_info := a_window; sc_texture_format := VK_FORMAT_B8G8R8A8_UNORM;
     sc_width := 640; sc_height := 480; sc_swap_chain := 11;
     sc_clear_render_pass := 12; sc_current_framebuffer := 13;
     sc_current_image_index := 0;
     sc_current_texture :=
       {| tex_image := 14; tex_view := 15; tex_allocation := 0; tex_width := 640;
          tex_height := 480; tex_format := VK_FORMAT_B8G8R8A8_UNORM;
          tex_layout := VK_IMAGE_LAYOUT_UNDEFINED |};
     sc_image_available_semaphore := 16; sc_rendering_finished_semaphore := 17;
     sc_vsync_enabled := true |}.

(** A driver on which every call succeeds. *)
Definition cooperative : Script :=
  {| script_acquire := []; script_resize_ok := true; script_recreate_ok := true;
     script_surface_ok := true; script_swap_chain := Some a_swap_chain;
     script_context_ok := true; script_vendorID := 0x10DE; script_driverID := 4;
     script_vma_ok := true; script_texture_ok := true; script_descriptor_ok := true;
     script_shader_ok := true; script_pipeline_ok := true; script_ubo_ok := true;
     script_parse := None; script_imgui := false |}.

(** The display right after construction, with the resources that
    CreateResources makes given fixed handles. *)
Definition some_fixed (display_texture : option Texture) : Fixed :=
  {| m_display_texture := display_texture;
     m_display_texture_view_x := 0; m_display_texture_view_y := 0;
     m_display_texture_view_width := 320; m_display_texture_view_height := 240;
     m_display_linear_filtering := false; m_cursor_texture := None;
     m_descriptor_set_layout := 21; m_pipeline_layout := 22;
     m_display_pipeline := 23; m_cursor_pipeline := 24;
     m_point_sampler := 25; m_linear_sampler := 26; m_border_sampler := 27;
     m_post_process_descriptor_set_layout := 28;
     m_post_process_pipeline_layout := 29;
     m_post_process_ubo_descriptor_set_layout := 30;
     m_post_process_ubo_pipeline_layout := 31 |}.

Definition new_display (f : Fixed) : Display :=
  {| fixed := f; m_window_info := WindowInfo_default; m_swap_chain := None;
     m_is_adreno := false;
     m_readback_staging_buffer := VK_NULL_HANDLE;
     m_readback_staging_allocation := VK_NULL_HANDLE;
     m_readback_staging_buffer_map := nullptr;
     m_readback_staging_buffer_size := 0;
     m_post_processing_stages := []; m_post_processing_chain := [];
     m_post_processing_ubo := StreamBuffer_default;
     m_post_processing_input_texture := Texture_default;
     m_post_processing_input_framebuffer := VK_NULL_HANDLE |}.

Definition new_world (d : Display) : World :=
  {| disp := d; trace := []; vma_buffers := ∅ |}.

Definition a_texture : Texture :=
  {| tex_image := 41; tex_view := 42; tex_allocation := 43; tex_width := 320;
     tex_height := 240; tex_format := VK_FORMAT_R8G8B8A8_UNORM;
     tex_layout := VK_IMAGE_LAYOUT_SHADER_READ_ONLY_OPTIMAL |}.

(** A display with a render surface. *)
Definition windowed_world (display_texture : option Texture) : World :=
  new_world (set_m_window_info a_window
               (set_m_swap_chain (Some a_swap_chain)
                  (new_display (some_fixed display_texture)))).

(** ** Vocabulary of the statements *)

(** The events a run added to the trace. *)
Definition added (w w' : World) (evs : Trace) : Prop := trace w' = trace w ++ evs.

(** The calls that make a surface or a swap chain. *)
Definition creates_surface (e : Event) : bool :=
  match e with
  | EvCreateVulkanSurface _ _ | EvSwapChainCreate _ _ _ _ | EvContextCreate _ _ => true
  | _ => false
  end.

(** The trace left by [m_swap_chain.reset()]. *)
Definition reset_events (sc : option SwapChain) : Trace :=
  match sc with
  | Some sc => [EvSwapChainDestroy (sc_swap_chain sc)]
  | None => []
  end.

(** Whenever a swap chain exists, m_window_info is that swap chain's. *)
Definition window_info_in_sync (d : Display) : Prop :=
  forall sc, m_swap_chain d = Some sc -> m_window_info d = sc_window_info sc.

(** No swap chain, and a surfaceless m_window_info. *)
Definition without_surface (d : Display) : Prop :=
  m_swap_chain d = None /\ wi_type (m_window_info d) = Surfaceless.

(** The result Render accepts after its retry. *)
Definition usable (res : VkResult) : bool :=
  (res =? VK_SUCCESS) || (res =? VK_SUBOPTIMAL_KHR).

(** The world a run ends in, whether it returned or stopped on a fault. *)
Definition final {A} (o : Outcome A) : World :=
  match o with
  | Returned _ w => w
  | Aborted _ w => w
  end.

(** What no method but CreateRenderDevice changes: the Adreno flag, and a
    recorded staging-buffer size of zero. *)
Definition keeps (d d' : Display) : Prop :=
  m_is_adreno d' = m_is_adreno d
  /\ (m_readback_staging_buffer_size d = 0 -> m_readback_staging_buffer_size d' = 0).

(** [w'] comes after [w]: the trace grew by calls that satisfy [P], and
    the display kept what [keeps] names. *)
Definition extends (P : Event -> Prop) (w w' : World) : Prop :=
  (exists evs, trace w' = trace w ++ evs /\ Forall P evs)
  /\ keeps (disp w) (disp w').

(** Whatever [m] does, returning or not, stays within [extends P]. *)
Definition within {A} (P : Event -> Prop) (m : M A) : Prop :=
  forall w, extends P w (final (m w)).

(** The calls that acquire an image or rebuild the swap chain. *)
Definition is_swap_chain_call (e : Event) : bool :=
  match e with
  | EvAcquireNextImage _ | EvResizeSwapChain _ _ _ | EvRecreateSurface _ _ => true
  | _ => false
  end.

(** The calls a run added to the trace, whether it returned or not. *)
Definition new_calls {A} (w : World) (o : Outcome A) : Trace :=
  drop (length (trace w)) (trace (final o)).

(** Render retried the acquire once: after the first acquire answered
    [res] it made the calls [recovery] and one more acquire, answered
    [res2]; it acquired twice in all; and it went on to draw and present
    the frame if [res2] is usable, and otherwise executed the command
    buffer and returned false with nothing else called. *)
Definition retries_once `{Externals} (w : World) (res : VkResult) (recovery : Trace) : Prop :=
  exists res2 w2,
    added w w2 ([EvWaitForPresentComplete; EvAcquireNextImage res]
                ++ recovery ++ [EvAcquireNextImage res2])
    /\ count_acquires (new_calls w (Render false w)) = 2%nat
    /\ if usable res2 then Render false w = render_frame w2
       else Render false w = Returned false (log (EvExecuteCommandBuffer false) w2).

(** The world DestroyStagingBuffer leaves. *)
Definition staging_destroyed (w : World) : World :=
  if m_readback_staging_buffer (disp w) =? VK_NULL_HANDLE then w
  else {| disp := set_staging VK_NULL_HANDLE VK_NULL_HANDLE nullptr 0 (disp w);
          trace := trace w ++ [EvVmaDestroyBuffer (m_readback_staging_buffer (disp w))
                                 (m_readback_staging_allocation (disp w))];
          vma_buffers := delete (m_readback_staging_buffer (disp w)) (vma_buffers w) |}.

(** The memory-property flags CheckStagingBufferSize prefers. *)
Definition preferred_flags (is_adreno : bool) : Z :=
  if is_adreno
  then Z.lor VK_MEMORY_PROPERTY_HOST_CACHED_BIT VK_MEMORY_PROPERTY_HOST_COHERENT_BIT
  else VK_MEMORY_PROPERTY_HOST_CACHED_BIT.

(** The vmaCreateBuffer call of CheckStagingBufferSize, as logged. *)
Definition staging_request (is_adreno : bool) (required_size : Z)
    (res : VkResult) (buffer : Z) : Event :=
  EvVmaCreateBuffer required_size VK_BUFFER_USAGE_TRANSFER_DST_BIT
    VMA_MEMORY_USAGE_GPU_TO_CPU VMA_ALLOCATION_CREATE_MAPPED_BIT
    (preferred_flags is_adreno) res buffer.

(** The public methods modelled here, other than CreateRenderDevice. *)
Inductive Call :=
| CallChangeRenderWindow (new_wi : WindowInfo)
| CallResizeRenderWindow (new_window_width new_window_height : Z)
| CallSetFullscreen (fullscreen : bool) (width height : Z) (refresh_rate : float32)
| CallDestroyRenderSurface
| CallDownloadTexture (texture : Texture) (x y width height : Z)
                      (out_data : list Z) (out_data_stride : Z)
| CallRender (skip_present : bool)
| CallRenderScreenshot (width height : Z) (out : Screenshot)
| CallSetPostProcessingChain (config : string).

(** One call, its result dropped. *)
Definition run_call `{Externals} (c : Call) : M unit :=
  match c with
  | CallChangeRenderWindow new_wi => ChangeRenderWindow new_wi;; mret tt
  | CallResizeRenderWindow width height => ResizeRenderWindow width height
  | CallSetFullscreen fullscreen width height refresh_rate =>
      SetFullscreen fullscreen width height refresh_rate;; mret tt
  | CallDestroyRenderSurface => DestroyRenderSurface
  | CallDownloadTexture texture x y width height out_data out_data_stride =>
      DownloadTexture texture x y width height out_data out_data_stride;; mret tt
  | CallRender skip_present => Render skip_present;; mret tt
  | CallRenderScreenshot width height out => RenderScreenshot width height out;; mret tt
  | CallSetPostProcessingChain config => SetPostProcessingChain config;; mret tt
  end.

(** A sequence of calls; a fault ends it. *)
Fixpoint run_calls `{Externals} (cs : list Call) : M unit :=
  match cs with
  | [] => mret tt
  | c :: cs' => run_call c;; run_calls cs'
  end.

(** No restriction on the calls made. *)
Definition any_event (e : Event) : Prop := True.

(** What CreateRenderDevice detects. *)
Definition adreno_detected (vendorID driverID : Z) : bool :=
  (vendorID =? 0x5143) || (driverID =? VK_DRIVER_ID_QUALCOMM_PROPRIETARY).

(** A cooperative driver on a Qualcomm device. *)
Definition an_adreno : Externals :=
  scripted {| script_acquire := []; script_resize_ok := true; script_recreate_ok := true;
              script_surface_ok := true; script_swap_chain := Some a_swap_chain;
              script_context_ok := true; script_vendorID := 0x5143;
              script_driverID := 0; script_vma_ok := true;
              script_texture_ok := true; script_descriptor_ok := true;
              script_shader_ok := true; script_pipeline_ok := true;
              script_ubo_ok := true; script_parse := None;
              script_imgui := false |}.

(** Two textures to read back, 64x64 and 4x4. *)
Definition big_texture : Texture :=
  {| tex_image := 51; tex_view := 52; tex_allocation := 53; tex_width := 64;
     tex_height := 64; tex_format := VK_FORMAT_R8G8B8A8_UNORM;
     tex_layout := VK_IMAGE_LAYOUT_SHADER_READ_ONLY_OPTIMAL |}.

Definition small_texture : Texture :=
  {| tex_image := 61; tex_view := 62; tex_allocation := 63; tex_width := 4;
     tex_height := 4; tex_format := VK_FORMAT_R8G8B8A8_UNORM;
     tex_layout := VK_IMAGE_LAYOUT_SHADER_READ_ONLY_OPTIMAL |}.

(** The swap-chain formats RenderScreenshot handles, by pixel size. *)
Definition is_32bit_format (format : VkFormat) : bool :=
  (format =? VK_FORMAT_R8G8B8A8_UNORM) || (format =? VK_FORMAT_R8G8B8A8_SRGB)
  || (format =? VK_FORMAT_B8G8R8A8_UNORM) || (format =? VK_FORMAT_B8G8R8A8_SRGB).

Definition is_16bit_format (format : VkFormat) : bool :=
  (format =? VK_FORMAT_A1R5G5B5_UNORM_PACK16) || (format =? VK_FORMAT_R5G6B5_UNORM_PACK16).

(** [wp m Q w]: run on [w], the method [m] returns, with a result and a
    world that satisfy [Q]. *)
Definition wp {A} (m : M A) (Q : A -> World -> Prop) (w : World) : Prop :=
  match m w with
  | Returned a w' => Q a w'
  | Aborted _ _ => False
  end.

(** What only adds to the trace. *)
Definition logs_only (w w' : World) : Prop :=
  disp w' = disp w /\ vma_buffers w' = vma_buffers w
  /\ exists evs, trace w' = trace w ++ evs.

(** The result of the stage-building loop: when it gives up, the stage
    list and the chain are both empty; otherwise the chain is as it was. *)
Definition built (chain : list PostProcessingShader) (r : option bool) (w' : World) : Prop :=
  match r with
  | None => m_post_processing_stages (disp w') = []
            /\ m_post_processing_chain (disp w') = []
  | Some _ => m_post_processing_chain (disp w') = chain
  end.

(** What SetPostProcessingChain leaves behind: with an empty config it
    returns true with the stage list and the chain cleared; when it
    returns false after the chain was parsed, both are cleared; when it
    returns false because the chain did not parse, the stage list is as
    it was and the chain is what CreateFromString left. *)
Definition chain_outcome `{Externals} (config : string) (w : World)
    (ok : bool) (w' : World) : Prop :=
  (config = EmptyString ->
   ok = true
   /\ m_post_processing_stages (disp w') = []
   /\ m_post_processing_chain (disp w') = [])
  /\ (ok = false ->
      let parsed := ext_CreateFromString (trace w ++ [EvExecuteCommandBuffer true])
                      (m_post_processing_chain (disp w)) config in
      if parsed.1
      then m_post_processing_stages (disp w') = []
           /\ m_post_processing_chain (disp w') = []
      else m_post_processing_stages (disp w') = m_post_processing_stages (disp w)
           /\ m_post_processing_chain (disp w') = parsed.2).

(** Two shaders: one fed by push constants, one by the uniform buffer. *)
Definition a_shader : PostProcessingShader :=
  {| shader_name := "crt"; shader_use_push_constants := true;
     shader_uniforms_size := 16 |}.

Definition a_ubo_shader : PostProcessingShader :=
  {| shader_name := "bloom"; shader_use_push_constants := false;
     shader_uniforms_size := 256 |}.

(** A built stage whose output texture is sized for the sample window. *)
Definition a_stage (p fb : Z) : PostProcessingStage :=
  {| pipeline := p; output_framebuffer := fb;
     output_texture := {| tex_image := fb + 1; tex_view := fb + 2;
                          tex_allocation := fb + 3; tex_width := 640;
                          tex_height := 480; tex_format := VK_FORMAT_B8G8R8A8_UNORM;
                          tex_layout := VK_IMAGE_LAYOUT_SHADER_READ_ONLY_OPTIMAL |};
     uniforms_size := 16 |}.

(** A display with a render surface and a one-stage chain in use. *)
Definition world_with_chain : World :=
  with_disp (λ d, set_m_post_processing_stages [a_stage 71 0]
                    (set_m_post_processing_chain [a_shader] d))
    (windowed_world (Some a_texture)).

(** A draw, as the trace shows it: the framebuffer of the render pass it
    is in, the image view it samples and the pipeline it runs. *)
Record Pass := {
  pass_target : Z;
  pass_source : Z;
  pass_pipeline : Z
}.

(** The draws of a trace, in order.  [p] holds the framebuffer of the last
    render pass begun, the last image view written to a descriptor set
    and the last pipeline bound. *)
Fixpoint passes_from (p : Pass) (t : Trace) : list Pass :=
  match t with
  | [] => []
  | EvBeginRenderPass _ framebuffer _ _ :: t' =>
      passes_from {| pass_target := framebuffer; pass_source := pass_source p;
                     pass_pipeline := pass_pipeline p |} t'
  | EvCombinedImageSamplerWrite _ _ view _ _ :: t' =>
      passes_from {| pass_target := pass_target p; pass_source := view;
                     pass_pipeline := pass_pipeline p |} t'
  | EvBindPipeline pipeline :: t' =>
      passes_from {| pass_target := pass_target p; pass_source := pass_source p;
                     pass_pipeline := pipeline |} t'
  | EvDraw _ :: t' => p :: passes_from p t'
  | _ :: t' => passes_from p t'
  end.

(** Nothing bound yet. *)
Definition no_pass : Pass :=
  {| pass_target := VK_NULL_HANDLE; pass_source := VK_NULL_HANDLE;
     pass_pipeline := VK_NULL_HANDLE |}.

(** The draws of a stretch of trace. *)
Definition passes (t : Trace) : list Pass := passes_from no_pass t.

(** The draws of the stages, from a stage that samples [source] on: every
    stage but the last draws into its own output framebuffer and hands
    the view of its output texture to the next; the last draws into
    [target_fb]. *)
Fixpoint stage_passes (target_fb source : Z) (stages : list PostProcessingStage)
    : list Pass :=
  match stages with
  | [] => []
  | pps :: rest =>
      match rest with
      | [] => [{| pass_target := target_fb; pass_source := source;
                  pass_pipeline := pipeline pps |}]
      | _ :: _ =>
          {| pass_target := output_framebuffer pps; pass_source := source;
             pass_pipeline := pipeline pps |}
          :: stage_passes target_fb (tex_view (output_texture pps)) rest
      end
  end.

(** The image view stage [i] samples: the chain's input for stage 0, the
    output texture of stage [i-1] for the others. *)
Definition stage_source (input_view : Z) (stages : list PostProcessingStage)
    (i : nat) : Z :=
  match i with
  | O => input_view
  | S j => from_option (λ pps, tex_view (output_texture pps)) input_view (stages !! j)
  end.

(** The draw of stage [i] of [n]: into the target framebuffer for the
    last, index [n-1], into the stage's own output framebuffer otherwise. *)
Definition stage_pass_at (target_fb input_view : Z) (stages : list PostProcessingStage)
    (i : nat) (pps : PostProcessingStage) : Pass :=
  {| pass_target := if bool_decide (S i = length stages) then target_fb
                    else output_framebuffer pps;
     pass_source := stage_source input_view stages i;
     pass_pipeline := pipeline pps |}.

(** A display with a render surface and a chain of three stages, the
    second of which takes its uniforms from the uniform buffer. *)
Definition world_with_three_stages : World :=
  with_disp (λ d, set_m_post_processing_stages
                    [set_pipeline 71 (set_uniforms_size 16 PostProcessingStage_default);
                     set_pipeline 72 (set_uniforms_size 256 PostProcessingStage_default);
                     set_pipeline 73 (set_uniforms_size 16 PostProcessingStage_default)]
                    (set_m_post_processing_chain [a_shader; a_ubo_shader; a_shader] d))
    (windowed_world (Some a_texture)).

(** The state of the scan after a stretch of trace. *)
Fixpoint scan_state (p : Pass) (t : Trace) : Pass :=
  match t with
  | [] => p
  | EvBeginRenderPass _ framebuffer _ _ :: t' =>
      scan_state {| pass_target := framebuffer; pass_source := pass_source p;
                    pass_pipeline := pass_pipeline p |} t'
  | EvCombinedImageSamplerWrite _ _ view _ _ :: t' =>
      scan_state {| pass_target := pass_target p; pass_source := view;
                    pass_pipeline := pass_pipeline p |} t'
  | EvBindPipeline pipeline :: t' =>
      scan_state {| pass_target := pass_target p; pass_source := pass_source p;
                    pass_pipeline := pipeline |} t'
  | _ :: t' => scan_state p t'
  end.

(** What the loop relies on in a stage: pipeline, output framebuffer,
    view of the output texture and size of the uniforms. *)
Definition stage_key (pps : PostProcessingStage) : Z * Z * Z * Z :=
  (pipeline pps, output_framebuffer pps, tex_view (output_texture pps), uniforms_size pps).

(** Assert(pps.uniforms_size <= sizeof(buffer)) holds for every stage that
    uses push constants. *)
Definition push_constants_fit `{Externals} (chain : list PostProcessingShader)
    (stages : list PostProcessingStage) : Prop :=
  forall i shader pps,
    chain !! i = Some shader -> stages !! i = Some pps ->
    shader_use_push_constants shader = true ->
    uniforms_size pps <= PUSH_CONSTANT_SIZE_THRESHOLD.

(** The image view behind a texture pointer. *)
Definition view_of (d : Display) (r : TexRef) : option Z :=
  match r with
  | RefNull => None
  | RefExternal t => Some (tex_view t)
  | RefPostProcessingInput => Some (tex_view (m_post_processing_input_texture d))
  | RefStageOutput j =>
      (λ pps, tex_view (output_texture pps)) <$> m_post_processing_stages d !! j
  end.

(** What a stage of the loop leaves alone. *)
Definition stage_frame (d d' : Display) : Prop :=
  fixed d' = fixed d
  /\ m_swap_chain d' = m_swap_chain d
  /\ m_post_processing_chain d' = m_post_processing_chain d
  /\ m_post_processing_input_texture d' = m_post_processing_input_texture d
  /\ stage_key <$> m_post_processing_stages d' = stage_key <$> m_post_processing_stages d.

(** [evs] shows exactly the draws [l], whatever was bound before. *)
Definition draws (evs : Trace) (l : list Pass) : Prop :=
  forall p, passes_from p evs = l.

(** What one stage of the loop does. *)
Definition stage_done (target_fb : Z) (i : nat) (final_stage : Z) (texture : TexRef)
    (source : Z) (pps : PostProcessingStage) (w : World) (r : option TexRef)
    (w' : World) : Prop :=
  stage_frame (disp w) (disp w')
  /\ r = Some (if Z.of_nat i =? final_stage then texture else RefStageOutput i)
  /\ exists evs,
       trace w' = trace w ++ evs
       /\ draws evs [{| pass_target := if Z.of_nat i =? final_stage then target_fb
                                       else output_framebuffer pps;
                        pass_source := source;
                        pass_pipeline := pipeline pps |}].

(** ** Vocabulary of the further properties *)

(** The loader protocol StaticGetAdapterAndModeList has to keep: whether
    the Vulkan library is loaded, and the instance created on it with
    whether its functions are loaded.  A call out of order has no next
    state.  [context] is the instance of the global context, whose
    functions are always at hand. *)
Definition LoaderState : Type := bool * option (Z * bool).

Definition holds_instance (s : LoaderState) (instance : Z) (functions : bool) : bool :=
  match s.2 with
  | Some (i, loaded) => (i =? instance) && (implb functions loaded)
  | None => false
  end.

Definition is_context (context : option Z) (instance : Z) : bool :=
  match context with
  | Some i => i =? instance
  | None => false
  end.

Definition loader_step (context : option Z) (s : LoaderState) (e : LoaderEvent)
    : option LoaderState :=
  match e with
  | LdLoadVulkanLibrary ok =>
      if s.1 || bool_decide (is_Some context) then None else Some (ok, s.2)
  | LdUnloadVulkanLibrary =>
      if s.1 && negb (bool_decide (is_Some s.2)) then Some (false, None) else None
  | LdCreateVulkanInstance instance =>
      if s.1 && negb (bool_decide (is_Some s.2))
      then Some (true, if instance =? VK_NULL_HANDLE then None else Some (instance, false))
      else None
  | LdDestroyInstance instance =>
      if holds_instance s instance false then Some (s.1, None) else None
  | LdLoadVulkanInstanceFunctions instance ok =>
      if holds_instance s instance false then Some (s.1, Some (instance, ok)) else None
  | LdEnumerateGPUNames instance | LdGetSurfaceFullscreenModes instance _ =>
      if holds_instance s instance true || is_context context instance
      then Some s else None
  end.

Fixpoint loader_scan (context : option Z) (s : LoaderState) (calls : list LoaderEvent)
    : option LoaderState :=
  match calls with
  | [] => Some s
  | e :: calls' =>
      match loader_step context s e with
      | Some s' => loader_scan context s' calls'
      | None => None
      end
  end.

(** Nothing loaded, nothing created. *)
Definition loader_idle : LoaderState := (false, None).

(** The allocator's live buffers are exactly the staging buffer the
    display holds, if it holds one: nothing leaked, nothing dangling. *)
Definition staging_tracked (w : World) : Prop :=
  forall buffer,
    is_Some (vma_buffers w !! buffer)
    <-> buffer = m_readback_staging_buffer (disp w) /\ buffer <> VK_NULL_HANDLE.

(** vmaCreateBuffer hands out a buffer exactly when it succeeds. *)
Definition vma_null_on_failure `{Externals} : Prop :=
  forall t size,
    ((ext_vmaCreateBuffer t size).1.1.1 =? VK_SUCCESS)
    = negb ((ext_vmaCreateBuffer t size).1.1.2 =? VK_NULL_HANDLE).

(** The layout of one image along a stretch of trace that starts with the
    image in [layout]: a subresource transition has to name the layout the
    image is in, and the image has to be in TRANSFER_SRC_OPTIMAL when it
    is copied to a buffer; otherwise there is no layout. *)
Fixpoint layout_scan (image : Z) (layout : VkImageLayout) (t : Trace)
    : option VkImageLayout :=
  match t with
  | [] => Some layout
  | EvTransitionSubresourcesToLayout i old_layout new_layout :: t' =>
      if i =? image then
        if old_layout =? layout then layout_scan image new_layout t' else None
      else layout_scan image layout t'
  | EvTransitionToLayout i new_layout :: t' =>
      layout_scan image (if i =? image then new_layout else layout) t'
  | EvCopyImageToBuffer i _ _ _ _ _ _ _ :: t' =>
      if i =? image then
        if layout =? VK_IMAGE_LAYOUT_TRANSFER_SRC_OPTIMAL
        then layout_scan image layout t' else None
      else layout_scan image layout t'
  | _ :: t' => layout_scan image layout t'
  end.

(** The copies of an image to a buffer in a trace. *)
Definition is_copy (e : Event) : bool :=
  match e with EvCopyImageToBuffer _ _ _ _ _ _ _ _ => true | _ => false end.

(** Where the current command buffer stands after a call: outside a
    render pass (false) or inside one (true).  A render pass is begun
    outside and ended inside; draws are recorded inside; layout
    transitions, barriers and copies are recorded outside, and the
    command buffer is executed or submitted outside.  A call out of place
    has no next state. *)
Definition cmd_step (inside : bool) (e : Event) : option bool :=
  match e with
  | EvBeginRenderPass _ _ _ _ => if inside then None else Some true
  | EvEndRenderPass => if inside then Some false else None
  | EvDraw _ | EvImGuiRenderDrawData => if inside then Some true else None
  | EvTransitionToLayout _ _ | EvTransitionSubresourcesToLayout _ _ _
  | EvBufferMemoryBarrier _ _ _ _ _ | EvCopyImageToBuffer _ _ _ _ _ _ _ _
  | EvExecuteCommandBuffer _ | EvSubmitCommandBuffer _ _ _ _ _ =>
      if inside then None else Some false
  | _ => Some inside
  end.

Fixpoint cmd_scan (inside : bool) (t : Trace) : option bool :=
  match t with
  | [] => Some inside
  | e :: t' =>
      match cmd_step inside e with
      | Some inside' => cmd_scan inside' t'
      | None => None
      end
  end.

(** [runs inside m Q w]: if [m] returns when run on [w], the calls it
    made are in place for a command buffer that stood at [inside], and
    the result, where the command buffer stands now and the world
    satisfy [Q].  Nothing is said of a run that stops on a fault. *)
Definition runs {A} (inside : bool) (m : M A) (Q : A -> bool -> World -> Prop)
    (w : World) : Prop :=
  match m w with
  | Returned a w' =>
      exists evs inside',
        trace w' = trace w ++ evs
        /\ cmd_scan inside evs = Some inside'
        /\ Q a inside' w'
  | Aborted _ _ => True
  end.

(** The stage list has as many stages as before. *)
Definition same_stage_count (w w' : World) : Prop :=
  length (m_post_processing_stages (disp w')) = length (m_post_processing_stages (disp w)).

(** The call that submits the command buffer and presents the image. *)
Definition is_submit (e : Event) : bool :=
  match e with EvSubmitCommandBuffer _ _ _ _ _ => true | _ => false end.

(** The frame was handed over for presenting: the last calls were the
    transition of the swap chain's current image to PRESENT_SRC_KHR, the
    submission of the command buffer for that image, waiting on and
    signalling the swap chain's semaphores, on the presenting thread
    unless vsync is on, and the move to the next command buffer. *)
Definition presented (w w' : World) : Prop :=
  exists sc evs,
    m_swap_chain (disp w') = Some sc
    /\ tex_layout (sc_current_texture sc) = VK_IMAGE_LAYOUT_PRESENT_SRC_KHR
    /\ added w w'
         (evs ++ [EvTransitionToLayout (tex_image (sc_current_texture sc))
                    VK_IMAGE_LAYOUT_PRESENT_SRC_KHR;
                  EvSubmitCommandBuffer (sc_image_available_semaphore sc)
                    (sc_rendering_finished_semaphore sc) (sc_swap_chain sc)
                    (sc_current_image_index sc) (negb (sc_vsync_enabled sc));
                  EvMoveToNextCommandBuffer]).

(** Nothing was submitted. *)
Definition nothing_submitted (w w' : World) : Prop :=
  exists evs, added w w' evs /\ Forall (λ e, is_submit e = false) evs.

(** A driver that is cooperative except that it refuses to resize the
    swap chain, and whose first acquire is out of date. *)
Definition refuses_resize : Script :=
  {| script_acquire := [VK_ERROR_OUT_OF_DATE_KHR]; script_resize_ok := false;
     script_recreate_ok := true; script_surface_ok := true;
     script_swap_chain := Some a_swap_chain; script_context_ok := true;
     script_vendorID := 0x10DE; script_driverID := 4; script_vma_ok := true;
     script_texture_ok := true; script_descriptor_ok := true;
     script_shader_ok := true; script_pipeline_ok := true; script_ubo_ok := true;
     script_parse := None; script_imgui := false |}.

(** A driver that creates surfaces but no swap chain on them, and does
    not recreate the surface of an existing swap chain. *)
Definition no_swap_chain : Script :=
  {| script_acquire := []; script_resize_ok := true;
     script_recreate_ok := false; script_surface_ok := true;
     script_swap_chain := None; script_context_ok := true;
     script_vendorID := 0x10DE; script_driverID := 4; script_vma_ok := true;
     script_texture_ok := true; script_descriptor_ok := true;
     script_shader_ok := true; script_pipeline_ok := true; script_ubo_ok := true;
     script_parse := None; script_imgui := false |}.

(** The render targets of the chain are in place for a target of the
    given size: the input texture has that size, and so has the output
    texture of every stage but the last. *)
Definition targets_ready (target_width target_height : Z) (d : Display) : Prop :=
  tex_width (m_post_processing_input_texture d) = target_width
  /\ tex_height (m_post_processing_input_texture d) = target_height
  /\ forall i pps,
       m_post_processing_stages d !! i = Some pps ->
       (S i < length (m_post_processing_stages d))%nat ->
       tex_width (output_texture pps) = target_width
       /\ tex_height (output_texture pps) = target_height.

(** A display with a render surface and a chain of two stages whose
    render targets are in place for the 640x480 window. *)
Definition world_with_ready_targets : World :=
  with_disp (λ d, set_m_post_processing_input_texture (output_texture (a_stage 0 90))
                    (set_m_post_processing_input_framebuffer 90
                       (set_m_post_processing_stages [a_stage 71 80; a_stage 72 0]
                          (set_m_post_processing_chain [a_shader; a_shader] d))))
    (windowed_world (Some a_texture)).

(** The calls the destructor of a stage makes: deferred destruction of
    its output framebuffer, Destroy(true) of its output texture and
    deferred destruction of its pipeline, each only if it is there. *)
Definition stage_release (pps : PostProcessingStage) : Trace :=
  (if negb (output_framebuffer pps =? VK_NULL_HANDLE)
   then [EvDeferFramebufferDestruction (output_framebuffer pps)] else [])
  ++ (if negb (tex_image (output_texture pps) =? VK_NULL_HANDLE)
      then [EvTextureDestroy (tex_image (output_texture pps)) true] else [])
  ++ (if negb (pipeline pps =? VK_NULL_HANDLE)
      then [EvDeferPipelineDestruction (pipeline pps)] else []).

(** A stage as SetPostProcessingChain builds it for a shader: the size of
    the shader's uniforms, a pipeline, and no render target yet. *)
Definition stage_built_for (shader : PostProcessingShader) (pps : PostProcessingStage)
    : Prop :=
  uniforms_size pps = shader_uniforms_size shader
  /\ pipeline pps <> VK_NULL_HANDLE
  /\ output_framebuffer pps = VK_NULL_HANDLE
  /\ output_texture pps = Texture_default.

(** A cooperative driver whose chain parser yields two shaders. *)
Definition parses_two : Script :=
  {| script_acquire := []; script_resize_ok := true; script_recreate_ok := true;
     script_surface_ok := true; script_swap_chain := Some a_swap_chain;
     script_context_ok := true; script_vendorID := 0x10DE; script_driverID := 4;
     script_vma_ok := true; script_texture_ok := true; script_descriptor_ok := true;
     script_shader_ok := true; script_pipeline_ok := true; script_ubo_ok := true;
     script_parse := Some [a_shader; a_ubo_shader]; script_imgui := false |}.

(** The collaborators [E], except that no vertex shader compiles. *)
Definition without_vertex_shaders (E : Externals) : Externals :=
  {| ext_Context_Create := @ext_Context_Create E;
     ext_vendorID := @ext_vendorID E;
     ext_driverID := @ext_driverID E;
     ext_GetRenderPass := @ext_GetRenderPass E;
     ext_GetUniformBufferAlignment := @ext_GetUniformBufferAlignment E;
     ext_AllocateDescriptorSet := @ext_AllocateDescriptorSet E;
     ext_AcquireNextImage := @ext_AcquireNextImage E;
     ext_ResizeSwapChain := @ext_ResizeSwapChain E;
     ext_RecreateSurface := @ext_RecreateSurface E;
     ext_CreateVulkanSurface := @ext_CreateVulkanSurface E;
     ext_SwapChain_Create := @ext_SwapChain_Create E;
     ext_vmaCreateBuffer := @ext_vmaCreateBuffer E;
     ext_vmaInvalidateAllocation := @ext_vmaInvalidateAllocation E;
     ext_Texture_Create := @ext_Texture_Create E;
     ext_Texture_CreateFramebuffer := @ext_Texture_CreateFramebuffer E;
     ext_CalcUpdatePitch := @ext_CalcUpdatePitch E;
     ext_CalcUpdateRowLength := @ext_CalcUpdateRowLength E;
     ext_IsDepthFormat := @ext_IsDepthFormat E;
     ext_StreamBuffer_Create := @ext_StreamBuffer_Create E;
     ext_StreamBuffer_ReserveMemory := @ext_StreamBuffer_ReserveMemory E;
     ext_StreamBuffer_CommitMemory := @ext_StreamBuffer_CommitMemory E;
     ext_GetVertexShader _ _ := VK_NULL_HANDLE;
     ext_GetFragmentShader := @ext_GetFragmentShader E;
     ext_CreatePipeline := @ext_CreatePipeline E;
     ext_CreateFromString := @ext_CreateFromString E;
     PUSH_CONSTANT_SIZE_THRESHOLD := @PUSH_CONSTANT_SIZE_THRESHOLD E;
     ext_CalculateDrawRect := @ext_CalculateDrawRect E;
     ext_CalculateSoftwareCursorDrawRect := @ext_CalculateSoftwareCursorDrawRect E;
     ext_ImGui_GetCurrentContext := @ext_ImGui_GetCurrentContext E;
     ext_readback := @ext_readback E |}.

(** A driver that is cooperative except that it creates no texture. *)
Definition no_textures : Script :=
  {| script_acquire := []; script_resize_ok := true; script_recreate_ok := true;
     script_surface_ok := true; script_swap_chain := Some a_swap_chain;
     script_context_ok := true; script_vendorID := 0x10DE; script_driverID := 4;
     script_vma_ok := true; script_texture_ok := false; script_descriptor_ok := true;
     script_shader_ok := true; script_pipeline_ok := true; script_ubo_ok := true;
     script_parse := None; script_imgui := false |}.

(** The calls that write the contents of a new texture. *)
Definition is_fill (c : TextureCall) : bool :=
  match c with
  | TcUpdate _ _ _ _ _ _ _ _ _ | TcClearColorImage _ _ => true
  | _ => false
  end.

(** The layout a new texture is in after a stretch of calls, as
    TransitionToLayout leaves it; a clear has to find the texture in the
    layout it names, which has to be TRANSFER_DST_OPTIMAL. *)
Fixpoint new_texture_layout (layout : VkImageLayout) (calls : list TextureCall)
    : option VkImageLayout :=
  match calls with
  | [] => Some layout
  | TcTransitionToLayout _ new_layout :: calls' => new_texture_layout new_layout calls'
  | TcClearColorImage _ clear_layout :: calls' =>
      if (clear_layout =? layout) && (layout =? VK_IMAGE_LAYOUT_TRANSFER_DST_OPTIMAL)
      then new_texture_layout layout calls' else None
  | _ :: calls' => new_texture_layout layout calls'
  end.

(** A driver that is cooperative except that it allocates no buffer. *)
Definition no_buffers : Script :=
  {| script_acquire := []; script_resize_ok := true; script_recreate_ok := true;
     script_surface_ok := true; script_swap_chain := Some a_swap_chain;
     script_context_ok := true; script_vendorID := 0x10DE; script_driverID := 4;
     script_vma_ok := false; script_texture_ok := true; script_descriptor_ok := true;
     script_shader_ok := true; script_pipeline_ok := true; script_ubo_ok := true;
     script_parse := None; script_imgui := false |}.

(** ** Running the monad *)

Lemma bind_run {A B} (m : M A) (k : A -> M B) (w : World) :
  (m ≫= k) w = match m w with
               | Returned a w' => k a w'
               | Aborted f w' => Aborted f w'
               end.
Proof. reflexivity. Qed.

(** Unfold the primitives and compute as far as the answers allow. *)
Ltac run :=
  repeat (rewrite ?bind_run;
          unfold mret, M_ret, get, modify, emit, ask, query, abort, vma_alloc,
                 vma_free, with_disp, log, with_vma;
          cbn [disp trace vma_buffers fst snd negb andb orb
               fixed m_window_info m_swap_chain m_is_adreno
               m_readback_staging_buffer m_readback_staging_allocation
               m_readback_staging_buffer_map m_readback_staging_buffer_size
               m_post_processing_stages m_post_processing_chain
               m_post_processing_ubo m_post_processing_input_texture
               m_post_processing_input_framebuffer
               set_m_window_info set_m_swap_chain set_m_is_adreno set_staging
               set_staging_handles set_m_readback_staging_buffer_map
               set_m_post_processing_stages set_m_post_processing_chain
               set_m_post_processing_ubo set_m_post_processing_input_texture
               set_m_post_processing_input_framebuffer]).

Ltac run_in H :=
  repeat (rewrite ?bind_run in H;
          unfold mret, M_ret, get, modify, emit, ask, query, abort, vma_alloc,
                 vma_free, with_disp, log, with_vma in H;
          cbn [disp trace vma_buffers fst snd negb andb orb
               fixed m_window_info m_swap_chain m_is_adreno
               m_readback_staging_buffer m_readback_staging_allocation
               m_readback_staging_buffer_map m_readback_staging_buffer_size
               m_post_processing_stages m_post_processing_chain
               m_post_processing_ubo m_post_processing_input_texture
               m_post_processing_input_framebuffer
               set_m_window_info set_m_swap_chain set_m_is_adreno set_staging
               set_staging_handles set_m_readback_staging_buffer_map
               set_m_post_processing_stages set_m_post_processing_chain
               set_m_post_processing_ubo set_m_post_processing_input_texture
               set_m_post_processing_input_framebuffer] in H).

Lemma reset_swap_chain_run (w : World) :
  reset_swap_chain w =
  Returned tt {| disp := set_m_swap_chain None (disp w);
                 trace := trace w ++ reset_events (m_swap_chain (disp w));
                 vma_buffers := vma_buffers w |}.
Proof.
  unfold reset_swap_chain. run.
  destruct w as [d t v]; simpl. destruct (m_swap_chain d) as [sc|] eqn:Hsc; run; simpl.
  - reflexivity.
  - rewrite app_nil_r. destruct d; simpl in *. subst. reflexivity.
Qed.

(** ** Fullscreen *)

(** C9: the Vulkan display never supports exclusive fullscreen:
    SupportsFullscreen and IsFullscreen answer false, and SetFullscreen
    returns false, changing nothing, whatever its arguments. *)
Theorem fullscreen_never_supported (w : World) (fullscreen : bool)
    (width height : Z) (refresh_rate : float32) :
  SupportsFullscreen (disp w) = false
  /\ IsFullscreen w = Returned false w
  /\ SetFullscreen fullscreen width height refresh_rate w = Returned false w.
Proof. repeat split. Qed.

(** ** The render window *)

(** The Surfaceless branch of ChangeRenderWindow, run. *)
Lemma ChangeRenderWindow_surfaceless_run `{Externals} (new_wi : WindowInfo) (w : World) :
  wi_type new_wi = Surfaceless ->
  ChangeRenderWindow new_wi w =
  Returned true
    {| disp := set_m_window_info new_wi (set_m_swap_chain None (disp w));
       trace := trace w ++ [EvWaitForGPUIdle; EvExecuteCommandBuffer true]
                ++ reset_events (m_swap_chain (disp w));
       vma_buffers := vma_buffers w |}.
Proof.
  intros Hs. unfold ChangeRenderWindow. rewrite Hs. cbn [is_surfaceless].
  run. rewrite reset_swap_chain_run. run. rewrite <- !app_assoc. reflexivity.
Qed.

(** C10: ChangeRenderWindow with a Surfaceless window always succeeds: it
    waits for the GPU, executes the command buffer, destroys the swap
    chain if there is one, stores the new window info and returns true;
    no surface or swap chain is created and HasRenderSurface is false
    afterwards. *)
Theorem ChangeRenderWindow_surfaceless `{Externals} (new_wi : WindowInfo) (w : World) :
  wi_type new_wi = Surfaceless ->
  exists w',
    ChangeRenderWindow new_wi w = Returned true w'
    /\ HasRenderSurface (disp w') = false
    /\ m_swap_chain (disp w') = None
    /\ m_window_info (disp w') = new_wi
    /\ added w w' ([EvWaitForGPUIdle; EvExecuteCommandBuffer true]
                   ++ reset_events (m_swap_chain (disp w)))
    /\ forall e, e ∈ drop (length (trace w)) (trace w') -> creates_surface e = false.
Proof.
  intros Hs. rewrite (ChangeRenderWindow_surfaceless_run new_wi w Hs).
  eexists. split; [reflexivity|]. cbn [disp trace].
  repeat split.
  intros e. rewrite drop_app_length. intros He.
  destruct (m_swap_chain (disp w)); cbn in He;
    repeat (apply elem_of_cons in He as [->|He]; [reflexivity|]);
    apply elem_of_nil in He; contradiction.
Qed.

Lemma ChangeRenderWindow_surfaceless_witness :
  exists w',
    @ChangeRenderWindow (scripted cooperative) WindowInfo_default (windowed_world None)
      = Returned true w'
    /\ HasRenderSurface (disp w') = false
    /\ m_swap_chain (disp w') = None
    /\ m_window_info (disp w') = WindowInfo_default
    /\ added (windowed_world None) w'
         ([EvWaitForGPUIdle; EvExecuteCommandBuffer true]
          ++ reset_events (m_swap_chain (disp (windowed_world None))))
    /\ forall e, e ∈ drop (length (trace (windowed_world None))) (trace w') ->
                 creates_surface e = false.
Proof.
  apply (@ChangeRenderWindow_surfaceless (scripted cooperative) WindowInfo_default
           (windowed_world None)).
  reflexivity.
Defined.

Lemma in_sync_none (d : Display) : m_swap_chain d = None -> window_info_in_sync d.
Proof. intros Hn sc Hsc. congruence. Qed.

Lemma ChangeRenderWindow_in_sync `{Externals} (new_wi : WindowInfo) (w : World) :
  exists r w', ChangeRenderWindow new_wi w = Returned r w'
               /\ window_info_in_sync (disp w').
Proof.
  destruct (wi_type new_wi) eqn:Hty.
  - rewrite (ChangeRenderWindow_surfaceless_run new_wi w Hty).
    eexists _, _. split; [reflexivity|]. apply in_sync_none. reflexivity.
  - unfold ChangeRenderWindow. rewrite Hty. cbn [is_surfaceless]. run.
    unfold HasRenderSurface.
    destruct (m_swap_chain (disp w)) as [sc|] eqn:Hsc.
    + rewrite bool_decide_eq_true_2 by eauto.
      unfold SwapChain_RecreateSurface, deref_swap_chain. run. cbn. rewrite Hsc. run.
      destruct (ext_RecreateSurface _ sc new_wi) as [[|] sc'] eqn:Hrec; run; cbn.
      * eexists _, _. split; [reflexivity|]. intros sc2 Hsc2. cbn in *. congruence.
      * rewrite reset_swap_chain_run. run. cbn.
        destruct (ext_CreateVulkanSurface _ new_wi) as [surface wi_copy]; cbn.
        destruct (surface =? VK_NULL_HANDLE).
        { eexists _, _. split; [reflexivity|]. apply in_sync_none. reflexivity. }
        run. cbn. destruct (ext_SwapChain_Create _ wi_copy surface false) as [sc3|]; run; cbn.
        { eexists _, _. split; [reflexivity|]. intros sc4 Hsc4. cbn in *. congruence. }
        { eexists _, _. split; [reflexivity|]. apply in_sync_none. reflexivity. }
    + rewrite bool_decide_eq_false_2 by (intros [? ?]; discriminate). run. cbn.
      destruct (ext_CreateVulkanSurface _ new_wi) as [surface wi_copy]; cbn.
      destruct (surface =? VK_NULL_HANDLE).
      { eexists _, _. split; [reflexivity|]. apply in_sync_none. exact Hsc. }
      run. cbn. destruct (ext_SwapChain_Create _ wi_copy surface false) as [sc3|]; run; cbn.
      { eexists _, _. split; [reflexivity|]. intros sc4 Hsc4. cbn in *. congruence. }
      { eexists _, _. split; [reflexivity|]. apply in_sync_none. reflexivity. }
Qed.

Lemma ResizeRenderWindow_run `{Externals} (width height : Z) (w : World) (sc : SwapChain) :
  m_swap_chain (disp w) = Some sc ->
  let r := ext_ResizeSwapChain (trace w ++ [EvWaitForGPUIdle]) sc width height in
  let w1 := {| disp := set_m_swap_chain (Some r.2) (disp w);
               trace := trace w ++ [EvWaitForGPUIdle; EvResizeSwapChain width height r.1];
               vma_buffers := vma_buffers w |} in
  ResizeRenderWindow width height w =
  if r.1 then Returned tt (with_disp (set_m_window_info (sc_window_info r.2)) w1)
  else Aborted (Panic "Failed to resize swap chain") w1.
Proof.
  intros Hsc. unfold ResizeRenderWindow, SwapChain_ResizeSwapChain, deref_swap_chain.
  run. cbn. rewrite Hsc. run.
  destruct (ext_ResizeSwapChain _ sc width height) as [[|] sc'];
    run; cbn; rewrite <- app_assoc; reflexivity.
Qed.

Lemma ResizeRenderWindow_null `{Externals} (width height : Z) (w : World) :
  m_swap_chain (disp w) = None ->
  ResizeRenderWindow width height w = Aborted NullDereference (log EvWaitForGPUIdle w).
Proof.
  intros Hsc. unfold ResizeRenderWindow, SwapChain_ResizeSwapChain, deref_swap_chain.
  run. cbn. rewrite Hsc. reflexivity.
Qed.

Lemma DestroyRenderSurface_run (w : World) :
  exists w', DestroyRenderSurface w = Returned tt w'
             /\ m_swap_chain (disp w') = None
             /\ m_window_info (disp w') = SetSurfaceless (m_window_info (disp w)).
Proof.
  unfold DestroyRenderSurface. run. rewrite reset_swap_chain_run.
  eexists. split; [reflexivity|]. split; reflexivity.
Qed.

Lemma CreateRenderDevice_in_sync `{Externals} (wi : WindowInfo) (w : World) :
  m_swap_chain (disp w) = None ->
  exists r w', CreateRenderDevice wi w = Returned r w'
               /\ window_info_in_sync (disp w').
Proof.
  intros Hn. unfold CreateRenderDevice. run.
  destruct (ext_Context_Create (trace w) wi) as [[sc local_wi]|]; run; cbn.
  - eexists _, _. split; [reflexivity|].
    intros sc2 Hsc2. cbn in *. subst sc. reflexivity.
  - eexists _, _. split; [reflexivity|]. apply in_sync_none. exact Hn.
Qed.

(** C8: after ChangeRenderWindow, ResizeRenderWindow, CreateRenderDevice
    (called, as it is, on a display that has no swap chain yet) or
    DestroyRenderSurface returns, m_window_info is the window info of the
    swap chain whenever there is one; and after DestroyRenderSurface, or
    a successful ChangeRenderWindow to a Surfaceless window, there is no
    swap chain and m_window_info is surfaceless.  ChangeRenderWindow,
    CreateRenderDevice and DestroyRenderSurface always return;
    ResizeRenderWindow returns when there is a swap chain and the driver
    resizes it. *)
Theorem window_info_follows_swap_chain `{Externals} (w : World) :
  (forall new_wi, exists r w',
      ChangeRenderWindow new_wi w = Returned r w'
      /\ window_info_in_sync (disp w')
      /\ (r = true -> wi_type new_wi = Surfaceless -> without_surface (disp w')))
  /\ (forall width height,
        (forall w', ResizeRenderWindow width height w = Returned tt w' ->
                    window_info_in_sync (disp w'))
        /\ (forall sc, m_swap_chain (disp w) = Some sc ->
                       (ext_ResizeSwapChain (trace w ++ [EvWaitForGPUIdle]) sc width height).1 = true ->
                       exists w', ResizeRenderWindow width height w = Returned tt w'))
  /\ (forall wi, m_swap_chain (disp w) = None ->
                 exists r w', CreateRenderDevice wi w = Returned r w'
                              /\ window_info_in_sync (disp w'))
  /\ (exists w', DestroyRenderSurface w = Returned tt w'
                 /\ window_info_in_sync (disp w')
                 /\ without_surface (disp w')).
Proof.
  split; [|split; [|split]].
  - intros new_wi.
    destruct (ChangeRenderWindow_in_sync new_wi w) as (r & w' & Hr & Hs).
    exists r, w'. split; [exact Hr|]. split; [exact Hs|].
    intros _ Hty.
    rewrite (ChangeRenderWindow_surfaceless_run new_wi w Hty) in Hr.
    injection Hr as _ <-. split; [reflexivity|]. exact Hty.
  - intros width height. split.
    + intros w' Hr. destruct (m_swap_chain (disp w)) as [sc|] eqn:Hsc.
      * rewrite (ResizeRenderWindow_run width height w sc Hsc) in Hr. cbn zeta in Hr.
        destruct (ext_ResizeSwapChain _ sc width height) as [[|] sc']; cbn in Hr; [|discriminate].
        injection Hr as <-. intros sc2 Hsc2. cbn in *. congruence.
      * rewrite (ResizeRenderWindow_null width height w Hsc) in Hr. discriminate.
    + intros sc Hsc Hok. rewrite (ResizeRenderWindow_run width height w sc Hsc). cbn zeta.
      rewrite Hok. eexists. reflexivity.
  - intros wi Hn. apply CreateRenderDevice_in_sync, Hn.
  - destruct (DestroyRenderSurface_run w) as (w' & Hr & Hn & Hwi).
    exists w'. split; [exact Hr|]. split; [apply in_sync_none, Hn|].
    split; [exact Hn|]. rewrite Hwi. reflexivity.
Qed.

Lemma window_info_follows_swap_chain_witness :
  (exists w', @ResizeRenderWindow (scripted cooperative) 800 600 (windowed_world None)
              = Returned tt w')
  /\ (exists r w',
        @CreateRenderDevice (scripted cooperative) a_window
          (new_world (new_display (some_fixed None))) = Returned r w'
        /\ window_info_in_sync (disp w')).
Proof.
  split.
  - destruct (@window_info_follows_swap_chain (scripted cooperative) (windowed_world None))
      as (_ & Hresize & _).
    apply (proj2 (Hresize 800 600) a_swap_chain); reflexivity.
  - destruct (@window_info_follows_swap_chain (scripted cooperative)
                (new_world (new_display (some_fixed None)))) as (_ & _ & Hcreate & _).
    apply Hcreate. reflexivity.
Defined.

(** ** Render: acquiring the swap-chain image *)

Lemma AcquireNextImage_run `{Externals} (w : World) (sc : SwapChain) :
  m_swap_chain (disp w) = Some sc ->
  let r := ext_AcquireNextImage (trace w) sc in
  SwapChain_AcquireNextImage w =
  Returned r.1 {| disp := set_m_swap_chain (Some r.2) (disp w);
                  trace := trace w ++ [EvAcquireNextImage r.1];
                  vma_buffers := vma_buffers w |}.
Proof.
  intros Hsc. unfold SwapChain_AcquireNextImage, deref_swap_chain. run.
  rewrite Hsc. run. reflexivity.
Qed.

Lemma RecreateSurface_run `{Externals} (w : World) (sc : SwapChain) (wi : WindowInfo) :
  m_swap_chain (disp w) = Some sc ->
  let r := ext_RecreateSurface (trace w) sc wi in
  SwapChain_RecreateSurface wi w =
  Returned r.1 {| disp := set_m_swap_chain (Some r.2) (disp w);
                  trace := trace w ++ [EvRecreateSurface wi r.1];
                  vma_buffers := vma_buffers w |}.
Proof.
  intros Hsc. unfold SwapChain_RecreateSurface, deref_swap_chain. run.
  rewrite Hsc. run. reflexivity.
Qed.

(** Render, up to and including the first acquire. *)
Lemma Render_first_acquire `{Externals} (w : World) (sc : SwapChain) :
  m_swap_chain (disp w) = Some sc ->
  let r := ext_AcquireNextImage (trace w ++ [EvWaitForPresentComplete]) sc in
  let w1 := {| disp := set_m_swap_chain (Some r.2) (disp w);
               trace := trace w ++ [EvWaitForPresentComplete; EvAcquireNextImage r.1];
               vma_buffers := vma_buffers w |} in
  Render false w =
  if r.1 =? VK_SUCCESS then render_frame w1
  else
    match acquire_with_retry r.1 w1 with
    | Returned None w2 => Returned false w2
    | Returned (Some res) w2 =>
        if negb (res =? VK_SUCCESS) && negb (res =? VK_SUBOPTIMAL_KHR)
        then Returned false (log (EvExecuteCommandBuffer false) w2)
        else render_frame w2
    | Aborted f w2 => Aborted f w2
    end.
Proof.
  intros Hsc r w1. unfold Render. run. unfold HasRenderSurface.
  rewrite Hsc, bool_decide_eq_true_2 by eauto. run.
  rewrite (AcquireNextImage_run _ sc) by exact Hsc. cbn zeta. run.
  fold r. rewrite <- app_assoc. cbn [app]. fold w1.
  destruct (r.1 =? VK_SUCCESS); cbn [negb]; [reflexivity|].
  run. destruct (acquire_with_retry r.1 w1) as [[res|] w2|f w2]; [|reflexivity..].
  destruct (negb (res =? VK_SUCCESS) && negb (res =? VK_SUBOPTIMAL_KHR)); run; reflexivity.
Qed.

(** C2: when the acquire fails with VK_ERROR_SURFACE_LOST_KHR and
    recreating the surface fails too, Render executes the current command
    buffer, destroys the swap chain (HasRenderSurface is false afterwards)
    and returns false. *)
Theorem Render_surface_lost_not_recreated `{Externals} (w : World) (sc sc1 sc2 : SwapChain) :
  m_swap_chain (disp w) = Some sc ->
  ext_AcquireNextImage (trace w ++ [EvWaitForPresentComplete]) sc
    = (VK_ERROR_SURFACE_LOST_KHR, sc1) ->
  ext_RecreateSurface
    (trace w ++ [EvWaitForPresentComplete; EvAcquireNextImage VK_ERROR_SURFACE_LOST_KHR])
    sc1 (m_window_info (disp w)) = (false, sc2) ->
  exists w',
    Render false w = Returned false w'
    /\ HasRenderSurface (disp w') = false
    /\ added w w' [EvWaitForPresentComplete;
                   EvAcquireNextImage VK_ERROR_SURFACE_LOST_KHR;
                   EvRecreateSurface (m_window_info (disp w)) false;
                   EvExecuteCommandBuffer false;
                   EvSwapChainDestroy (sc_swap_chain sc2)].
Proof.
  intros Hsc Hacq Hrec.
  rewrite (Render_first_acquire w sc Hsc). cbn zeta. rewrite Hacq. cbn [fst snd].
  change (VK_ERROR_SURFACE_LOST_KHR =? VK_SUCCESS) with false. cbv iota.
  unfold acquire_with_retry.
  change ((VK_ERROR_SURFACE_LOST_KHR =? VK_SUBOPTIMAL_KHR)
          || (VK_ERROR_SURFACE_LOST_KHR =? VK_ERROR_OUT_OF_DATE_KHR)) with false.
  change (VK_ERROR_SURFACE_LOST_KHR =? VK_ERROR_SURFACE_LOST_KHR) with true. cbv iota.
  run. rewrite (RecreateSurface_run _ sc1) by reflexivity. cbn zeta. cbn [trace disp].
  rewrite Hrec. run. rewrite reset_swap_chain_run. run.
  eexists. split; [reflexivity|]. split; [reflexivity|].
  unfold added. cbn. rewrite <- !app_assoc. reflexivity.
Qed.

Lemma Render_surface_lost_not_recreated_witness :
  let E := scripted {| script_acquire := [VK_ERROR_SURFACE_LOST_KHR];
                       script_resize_ok := true; script_recreate_ok := false;
                       script_surface_ok := true; script_swap_chain := Some a_swap_chain;
                       script_context_ok := true; script_vendorID := 0x10DE;
                       script_driverID := 4; script_vma_ok := true;
                       script_texture_ok := true; script_descriptor_ok := true;
                       script_shader_ok := true; script_pipeline_ok := true;
                       script_ubo_ok := true; script_parse := None;
                       script_imgui := false |} in
  exists w',
    @Render E false (windowed_world None) = Returned false w'
    /\ HasRenderSurface (disp w') = false
    /\ added (windowed_world None) w'
         [EvWaitForPresentComplete;
          EvAcquireNextImage VK_ERROR_SURFACE_LOST_KHR;
          EvRecreateSurface a_window false;
          EvExecuteCommandBuffer false;
          EvSwapChainDestroy 11].
Proof.
  intros E.
  apply (@Render_surface_lost_not_recreated E (windowed_world None)
           a_swap_chain a_swap_chain a_swap_chain); reflexivity.
Defined.

(** ** What a method may touch *)

Lemma keeps_refl d : keeps d d.
Proof. split; auto. Qed.

Lemma keeps_trans d1 d2 d3 : keeps d1 d2 -> keeps d2 d3 -> keeps d1 d3.
Proof. intros [A1 S1] [A2 S2]. split; [congruence | auto]. Qed.

Lemma extends_refl P w : extends P w w.
Proof. split; [exists []; rewrite app_nil_r; auto | apply keeps_refl]. Qed.

Lemma extends_trans P w1 w2 w3 : extends P w1 w2 -> extends P w2 w3 -> extends P w1 w3.
Proof.
  intros [(e1 & H1 & F1) A1] [(e2 & H2 & F2) A2]. split.
  - exists (e1 ++ e2). rewrite H2, H1, app_assoc. split; [reflexivity|].
    apply Forall_app; auto.
  - eapply keeps_trans; eauto.
Qed.

Section Footprint.
Context (P : Event -> Prop).

Lemma within_ret {A} (a : A) : within P (mret a).
Proof. intros w. apply extends_refl. Qed.

Lemma within_bind {A B} (m : M A) (k : A -> M B) :
  within P m -> (forall a, within P (k a)) -> within P (m ≫= k).
Proof.
  intros Hm Hk w. rewrite bind_run. specialize (Hm w).
  destruct (m w) as [a w1|f w1]; cbn [final] in *; [|exact Hm].
  eapply extends_trans; [exact Hm|apply Hk].
Qed.

Lemma within_get {A} (f : Display -> A) : within P (get f).
Proof. intros w. apply extends_refl. Qed.

Lemma within_query {A} (f : Trace -> A) : within P (query f).
Proof. intros w. apply extends_refl. Qed.

Lemma within_abort {A} (f : Fault) : within P (abort f : M A).
Proof. intros w. apply extends_refl. Qed.

Lemma within_emit (e : Event) : P e -> within P (emit e).
Proof. intros He w. split; [exists [e]; split; [reflexivity|auto] | apply keeps_refl]. Qed.

Lemma within_ask {A} (f : Trace -> A) (ev : A -> Event) :
  (forall a, P (ev a)) -> within P (ask f ev).
Proof. intros He w. split; [eexists [_]; split; [reflexivity|auto] | apply keeps_refl]. Qed.

Lemma within_modify (f : Display -> Display) :
  (forall d, keeps d (f d)) -> within P (modify f).
Proof. intros Hf w. split; [exists []; rewrite app_nil_r; auto | apply Hf]. Qed.

Lemma within_vma_alloc (buffer size : Z) : within P (vma_alloc buffer size).
Proof. intros w. split; [exists []; cbn; rewrite app_nil_r; auto | apply keeps_refl]. Qed.

Lemma within_vma_free (buffer : Z) : within P (vma_free buffer).
Proof. intros w. split; [exists []; cbn; rewrite app_nil_r; auto | apply keeps_refl]. Qed.

End Footprint.

Create HintDb footprint.

Ltac footprint_event :=
  first [ assumption
        | match goal with Hq : forall e, is_swap_chain_call e = false -> ?P e |- ?P _ =>
            apply Hq; reflexivity end
        | exact I ].

Ltac footprint :=
  repeat first
    [ apply within_ret
    | apply within_get
    | apply within_query
    | apply within_abort
    | apply within_vma_alloc
    | apply within_vma_free
    | apply within_emit; footprint_event
    | apply within_ask; intros; footprint_event
    | apply within_modify; intros; split; [reflexivity | cbn; auto]
    | solve [eauto with footprint]
    | apply within_bind; [|intros]
    | match goal with
      | |- within _ (let _ := _ in _) => cbv zeta
      | |- within _ (if ?b then _ else _) => destruct b
      | |- within _ (match ?x with _ => _ end) => destruct x
      end ].

Section Quiet.
Context `{Externals} (P : Event -> Prop).
Hypothesis P_quiet : forall e, is_swap_chain_call e = false -> P e.

Lemma within_deref_swap_chain : within P deref_swap_chain.
Proof using Type. unfold deref_swap_chain. footprint. Qed.

Lemma within_Texture_TransitionToLayout t l : within P (Texture_TransitionToLayout t l).
Proof using P_quiet. unfold Texture_TransitionToLayout. footprint. Qed.

Lemma within_Texture_Destroy t defer : within P (Texture_Destroy t defer).
Proof using P_quiet. unfold Texture_Destroy. footprint. Qed.

Lemma within_Texture_Create t w h f u : within P (Texture_Create t w h f u).
Proof using P_quiet. unfold Texture_Create. footprint. Qed.

Lemma within_Texture_CreateFramebuffer t rp : within P (Texture_CreateFramebuffer t rp).
Proof using P_quiet. unfold Texture_CreateFramebuffer. footprint. Qed.

Lemma within_deref_texture r : within P (deref_texture r).
Proof using Type. unfold deref_texture. footprint. Qed.

Lemma within_GetRenderPassForDisplay : within P GetRenderPassForDisplay.
Proof using Type. unfold GetRenderPassForDisplay. footprint. Qed.

Lemma within_stage_at i : within P (stage_at i).
Proof using Type. unfold stage_at. footprint. Qed.

Lemma within_set_stage_at i pps : within P (set_stage_at i pps).
Proof using Type. unfold set_stage_at. footprint. Qed.

Lemma within_GetShaderStage i : within P (GetShaderStage i).
Proof using Type. unfold GetShaderStage. footprint. Qed.

Local Hint Resolve within_deref_swap_chain within_Texture_TransitionToLayout
  within_Texture_Destroy within_Texture_Create within_Texture_CreateFramebuffer
  within_deref_texture within_GetRenderPassForDisplay within_stage_at
  within_set_stage_at within_GetShaderStage : footprint.

Lemma within_destroy_stages l : within P (destroy_stages l).
Proof using P_quiet.
  induction l as [|pps l IH]; cbn [destroy_stages]; [footprint|].
  apply within_bind; [unfold destroy_stage; footprint | intros; exact IH].
Qed.

Local Hint Resolve within_destroy_stages : footprint.

Lemma within_clear_stages : within P clear_stages.
Proof using P_quiet. unfold clear_stages. footprint. Qed.

Lemma within_ClearStages : within P ClearStages.
Proof using Type. unfold ClearStages. footprint. Qed.

Lemma within_BeginSwapChainRenderPass fb w h : within P (BeginSwapChainRenderPass fb w h).
Proof using P_quiet. unfold BeginSwapChainRenderPass. footprint. Qed.

Lemma within_RenderDisplay_to l t w h tex vx vy vw vh lin :
  within P (RenderDisplay_to l t w h tex vx vy vw vh lin).
Proof using P_quiet. unfold RenderDisplay_to. footprint. Qed.

Local Hint Resolve within_clear_stages within_ClearStages within_BeginSwapChainRenderPass
  within_RenderDisplay_to : footprint.

Lemma within_check_stage_targets n : forall i tw th, within P (check_stage_targets n i tw th).
Proof using P_quiet.
  induction n as [|n IH]; intros i tw th; cbn [check_stage_targets]; [footprint|].
  footprint.
Qed.

Local Hint Resolve within_check_stage_targets : footprint.

Lemma within_CheckPostProcessingRenderTargets tw th :
  within P (CheckPostProcessingRenderTargets tw th).
Proof using P_quiet. unfold CheckPostProcessingRenderTargets. footprint. Qed.

Lemma within_apply_stage i fs fb tex tw th : within P (apply_stage i fs fb tex tw th).
Proof using P_quiet. unfold apply_stage. footprint. Qed.

Local Hint Resolve within_CheckPostProcessingRenderTargets within_apply_stage : footprint.

Lemma within_apply_stages n : forall i fs fb tex tw th,
  within P (apply_stages n i fs fb tex tw th).
Proof using P_quiet.
  induction n as [|n IH]; intros; cbn [apply_stages]; footprint.
Qed.

Local Hint Resolve within_apply_stages : footprint.

Lemma within_ApplyPostProcessingChain fb l t w h tex vx vy vw vh tw th :
  within P (ApplyPostProcessingChain fb l t w h tex vx vy vw vh tw th).
Proof using P_quiet. unfold ApplyPostProcessingChain. footprint. Qed.

Local Hint Resolve within_ApplyPostProcessingChain : footprint.

Lemma within_RenderDisplay : within P RenderDisplay.
Proof using P_quiet.
  unfold RenderDisplay. footprint.
Qed.

Lemma within_RenderImGui : within P RenderImGui.
Proof using P_quiet. unfold RenderImGui. footprint. Qed.

Lemma within_RenderSoftwareCursor : within P RenderSoftwareCursor.
Proof using P_quiet.
  unfold RenderSoftwareCursor, RenderSoftwareCursor_to. footprint.
Qed.

Local Hint Resolve within_RenderDisplay within_RenderImGui within_RenderSoftwareCursor : footprint.

Lemma within_render_frame : within P render_frame.
Proof using P_quiet.
  unfold render_frame, swap_chain_texture_update. footprint.
Qed.

Lemma within_DestroyStagingBuffer : within P DestroyStagingBuffer.
Proof using P_quiet. unfold DestroyStagingBuffer. footprint. Qed.

Local Hint Resolve within_DestroyStagingBuffer : footprint.

Lemma within_CheckStagingBufferSize n : within P (CheckStagingBufferSize n).
Proof using P_quiet.
  unfold CheckStagingBufferSize. footprint.
Qed.

Local Hint Resolve within_CheckStagingBufferSize : footprint.

Lemma within_DownloadTexture tex x y w h out stride :
  within P (DownloadTexture tex x y w h out stride).
Proof using P_quiet. unfold DownloadTexture. footprint. Qed.

Local Hint Resolve within_DownloadTexture : footprint.

Lemma within_RenderScreenshot w h out : within P (RenderScreenshot w h out).
Proof using P_quiet.
  unfold RenderScreenshot. footprint.
Qed.

Lemma within_build_stages n : forall i only, within P (build_stages n i only).
Proof using P_quiet.
  induction n as [|n IH]; intros; cbn [build_stages]; footprint.
Qed.

Local Hint Resolve within_build_stages : footprint.

Lemma within_SetPostProcessingChain config : within P (SetPostProcessingChain config).
Proof using P_quiet. unfold SetPostProcessingChain. footprint. Qed.

End Quiet.

Lemma new_calls_added {A} (w : World) (o : Outcome A) (evs : Trace) :
  trace (final o) = trace w ++ evs -> new_calls w o = evs.
Proof. intros Ht. unfold new_calls. rewrite Ht. apply drop_app_length. Qed.

Lemma count_acquires_app (a b : Trace) :
  count_acquires (a ++ b) = (count_acquires a + count_acquires b)%nat.
Proof. unfold count_acquires. rewrite List.filter_app, length_app. reflexivity. Qed.

Lemma count_acquires_quiet (evs : Trace) :
  Forall (λ e, is_acquire e = false) evs -> count_acquires evs = 0%nat.
Proof.
  unfold count_acquires. induction 1 as [|e evs He _ IH]; [reflexivity|].
  cbn [List.filter]. rewrite He. exact IH.
Qed.

Lemma render_frame_no_acquire `{Externals} (w : World) :
  exists evs, trace (final (render_frame w)) = trace w ++ evs
              /\ count_acquires evs = 0%nat.
Proof.
  destruct (within_render_frame (λ e, is_acquire e = false)) with (w := w)
    as [(evs & Ht & Hf) _].
  - intros e. destruct e; cbn; congruence.
  - exists evs. split; [exact Ht|]. apply count_acquires_quiet, Hf.
Qed.

Lemma retry_outcome `{Externals} (w w2 : World) (res res2 : VkResult) (recovery : Trace)
    (o : Outcome bool) :
  added w w2 ([EvWaitForPresentComplete; EvAcquireNextImage res]
              ++ recovery ++ [EvAcquireNextImage res2]) ->
  count_acquires recovery = 0%nat ->
  o = (if negb (res2 =? VK_SUCCESS) && negb (res2 =? VK_SUBOPTIMAL_KHR)
       then Returned false (log (EvExecuteCommandBuffer false) w2)
       else render_frame w2) ->
  count_acquires (new_calls w o) = 2%nat
  /\ if usable res2 then o = render_frame w2
     else o = Returned false (log (EvExecuteCommandBuffer false) w2).
Proof.
  intros Hadd Hrec ->. unfold usable, added in *.
  rewrite <- negb_orb.
  destruct ((res2 =? VK_SUCCESS) || (res2 =? VK_SUBOPTIMAL_KHR)); cbn [negb].
  - split; [|reflexivity].
    destruct (render_frame_no_acquire w2) as (evs & Ht & Hq).
    rewrite (new_calls_added w _ (([EvWaitForPresentComplete; EvAcquireNextImage res]
                                    ++ recovery ++ [EvAcquireNextImage res2]) ++ evs)).
    + rewrite !count_acquires_app, Hrec, Hq. reflexivity.
    + rewrite Ht, Hadd, <- app_assoc. reflexivity.
  - split; [|reflexivity].
    rewrite (new_calls_added w _ (([EvWaitForPresentComplete; EvAcquireNextImage res]
                                    ++ recovery ++ [EvAcquireNextImage res2])
                                   ++ [EvExecuteCommandBuffer false])).
    + rewrite !count_acquires_app, Hrec. reflexivity.
    + cbn [final log trace]. rewrite Hadd, <- app_assoc. reflexivity.
Qed.

(** C1: when the first acquire of Render answers VK_SUBOPTIMAL_KHR or
    VK_ERROR_OUT_OF_DATE_KHR, the swap chain is resized (if the driver
    refuses, ResizeRenderWindow panics and Render does not return) and the
    acquire is retried once; when it answers VK_ERROR_SURFACE_LOST_KHR and
    the surface is recreated, the acquire is retried once; and when the
    retried answer is neither VK_SUCCESS nor VK_SUBOPTIMAL_KHR, the command
    buffer is executed and Render returns false, having presented nothing. *)
Theorem Render_acquire_retry `{Externals} (w : World) (sc : SwapChain) :
  m_swap_chain (disp w) = Some sc ->
  let first := ext_AcquireNextImage (trace w ++ [EvWaitForPresentComplete]) sc in
  let res := first.1 in
  let t1 := trace w ++ [EvWaitForPresentComplete; EvAcquireNextImage res] in
  (res = VK_SUBOPTIMAL_KHR \/ res = VK_ERROR_OUT_OF_DATE_KHR ->
   (ext_ResizeSwapChain (t1 ++ [EvWaitForGPUIdle]) first.2 0 0).1 = true ->
   retries_once w res [EvWaitForGPUIdle; EvResizeSwapChain 0 0 true])
  /\ (res = VK_ERROR_SURFACE_LOST_KHR ->
      (ext_RecreateSurface t1 first.2 (m_window_info (disp w))).1 = true ->
      retries_once w res [EvRecreateSurface (m_window_info (disp w)) true]).
Proof.
  intros Hsc first res t1.
  pose proof (Render_first_acquire w sc Hsc) as HR. cbn zeta in HR.
  fold first in HR. fold res in HR. fold t1 in HR.
  split.
  - intros Hres Hok.
    assert (Hr : (res =? VK_SUCCESS) = false) by (destruct Hres as [-> | ->]; reflexivity).
    assert (Hq : (res =? VK_SUBOPTIMAL_KHR) || (res =? VK_ERROR_OUT_OF_DATE_KHR) = true)
      by (destruct Hres as [-> | ->]; reflexivity).
    rewrite Hr in HR. unfold acquire_with_retry in HR. rewrite Hq in HR.
    rewrite bind_run in HR.
    rewrite (ResizeRenderWindow_run 0 0 _ first.2) in HR by reflexivity.
    cbn zeta in HR. cbn [trace disp] in HR. rewrite Hok in HR.
    rewrite bind_run in HR.
    match type of HR with context [SwapChain_AcquireNextImage ?w1] =>
      rewrite (AcquireNextImage_run w1 (ext_ResizeSwapChain (t1 ++ [EvWaitForGPUIdle]) first.2 0 0).2) in HR
        by reflexivity
    end.
    cbn zeta in HR. run_in HR.
    match type of HR with
    | _ = (if negb (?r2 =? _) && _ then _ else render_frame ?w2) =>
        assert (Hadd : added w w2 ([EvWaitForPresentComplete; EvAcquireNextImage res]
                                   ++ [EvWaitForGPUIdle; EvResizeSwapChain 0 0 true]
                                   ++ [EvAcquireNextImage r2]))
          by (unfold added, t1; cbn [trace]; rewrite <- !app_assoc; reflexivity);
        exists r2, w2; split; [exact Hadd|];
        exact (retry_outcome w w2 res r2 _ _ Hadd eq_refl HR)
    end.
  - intros Hres Hok.
    rewrite Hres in HR.
    change (VK_ERROR_SURFACE_LOST_KHR =? VK_SUCCESS) with false in HR.
    unfold acquire_with_retry in HR.
    change ((VK_ERROR_SURFACE_LOST_KHR =? VK_SUBOPTIMAL_KHR)
            || (VK_ERROR_SURFACE_LOST_KHR =? VK_ERROR_OUT_OF_DATE_KHR)) with false in HR.
    change (VK_ERROR_SURFACE_LOST_KHR =? VK_ERROR_SURFACE_LOST_KHR) with true in HR.
    run_in HR.
    rewrite (RecreateSurface_run _ first.2) in HR by reflexivity.
    cbn zeta in HR. cbn [trace disp] in HR. run_in HR.
    rewrite Hok in HR. run_in HR.
    match type of HR with context [SwapChain_AcquireNextImage ?w1] =>
      rewrite (AcquireNextImage_run w1 (ext_RecreateSurface t1 first.2 (m_window_info (disp w))).2) in HR
        by reflexivity
    end.
    cbn zeta in HR. run_in HR.
    match type of HR with
    | _ = (if negb (?r2 =? _) && _ then _ else render_frame ?w2) =>
        assert (Hadd : added w w2 ([EvWaitForPresentComplete; EvAcquireNextImage res]
                                   ++ [EvRecreateSurface (m_window_info (disp w)) true]
                                   ++ [EvAcquireNextImage r2]))
          by (unfold added, t1; cbn [trace]; rewrite <- !app_assoc; reflexivity);
        exists r2, w2; split; [exact Hadd|];
        exact (retry_outcome w w2 res r2 _ _ Hadd eq_refl HR)
    end.
Qed.

Lemma Render_acquire_retry_witness :
  let out_of_date :=
    scripted {| script_acquire := [VK_ERROR_OUT_OF_DATE_KHR; VK_ERROR_OUT_OF_DATE_KHR];
                script_resize_ok := true; script_recreate_ok := true;
                script_surface_ok := true; script_swap_chain := Some a_swap_chain;
                script_context_ok := true; script_vendorID := 0x10DE;
                script_driverID := 4; script_vma_ok := true;
                script_texture_ok := true; script_descriptor_ok := true;
                script_shader_ok := true; script_pipeline_ok := true;
                script_ubo_ok := true; script_parse := None;
                script_imgui := false |} in
  let surface_lost :=
    scripted {| script_acquire := [VK_ERROR_SURFACE_LOST_KHR; VK_SUCCESS];
                script_resize_ok := true; script_recreate_ok := true;
                script_surface_ok := true; script_swap_chain := Some a_swap_chain;
                script_context_ok := true; script_vendorID := 0x10DE;
                script_driverID := 4; script_vma_ok := true;
                script_texture_ok := true; script_descriptor_ok := true;
                script_shader_ok := true; script_pipeline_ok := true;
                script_ubo_ok := true; script_parse := None;
                script_imgui := false |} in
  @retries_once out_of_date (windowed_world None) VK_ERROR_OUT_OF_DATE_KHR
    [EvWaitForGPUIdle; EvResizeSwapChain 0 0 true]
  /\ @retries_once surface_lost (windowed_world None) VK_ERROR_SURFACE_LOST_KHR
       [EvRecreateSurface a_window true].
Proof.
  intros out_of_date surface_lost. split.
  - apply (proj1 (@Render_acquire_retry out_of_date (windowed_world None)
                    a_swap_chain eq_refl)); [right; reflexivity | reflexivity].
  - apply (proj2 (@Render_acquire_retry surface_lost (windowed_world None)
                    a_swap_chain eq_refl)); reflexivity.
Defined.

(** ** The readback staging buffer *)

Lemma DestroyStagingBuffer_run (w : World) :
  DestroyStagingBuffer w = Returned tt (staging_destroyed w).
Proof.
  unfold DestroyStagingBuffer, staging_destroyed. run.
  destruct (m_readback_staging_buffer (disp w) =? VK_NULL_HANDLE); run; reflexivity.
Qed.

Lemma CheckStagingBufferSize_run `{Externals} (required_size : Z) (w : World) :
  CheckStagingBufferSize required_size w =
  if m_readback_staging_buffer_size (disp w) >=? required_size then Returned true w
  else
    let w1 := staging_destroyed w in
    let '(res, buffer, allocation, mapped) := ext_vmaCreateBuffer (trace w1) required_size in
    let t2 := trace w1 ++ [staging_request (m_is_adreno (disp w)) required_size res buffer] in
    if res =? VK_SUCCESS then
      Returned true
        {| disp := set_staging buffer allocation mapped
                     (m_readback_staging_buffer_size (disp w1)) (disp w1);
           trace := t2;
           vma_buffers := <[buffer := required_size]> (vma_buffers w1) |}
    else
      Returned false
        {| disp := set_staging_handles buffer allocation (disp w1);
           trace := t2;
           vma_buffers := vma_buffers w1 |}.
Proof.
  unfold CheckStagingBufferSize. run.
  destruct (m_readback_staging_buffer_size (disp w) >=? required_size); [reflexivity|].
  rewrite bind_run, DestroyStagingBuffer_run. cbn zeta.
  assert (Ha : m_is_adreno (disp (staging_destroyed w)) = m_is_adreno (disp w)).
  { unfold staging_destroyed.
    destruct (m_readback_staging_buffer (disp w) =? VK_NULL_HANDLE); reflexivity. }
  run. rewrite Ha.
  destruct (ext_vmaCreateBuffer (trace (staging_destroyed w)) required_size)
    as [[[res buffer] allocation] mapped].
  run. unfold staging_request, preferred_flags.
  destruct (res =? VK_SUCCESS); run; reflexivity.
Qed.

Section Loud.
Context `{Externals}.

Lemma any_quiet : forall e, is_swap_chain_call e = false -> any_event e.
Proof using Type. intros; exact I. Qed.

Local Hint Resolve within_deref_swap_chain : footprint.

Lemma within_reset_swap_chain : within any_event reset_swap_chain.
Proof using Type. unfold reset_swap_chain. footprint. Qed.

Lemma within_RecreateSurface wi : within any_event (SwapChain_RecreateSurface wi).
Proof using Type. unfold SwapChain_RecreateSurface. footprint. Qed.

Lemma within_ResizeSwapChain w h : within any_event (SwapChain_ResizeSwapChain w h).
Proof using Type. unfold SwapChain_ResizeSwapChain. footprint. Qed.

Lemma within_AcquireNextImage : within any_event SwapChain_AcquireNextImage.
Proof using Type. unfold SwapChain_AcquireNextImage. footprint. Qed.

Local Hint Resolve within_reset_swap_chain within_RecreateSurface
  within_ResizeSwapChain within_AcquireNextImage : footprint.

Lemma within_ChangeRenderWindow wi : within any_event (ChangeRenderWindow wi).
Proof using Type. unfold ChangeRenderWindow. footprint. Qed.

Lemma within_ResizeRenderWindow w h : within any_event (ResizeRenderWindow w h).
Proof using Type. unfold ResizeRenderWindow. footprint. Qed.

Lemma within_DestroyRenderSurface : within any_event DestroyRenderSurface.
Proof using Type. unfold DestroyRenderSurface. footprint. Qed.

Local Hint Resolve within_ResizeRenderWindow : footprint.

Lemma within_Render skip : within any_event (Render skip).
Proof using Type.
  pose proof (within_render_frame any_event any_quiet).
  unfold Render, acquire_with_retry. footprint.
Qed.

Lemma within_run_call c : within any_event (run_call c).
Proof using Type.
  pose proof any_quiet as Hq.
  destruct c; cbn [run_call];
    auto using within_ResizeRenderWindow, within_DestroyRenderSurface;
    (apply within_bind; [|intros; apply within_ret]).
  - apply within_ChangeRenderWindow.
  - unfold SetFullscreen. apply within_ret.
  - apply within_DownloadTexture, Hq.
  - apply within_Render.
  - apply within_RenderScreenshot, Hq.
  - apply within_SetPostProcessingChain, Hq.
Qed.

Lemma within_run_calls cs : within any_event (run_calls cs).
Proof using Type.
  induction cs as [|c cs IH]; cbn [run_calls]; [apply within_ret|].
  apply within_bind; [apply within_run_call | intros; exact IH].
Qed.

End Loud.

(** m_is_adreno is written by CreateRenderDevice and by nothing else. *)
Lemma run_calls_keep_is_adreno `{Externals} (cs : list Call) (w : World) :
  m_is_adreno (disp (final (run_calls cs w))) = m_is_adreno (disp w).
Proof. apply (within_run_calls cs w). Qed.

(** m_readback_staging_buffer_size is only ever written with zero. *)
Lemma run_calls_keep_size_zero `{Externals} (cs : list Call) (w : World) :
  m_readback_staging_buffer_size (disp w) = 0 ->
  m_readback_staging_buffer_size (disp (final (run_calls cs w))) = 0.
Proof. apply (within_run_calls cs w). Qed.

Lemma CreateRenderDevice_detects `{Externals} (wi : WindowInfo) (w w1 : World) :
  CreateRenderDevice wi w = Returned true w1 ->
  let t := trace w ++ [EvContextCreate wi true; EvShaderCacheCreate] in
  m_is_adreno (disp w1) = adreno_detected (ext_vendorID t) (ext_driverID t).
Proof.
  unfold CreateRenderDevice. run.
  destruct (ext_Context_Create (trace w) wi) as [[sc local_wi]|]; run; [|discriminate].
  intros Hr. injection Hr as <-. cbn. rewrite <- app_assoc. reflexivity.
Qed.

(** C3: a device is detected as Adreno by CreateRenderDevice exactly when
    its vendorID is 0x5143 or its driverID is
    VK_DRIVER_ID_QUALCOMM_PROPRIETARY; and whatever methods are called
    afterwards, when CheckStagingBufferSize has to allocate, the last call
    it makes is vmaCreateBuffer for the required size, preferring
    HOST_CACHED together with HOST_COHERENT exactly when the device was
    detected as Adreno and HOST_CACHED alone otherwise. *)
Theorem staging_buffer_preferred_flags `{Externals} (wi : WindowInfo) (w w1 : World)
    (calls : list Call) (required_size : Z) :
  CreateRenderDevice wi w = Returned true w1 ->
  let t := trace w ++ [EvContextCreate wi true; EvShaderCacheCreate] in
  let detected := adreno_detected (ext_vendorID t) (ext_driverID t) in
  let w2 := final (run_calls calls w1) in
  m_readback_staging_buffer_size (disp w2) < required_size ->
  exists res buffer flags,
    last (new_calls w2 (CheckStagingBufferSize required_size w2))
      = Some (EvVmaCreateBuffer required_size VK_BUFFER_USAGE_TRANSFER_DST_BIT
                VMA_MEMORY_USAGE_GPU_TO_CPU VMA_ALLOCATION_CREATE_MAPPED_BIT
                flags res buffer)
    /\ (detected = true ->
        flags = Z.lor VK_MEMORY_PROPERTY_HOST_CACHED_BIT
                      VK_MEMORY_PROPERTY_HOST_COHERENT_BIT)
    /\ (detected = false -> flags = VK_MEMORY_PROPERTY_HOST_CACHED_BIT)
    /\ (flags = Z.lor VK_MEMORY_PROPERTY_HOST_CACHED_BIT
                      VK_MEMORY_PROPERTY_HOST_COHERENT_BIT <-> detected = true).
Proof.
  intros Hcreate t detected w2 Hsmall.
  assert (Hflag : m_is_adreno (disp w2) = detected).
  { unfold w2. rewrite run_calls_keep_is_adreno.
    apply (CreateRenderDevice_detects wi w w1 Hcreate). }
  rewrite CheckStagingBufferSize_run.
  destruct (m_readback_staging_buffer_size (disp w2) >=? required_size) eqn:Hge; [lia|].
  cbn zeta.
  destruct (ext_vmaCreateBuffer (trace (staging_destroyed w2)) required_size)
    as [[[res buffer] allocation] mapped].
  exists res, buffer, (preferred_flags detected).
  assert (Hpre : exists pre, trace (staging_destroyed w2) = trace w2 ++ pre).
  { unfold staging_destroyed.
    destruct (m_readback_staging_buffer (disp w2) =? VK_NULL_HANDLE);
      [exists []; rewrite app_nil_r; reflexivity | eexists; reflexivity]. }
  destruct Hpre as (pre & Hpre).
  split.
  - rewrite Hflag.
    rewrite (new_calls_added w2 _
               (pre ++ [staging_request detected required_size res buffer])).
    + rewrite last_snoc. reflexivity.
    + destruct (res =? VK_SUCCESS); cbn [final trace]; rewrite Hpre, <- app_assoc;
        reflexivity.
  - unfold preferred_flags. destruct detected; repeat split; try discriminate; auto.
Qed.

Lemma staging_buffer_preferred_flags_witness :
  let w := new_world (new_display (some_fixed (Some a_texture))) in
  let w1 := final (@CreateRenderDevice an_adreno a_window w) in
  let w2 := final (@run_calls an_adreno [CallRender false; CallDestroyRenderSurface] w1) in
  exists res buffer flags,
    last (new_calls w2 (@CheckStagingBufferSize an_adreno 1024 w2))
      = Some (EvVmaCreateBuffer 1024 VK_BUFFER_USAGE_TRANSFER_DST_BIT
                VMA_MEMORY_USAGE_GPU_TO_CPU VMA_ALLOCATION_CREATE_MAPPED_BIT
                flags res buffer)
    /\ (true = true -> flags = 12)
    /\ (true = false -> flags = 8)
    /\ (flags = 12 <-> true = true).
Proof.
  intros w w1 w2.
  apply (@staging_buffer_preferred_flags an_adreno a_window w w1
           [CallRender false; CallDestroyRenderSurface] 1024).
  - reflexivity.
  - vm_compute. reflexivity.
Defined.

(** With no size recorded, any request for at least one byte makes
    CheckStagingBufferSize destroy the buffer it has and allocate another
    of exactly the requested size; and the size is still not recorded. *)
Lemma CheckStagingBufferSize_reallocates `{Externals} (required_size : Z) (w : World) :
  m_readback_staging_buffer_size (disp w) = 0 ->
  0 < required_size ->
  let o := CheckStagingBufferSize required_size w in
  m_readback_staging_buffer_size (disp (final o)) = 0
  /\ exists res buffer,
       new_calls w o
       = (if m_readback_staging_buffer (disp w) =? VK_NULL_HANDLE then []
          else [EvVmaDestroyBuffer (m_readback_staging_buffer (disp w))
                  (m_readback_staging_allocation (disp w))])
         ++ [staging_request (m_is_adreno (disp w)) required_size res buffer].
Proof.
  intros Hz Hpos o. split.
  - apply (within_CheckStagingBufferSize any_event any_quiet required_size w), Hz.
  - unfold o. rewrite CheckStagingBufferSize_run.
    destruct (m_readback_staging_buffer_size (disp w) >=? required_size) eqn:Hge; [lia|].
    cbn zeta.
    destruct (ext_vmaCreateBuffer (trace (staging_destroyed w)) required_size)
      as [[[res buffer] allocation] mapped].
    exists res, buffer. apply new_calls_added.
    unfold staging_destroyed.
    destruct (res =? VK_SUCCESS);
      destruct (m_readback_staging_buffer (disp w) =? VK_NULL_HANDLE);
      cbn [final trace]; rewrite <- ?app_assoc; reflexivity.
Qed.

(** C7, on the code: a 64x64 download (16384 bytes) followed by a 4x4 one
    (64 bytes), on a driver where every call succeeds.  The first call
    allocates 16384 bytes and records no size; the second, which the
    buffer at hand would cover, destroys that buffer and allocates one of
    64 bytes. *)
Theorem staging_buffer_shrinks :
  let E := scripted cooperative in
  let w0 := windowed_world None in
  let w1 := final (@DownloadTexture E big_texture 0 0 64 64 [] 256 w0) in
  let o2 := @DownloadTexture E small_texture 0 0 4 4 [] 16 w1 in
  let w2 := final o2 in
  vma_buffers w1 !! m_readback_staging_buffer (disp w1) = Some 16384
  /\ m_readback_staging_buffer_size (disp w1) = 0
  /\ head (new_calls w1 o2)
     = Some (EvVmaDestroyBuffer (m_readback_staging_buffer (disp w1))
               (m_readback_staging_allocation (disp w1)))
  /\ vma_buffers w2 !! m_readback_staging_buffer (disp w1) = None
  /\ vma_buffers w2 !! m_readback_staging_buffer (disp w2) = Some 64
  /\ m_readback_staging_buffer_size (disp w2) = 0.
Proof. vm_compute. repeat split. Qed.

(** ** Screenshots *)

Lemma vector_resize_length (n : Z) (v : list Z) :
  length (vector_resize n v) = Z.to_nat n.
Proof. unfold vector_resize. rewrite length_app, length_take, length_replicate. lia. Qed.

Lemma vector_fill_zero_spec (v : list Z) :
  length (vector_fill_zero v) = length v /\ Forall (eq 0) (vector_fill_zero v).
Proof.
  unfold vector_fill_zero. split; [apply length_replicate|].
  apply Forall_forall. intros x Hx. apply elem_of_replicate in Hx as [-> _]. reflexivity.
Qed.

Lemma size_for_format_length (format : VkFormat) (width height : Z) (out : Screenshot) :
  (is_32bit_format format = true ->
   length (out_pixels (size_for_format format width height out))
   = Z.to_nat (u32 (width * height)))
  /\ (is_16bit_format format = true ->
      length (out_pixels (size_for_format format width height out))
      = Z.to_nat (u32 (u32 (width * height) + 1) / 2)).
Proof.
  unfold is_32bit_format, is_16bit_format, size_for_format.
  destruct (format =? VK_FORMAT_R8G8B8A8_UNORM) eqn:E1;
    [apply Z.eqb_eq in E1; subst; split; [intros _; apply vector_resize_length|discriminate]|].
  destruct (format =? VK_FORMAT_R8G8B8A8_SRGB) eqn:E2;
    [apply Z.eqb_eq in E2; subst; split; [intros _; apply vector_resize_length|discriminate]|].
  destruct (format =? VK_FORMAT_B8G8R8A8_UNORM) eqn:E3;
    [apply Z.eqb_eq in E3; subst; split; [intros _; apply vector_resize_length|discriminate]|].
  destruct (format =? VK_FORMAT_B8G8R8A8_SRGB) eqn:E4;
    [apply Z.eqb_eq in E4; subst; split; [intros _; apply vector_resize_length|discriminate]|].
  cbn [orb].
  destruct (format =? VK_FORMAT_A1R5G5B5_UNORM_PACK16) eqn:E5;
    [split; [discriminate|intros _; apply vector_resize_length]|].
  destruct (format =? VK_FORMAT_R5G6B5_UNORM_PACK16) eqn:E6;
    [split; [discriminate|intros _; apply vector_resize_length]|].
  split; discriminate.
Qed.

(** C4: RenderScreenshot returns false, touching nothing, when there is no
    swap chain.  When there is one but no display texture, it sizes
    out_pixels for the swap-chain format (width*height words for the
    32-bit formats, (width*height+1)/2 for the 16-bit ones), fills it
    with zeros and returns true; it makes no call at all, so nothing is
    rendered, and the display is left as it was. *)
Theorem RenderScreenshot_without_display `{Externals} (width height : Z)
    (out : Screenshot) (w : World) :
  (m_swap_chain (disp w) = None ->
   RenderScreenshot width height out w = Returned (false, out) w)
  /\ (forall sc,
        m_swap_chain (disp w) = Some sc ->
        m_display_texture (fixed (disp w)) = None ->
        let format := sc_texture_format sc in
        let sized := size_for_format format width height out in
        exists out',
          RenderScreenshot width height out w = Returned (true, out') w
          /\ out_format out' = out_format sized
          /\ out_stride out' = out_stride sized
          /\ length (out_pixels out') = length (out_pixels sized)
          /\ Forall (eq 0) (out_pixels out')
          /\ (is_32bit_format format = true ->
              length (out_pixels out') = Z.to_nat (u32 (width * height)))
          /\ (is_16bit_format format = true ->
              length (out_pixels out') = Z.to_nat (u32 (u32 (width * height) + 1) / 2))).
Proof.
  split.
  - intros Hsc. unfold RenderScreenshot. run. rewrite Hsc. destruct w; reflexivity.
  - intros sc Hsc Htex format sized.
    exists (set_out_pixels (vector_fill_zero (out_pixels sized)) sized).
    destruct (vector_fill_zero_spec (out_pixels sized)) as [Hlen Hzero].
    destruct (size_for_format_length format width height out) as [H32 H16].
    repeat split; cbn [set_out_pixels out_format out_stride out_pixels]; auto.
    + unfold RenderScreenshot. run. rewrite Hsc. run.
      unfold HasDisplayTexture. rewrite Htex.
      rewrite bool_decide_eq_false_2 by (intros [? ?]; discriminate).
      destruct w; reflexivity.
    + intros Hf. rewrite Hlen. apply H32, Hf.
    + intros Hf. rewrite Hlen. apply H16, Hf.
Qed.

Lemma RenderScreenshot_without_display_witness :
  let out := {| out_pixels := [7; 7; 7]; out_stride := 0; out_format := Format_Unknown |} in
  exists out',
    @RenderScreenshot (scripted cooperative) 2 2 out (windowed_world None)
      = Returned (true, out') (windowed_world None)
    /\ out_pixels out' = [0; 0; 0; 0]
    /\ out_stride out' = 8
    /\ out_format out' = BGRA8.
Proof.
  intros out.
  destruct (proj2 (@RenderScreenshot_without_display (scripted cooperative) 2 2 out
                     (windowed_world None)) a_swap_chain eq_refl eq_refl)
    as (out' & Hrun & _).
  exists out'. split; [exact Hrun|].
  vm_compute in Hrun. injection Hrun as <-. repeat split.
Defined.

(** ** Weakest preconditions *)

Lemma wp_returned {A} (m : M A) (Q : A -> World -> Prop) (w : World) :
  wp m Q w <-> exists a w', m w = Returned a w' /\ Q a w'.
Proof.
  unfold wp. split.
  - destruct (m w) as [a w'|f w']; [eauto | contradiction].
  - intros (a & w' & -> & HQ). exact HQ.
Qed.

Lemma wp_mono {A} (m : M A) (Q Q' : A -> World -> Prop) (w : World) :
  wp m Q w -> (forall a w', Q a w' -> Q' a w') -> wp m Q' w.
Proof. unfold wp. destruct (m w); auto. Qed.

Lemma wp_ret {A} (a : A) (Q : A -> World -> Prop) (w : World) :
  Q a w -> wp (mret a) Q w.
Proof. exact id. Qed.

Lemma wp_bind {A B} (m : M A) (k : A -> M B) (Q : B -> World -> Prop) (w : World) :
  wp m (λ a w', wp (k a) Q w') w -> wp (m ≫= k) Q w.
Proof. unfold wp. rewrite bind_run. destruct (m w); auto. Qed.

Lemma wp_get {A} (f : Display -> A) (Q : A -> World -> Prop) (w : World) :
  Q (f (disp w)) w -> wp (get f) Q w.
Proof. exact id. Qed.

Lemma wp_query {A} (f : Trace -> A) (Q : A -> World -> Prop) (w : World) :
  Q (f (trace w)) w -> wp (query f) Q w.
Proof. exact id. Qed.

Lemma wp_modify (f : Display -> Display) (Q : unit -> World -> Prop) (w : World) :
  Q tt (with_disp f w) -> wp (modify f) Q w.
Proof. exact id. Qed.

Lemma wp_emit (e : Event) (Q : unit -> World -> Prop) (w : World) :
  Q tt (log e w) -> wp (emit e) Q w.
Proof. exact id. Qed.

Lemma wp_ask {A} (f : Trace -> A) (ev : A -> Event) (Q : A -> World -> Prop) (w : World) :
  Q (f (trace w)) (log (ev (f (trace w))) w) -> wp (ask f ev) Q w.
Proof. exact id. Qed.

Lemma wp_vma_alloc (buffer size : Z) (Q : unit -> World -> Prop) (w : World) :
  Q tt (with_vma (insert buffer size) w) -> wp (vma_alloc buffer size) Q w.
Proof. exact id. Qed.

Lemma wp_vma_free (buffer : Z) (Q : unit -> World -> Prop) (w : World) :
  Q tt (with_vma (delete buffer) w) -> wp (vma_free buffer) Q w.
Proof. exact id. Qed.

(** One step through the structure of a method body. *)
Ltac wp_step :=
  lazymatch goal with
  | |- wp (mbind _ _) _ _ => apply wp_bind
  | |- wp (mret _) _ _ => apply wp_ret
  | |- wp (get _) _ _ => apply wp_get
  | |- wp (query _) _ _ => apply wp_query
  | |- wp (modify _) _ _ => apply wp_modify
  | |- wp (emit _) _ _ => apply wp_emit
  | |- wp (ask _ _) _ _ => apply wp_ask
  | |- wp (vma_alloc _ _) _ _ => apply wp_vma_alloc
  | |- wp (vma_free _) _ _ => apply wp_vma_free
  | |- wp (let _ := _ in _) _ _ => cbv zeta
  | |- wp (if ?c then _ else _) _ _ => destruct c eqn:?
  | |- wp (match ?x with _ => _ end) _ _ => destruct x eqn:?
  end.

(** The steps that need no case analysis. *)
Ltac wp_run :=
  repeat lazymatch goal with
    | |- wp (mbind _ _) _ _ => apply wp_bind
    | |- wp (mret _) _ _ => apply wp_ret
    | |- wp (get _) _ _ => apply wp_get
    | |- wp (query _) _ _ => apply wp_query
    | |- wp (modify _) _ _ => apply wp_modify
    | |- wp (emit _) _ _ => apply wp_emit
    | |- wp (ask _ _) _ _ => apply wp_ask
    | |- wp (vma_alloc _ _) _ _ => apply wp_vma_alloc
    | |- wp (vma_free _) _ _ => apply wp_vma_free
    | |- wp (let _ := _ in _) _ _ => cbv zeta
    end.

(** Simplify the worlds and displays built up by the steps. *)
Ltac wsimpl :=
  cbn [with_disp log with_vma disp trace vma_buffers fst snd
       fixed m_window_info m_swap_chain m_is_adreno
       m_readback_staging_buffer m_readback_staging_allocation
       m_readback_staging_buffer_map m_readback_staging_buffer_size
       m_post_processing_stages m_post_processing_chain
       m_post_processing_ubo m_post_processing_input_texture
       m_post_processing_input_framebuffer
       set_m_window_info set_m_swap_chain set_m_is_adreno set_staging
       set_staging_handles set_m_readback_staging_buffer_map
       set_m_post_processing_stages set_m_post_processing_chain
       set_m_post_processing_ubo set_m_post_processing_input_texture
       set_m_post_processing_input_framebuffer] in *.

(** ** Building the post-processing chain *)

Lemma logs_only_refl w : logs_only w w.
Proof. repeat split. exists []. rewrite app_nil_r. reflexivity. Qed.

Lemma logs_only_log e w w' : logs_only w w' -> logs_only w (log e w').
Proof.
  intros (Hd & Hv & evs & Ht). repeat split; cbn; auto.
  exists (evs ++ [e]). rewrite Ht, app_assoc. reflexivity.
Qed.

Lemma logs_only_trans w1 w2 w3 : logs_only w1 w2 -> logs_only w2 w3 -> logs_only w1 w3.
Proof.
  intros (Hd & Hv & e1 & Ht) (Hd' & Hv' & e2 & Ht'). repeat split; try congruence.
  exists (e1 ++ e2). rewrite Ht', Ht, app_assoc. reflexivity.
Qed.

Lemma Texture_Destroy_wp (t : Texture) (defer : bool) (w : World) :
  wp (Texture_Destroy t defer) (λ _ w', logs_only w w') w.
Proof.
  unfold Texture_Destroy. repeat wp_step;
    auto using logs_only_refl, logs_only_log.
Qed.

Lemma destroy_stages_wp (l : list PostProcessingStage) : forall w,
  wp (destroy_stages l) (λ _ w', logs_only w w') w.
Proof.
  induction l as [|pps l IH]; intros w; cbn [destroy_stages].
  - apply wp_ret, logs_only_refl.
  - apply wp_bind. unfold destroy_stage.
    assert (Hstage : wp (destroy_stage pps) (λ _ w', logs_only w w') w).
    { unfold destroy_stage. apply wp_bind.
      assert (H1 : forall w0, logs_only w w0 ->
                wp (Texture_Destroy (output_texture pps) true;;
                    (if negb (pipeline pps =? VK_NULL_HANDLE)
                     then emit (EvDeferPipelineDestruction (pipeline pps))
                     else mret tt)) (λ _ w', logs_only w w') w0).
      { intros w0 H0. apply wp_bind.
        eapply wp_mono; [apply Texture_Destroy_wp|]. cbn beta. intros _ w1 H1.
        pose proof (logs_only_trans _ _ _ H0 H1).
        repeat wp_step; auto using logs_only_log. }
      do 2 wp_step; apply H1; auto using logs_only_refl, logs_only_log. }
    eapply wp_mono; [exact Hstage|]. cbn beta. intros _ w1 H1.
    eapply wp_mono; [apply IH|]. cbn beta. intros _ w2 H2.
    eapply logs_only_trans; eauto.
Qed.

Lemma clear_stages_wp (w : World) :
  wp clear_stages
     (λ _ w', disp w' = set_m_post_processing_stages [] (disp w)) w.
Proof.
  unfold clear_stages. repeat wp_step.
  eapply wp_mono; [apply destroy_stages_wp|]. cbn beta. intros _ w1 (Hd & _).
  wp_step. wsimpl. rewrite Hd. reflexivity.
Qed.

(** clear() on the stages followed by ClearStages() on the chain. *)
Lemma clear_both_wp {A} (a : A) (Q : A -> World -> Prop) (w : World) :
  (forall w', m_post_processing_stages (disp w') = [] ->
              m_post_processing_chain (disp w') = [] -> Q a w') ->
  wp (clear_stages;; ClearStages;; mret a) Q w.
Proof.
  intros HQ. apply wp_bind.
  eapply wp_mono; [apply clear_stages_wp|]. cbn beta. intros _ w1 Hd.
  unfold ClearStages. repeat wp_step. apply HQ; wsimpl; [rewrite Hd|]; reflexivity.
Qed.

Lemma build_stages_wp `{Externals} (n : nat) : forall (i : nat) (only : bool) (w : World),
  length (m_post_processing_chain (disp w)) = (i + n)%nat ->
  wp (build_stages n i only) (built (m_post_processing_chain (disp w))) w.
Proof.
  induction n as [|n IH]; intros i only w Hlen; cbn [build_stages].
  - apply wp_ret. reflexivity.
  - destruct (lookup_lt_is_Some_2 (m_post_processing_chain (disp w)) i) as [shader Hsh];
      [lia|].
    apply wp_bind. unfold GetShaderStage. apply wp_bind, wp_get. rewrite Hsh.
    apply wp_ret. cbv zeta.
    do 2 (apply wp_bind, wp_ask).
    wp_step.
    + do 2 (apply wp_bind; wp_step; wp_step).
      all: apply clear_both_wp; intros w' Hs Hc; split; assumption.
    + apply wp_bind, wp_get. cbv zeta.
      apply wp_bind. unfold GetRenderPassForDisplay. apply wp_bind, wp_get.
      wp_step; wp_step; apply wp_bind, wp_ask; do 2 (apply wp_bind, wp_emit).
      all: wp_step; [apply clear_both_wp; intros w' Hs Hc; split; assumption|].
      all: apply wp_bind, wp_modify.
      all: eapply wp_mono; [apply IH; wsimpl; lia|].
      all: intros r w'; wsimpl; exact id.
Qed.

Lemma SetPostProcessingChain_wp `{Externals} (config : string) (w : World) :
  wp (SetPostProcessingChain config) (chain_outcome config w) w.
Proof.
  unfold SetPostProcessingChain. apply wp_bind, wp_emit.
  destruct config as [|c config].
  - apply clear_both_wp. intros w' Hs Hc. split; [auto|discriminate].
  - apply wp_bind, wp_get. apply wp_bind, wp_ask. apply wp_bind, wp_modify. wsimpl.
    set (parsed := ext_CreateFromString (trace w ++ [EvExecuteCommandBuffer true])
                     (m_post_processing_chain (disp w)) (String c config)).
    destruct parsed.1 eqn:Hparsed; cbn [negb].
    + apply wp_bind. eapply wp_mono; [apply clear_stages_wp|]. cbn beta.
      intros _ w1 Hd1. wsimpl.
      apply wp_bind, wp_get. apply wp_bind.
      eapply wp_mono; [apply (build_stages_wp _ 0%nat); reflexivity|].
      intros [only|] w2 Hbuilt; cbn [built] in Hbuilt.
      * apply wp_bind, wp_get. apply wp_bind.
        assert (Hubo : forall Q : bool -> World -> Prop,
                   (forall b w3, m_post_processing_stages (disp w3)
                                 = m_post_processing_stages (disp w2) ->
                                 m_post_processing_chain (disp w3)
                                 = m_post_processing_chain (disp w2) -> Q b w3) ->
                   wp (if negb only && (sb_current_size (m_post_processing_ubo (disp w2))
                                        <? UBO_SIZE)
                       then
                         r ← ask (λ t, ext_StreamBuffer_Create t
                                         (m_post_processing_ubo (disp w2))
                                         VK_BUFFER_USAGE_UNIFORM_BUFFER_BIT UBO_SIZE)
                                 (λ r, EvStreamBufferCreate
                                         VK_BUFFER_USAGE_UNIFORM_BUFFER_BIT UBO_SIZE r.1);
                         modify (set_m_post_processing_ubo r.2);;
                         mret r.1
                       else mret true) Q w2).
        { intros Q HQ. wp_step.
          - apply wp_bind, wp_ask. apply wp_bind, wp_modify. apply wp_ret.
            apply HQ; reflexivity.
          - apply wp_ret. apply HQ; reflexivity. }
        apply Hubo. intros ok w3 Hs3 Hc3. destruct ok; cbn [negb].
        { apply wp_bind, wp_emit. apply wp_ret. split; discriminate. }
        { apply clear_both_wp. intros w' Hs Hc. split; [discriminate|].
          intros _. cbv zeta. fold parsed. rewrite Hparsed. auto. }
      * apply wp_ret. split; [discriminate|].
        intros _. cbv zeta. fold parsed. rewrite Hparsed. exact Hbuilt.
    + apply wp_ret. split; [discriminate|].
      intros _. cbv zeta. fold parsed. rewrite Hparsed. wsimpl. auto.
Qed.

(** C5, as the code has it: SetPostProcessingChain always returns.  With
    an empty config it clears the stage list and the chain and returns
    true.  When it returns false after the config was parsed (a shader or
    pipeline failed to compile, or the uniform buffer could not be
    allocated) the stage list and the chain are both cleared.  When it
    returns false because the config did not parse, the stage list is
    left as it was, and the chain as CreateFromString left it. *)
Theorem SetPostProcessingChain_outcome `{Externals} (config : string) (w : World) :
  exists ok w',
    SetPostProcessingChain config w = Returned ok w'
    /\ (config = EmptyString ->
        ok = true
        /\ m_post_processing_stages (disp w') = []
        /\ m_post_processing_chain (disp w') = [])
    /\ (ok = false ->
        let parsed := ext_CreateFromString (trace w ++ [EvExecuteCommandBuffer true])
                        (m_post_processing_chain (disp w)) config in
        if parsed.1
        then m_post_processing_stages (disp w') = []
             /\ m_post_processing_chain (disp w') = []
        else m_post_processing_stages (disp w') = m_post_processing_stages (disp w)
             /\ m_post_processing_chain (disp w') = parsed.2).
Proof.
  apply wp_returned. exact (SetPostProcessingChain_wp config w).
Qed.

(** The claim of C5 fails where the config does not parse: the call
    returns false and the one-stage chain that was in use stays in place,
    stage list and chain. *)
Lemma SetPostProcessingChain_parse_failure_keeps_chain :
  exists w',
    @SetPostProcessingChain (scripted cooperative) "no-such-shader" world_with_chain
      = Returned false w'
    /\ m_post_processing_stages (disp w') = [a_stage 71 0]
    /\ m_post_processing_chain (disp w') = [a_shader]
    /\ ~ (m_post_processing_stages (disp w') = []
          /\ m_post_processing_chain (disp w') = []).
Proof.
  eexists. split; [vm_compute; reflexivity|].
  split; [reflexivity|]. split; [reflexivity|].
  intros [Hs _]. discriminate Hs.
Qed.

Lemma SetPostProcessingChain_outcome_witness :
  let E := scripted {| script_acquire := []; script_resize_ok := true;
                       script_recreate_ok := true; script_surface_ok := true;
                       script_swap_chain := Some a_swap_chain;
                       script_context_ok := true; script_vendorID := 0x10DE;
                       script_driverID := 4; script_vma_ok := true;
                       script_texture_ok := true; script_descriptor_ok := true;
                       script_shader_ok := false; script_pipeline_ok := true;
                       script_ubo_ok := true;
                       script_parse := Some [a_shader; a_ubo_shader];
                       script_imgui := false |} in
  exists w',
    @SetPostProcessingChain E "crt:bloom" world_with_chain = Returned false w'
    /\ m_post_processing_stages (disp w') = []
    /\ m_post_processing_chain (disp w') = [].
Proof.
  intros E.
  destruct (@SetPostProcessingChain_outcome E "crt:bloom" world_with_chain)
    as (ok & w' & Hrun & _ & Hfalse).
  assert (Hok : ok = false) by (vm_compute in Hrun; congruence).
  subst ok. exists w'. split; [exact Hrun|]. exact (Hfalse eq_refl).
Defined.

(** ** Applying the post-processing chain *)

Lemma passes_from_app (a b : Trace) : forall p,
  passes_from p (a ++ b) = passes_from p a ++ passes_from (scan_state p a) b.
Proof.
  induction a as [|e a IH]; intros p; [reflexivity|].
  destruct e; cbn [app passes_from scan_state]; rewrite ?IH; reflexivity.
Qed.

Lemma stage_passes_keys (target_fb : Z) (l : list PostProcessingStage) :
  forall (source : Z) (l' : list PostProcessingStage),
    stage_key <$> l = stage_key <$> l' ->
    stage_passes target_fb source l = stage_passes target_fb source l'.
Proof.
  induction l as [|pps rest IH]; intros source [|pps' rest'] Hk;
    try discriminate Hk; [reflexivity|].
  rewrite !fmap_cons in Hk. injection Hk as Hpipe Hfb Hview _ Hrest.
  cbn [stage_passes]. destruct rest as [|q rest], rest' as [|q' rest'];
    try discriminate Hrest.
  - rewrite Hpipe. reflexivity.
  - rewrite Hpipe, Hfb, Hview. f_equal. apply IH. exact Hrest.
Qed.

Lemma stage_frame_refl d : stage_frame d d.
Proof. repeat split. Qed.

Lemma stage_frame_trans d1 d2 d3 : stage_frame d1 d2 -> stage_frame d2 d3 -> stage_frame d1 d3.
Proof.
  intros (F1 & S1 & C1 & I1 & K1) (F2 & S2 & C2 & I2 & K2).
  repeat split; congruence.
Qed.

Lemma stage_frame_view d d' r : stage_frame d d' -> view_of d' r = view_of d r.
Proof.
  intros (_ & _ & _ & Hin & Hk). destruct r as [| |  |j]; cbn [view_of]; try reflexivity.
  - rewrite Hin. reflexivity.
  - assert (Hj : (stage_key <$> m_post_processing_stages d') !! j
                 = (stage_key <$> m_post_processing_stages d) !! j) by (rewrite Hk; reflexivity).
    rewrite !list_lookup_fmap in Hj.
    destruct (m_post_processing_stages d' !! j) as [p'|],
             (m_post_processing_stages d !! j) as [p|]; cbn in *; try discriminate;
      [|reflexivity].
    injection Hj as _ _ Hv _. rewrite Hv. reflexivity.
Qed.

Lemma stage_frame_insert d i pps pps' :
  m_post_processing_stages d !! i = Some pps ->
  stage_key pps' = stage_key pps ->
  stage_frame d (set_m_post_processing_stages (<[i := pps']> (m_post_processing_stages d)) d).
Proof.
  intros Hi Hk. repeat split. cbn.
  rewrite list_fmap_insert, Hk. apply list_insert_id.
  rewrite list_lookup_fmap, Hi. reflexivity.
Qed.

Lemma keys_insert (l : list PostProcessingStage) i pps pps' :
  l !! i = Some pps -> stage_key pps' = stage_key pps ->
  stage_key <$> <[i := pps']> l = stage_key <$> l.
Proof.
  intros Hi Hk. rewrite list_fmap_insert, Hk. apply list_insert_id.
  rewrite list_lookup_fmap, Hi. reflexivity.
Qed.

Lemma keys_insert_twice (l : list PostProcessingStage) i pps pps1 pps2 :
  l !! i = Some pps -> stage_key pps2 = stage_key pps ->
  stage_key <$> <[i := pps2]> (<[i := pps1]> l) = stage_key <$> l.
Proof. intros Hi Hk. rewrite list_insert_insert_eq. eapply keys_insert; eauto. Qed.

Lemma stage_frame_length d d' :
  stage_frame d d' ->
  length (m_post_processing_stages d') = length (m_post_processing_stages d).
Proof.
  intros (_ & _ & _ & _ & Hk).
  rewrite <- (length_fmap stage_key (m_post_processing_stages d')), Hk.
  apply length_fmap.
Qed.

Lemma deref_texture_wp (r : TexRef) (v : Z) (Q : Texture -> World -> Prop) (w : World) :
  view_of (disp w) r = Some v ->
  (forall t, tex_view t = v -> Q t w) ->
  wp (deref_texture r) Q w.
Proof.
  intros Hv HQ. destruct r as [| t | |j]; cbn [view_of deref_texture] in *.
  - discriminate.
  - apply wp_ret, HQ. congruence.
  - apply wp_get, HQ. congruence.
  - apply wp_bind, wp_get.
    destruct (m_post_processing_stages (disp w) !! j) as [pps|]; [|discriminate].
    apply wp_ret, HQ. cbn in Hv. congruence.
Qed.

Lemma BeginSwapChainRenderPass_wp `{Externals} (fb width height : Z) (sc : SwapChain)
    (Q : unit -> World -> Prop) (w : World) :
  m_swap_chain (disp w) = Some sc ->
  Q tt (log (EvBeginRenderPass (sc_clear_render_pass sc) fb width height) w) ->
  wp (BeginSwapChainRenderPass fb width height) Q w.
Proof.
  intros Hsc HQ. unfold BeginSwapChainRenderPass, deref_swap_chain.
  apply wp_bind, wp_bind, wp_get. rewrite Hsc. apply wp_ret, wp_emit, HQ.
Qed.

Lemma draws_app (a b : Trace) (la lb : list Pass) :
  draws a la -> draws b lb -> draws (a ++ b) (la ++ lb).
Proof. intros Ha Hb p. rewrite passes_from_app, Ha, Hb. reflexivity. Qed.

Lemma draws_nil : draws [] [].
Proof. intros p. reflexivity. Qed.

Lemma wp_of_returned {A} (m : M A) (Q : A -> World -> Prop) (w w' : World) (a : A) :
  m w = Returned a w' -> Q a w' -> wp m Q w.
Proof. intros Hm HQ. unfold wp. rewrite Hm. exact HQ. Qed.

Section Stages.
Context `{Externals}.
Context (target_fb target_width target_height : Z) (sc : SwapChain).
Hypothesis descriptor_sets :
  forall t layout, ext_AllocateDescriptorSet t layout <> VK_NULL_HANDLE.
Hypothesis ubo_space :
  forall t ubo size alignment,
    (ext_StreamBuffer_ReserveMemory t ubo size alignment).1 = true.

Lemma apply_stage_wp (i : nat) (final_stage : Z) (texture : TexRef) (source : Z)
    (pps : PostProcessingStage) (shader : PostProcessingShader) (w : World) :
  m_post_processing_stages (disp w) !! i = Some pps ->
  m_post_processing_chain (disp w) !! i = Some shader ->
  m_swap_chain (disp w) = Some sc ->
  (shader_use_push_constants shader = true ->
   uniforms_size pps <= PUSH_CONSTANT_SIZE_THRESHOLD) ->
  view_of (disp w) texture = Some source ->
  wp (apply_stage i final_stage target_fb texture target_width target_height)
     (stage_done target_fb i final_stage texture source pps w) w.
Proof using descriptor_sets ubo_space.
  intros Hpps Hsh Hsc Hfit Hview. unfold apply_stage, stage_done.
  apply wp_bind. unfold stage_at. apply wp_bind, wp_get. rewrite Hpps. apply wp_ret.
  apply wp_bind. unfold GetShaderStage. apply wp_bind, wp_get. rewrite Hsh. apply wp_ret.
  apply wp_bind.
  destruct (Z.of_nat i =? final_stage) eqn:Hfin; cbn [negb].
  - (* the final stage *)
    eapply BeginSwapChainRenderPass_wp; [exact Hsc|]. wp_run.
    rewrite (proj2 (Z.eqb_neq _ _) (descriptor_sets _ _)).
    apply wp_bind. eapply deref_texture_wp; [wsimpl; exact Hview|]. intros src Hsrc.
    destruct (shader_use_push_constants shader) eqn:Hpush.
    + wp_run. rewrite (proj2 (Z.leb_le _ _) (Hfit eq_refl)). wp_run.
      split; [wsimpl; apply stage_frame_refl|]. split; [reflexivity|].
      wsimpl. rewrite <- !app_assoc. eexists. split; [reflexivity|].
      intros p. cbn. rewrite Hsrc. reflexivity.
    + wp_run. rewrite ubo_space. cbn [negb]. wp_run.
      split; [wsimpl; repeat split|]. split; [reflexivity|].
      wsimpl. rewrite <- !app_assoc. eexists. split; [reflexivity|].
      intros p. cbn. rewrite Hsrc. reflexivity.
  - (* a stage that draws into its own output *)
    unfold Texture_TransitionToLayout, set_stage_at. wp_run.
    eapply BeginSwapChainRenderPass_wp; [wsimpl; exact Hsc|]. wp_run.
    rewrite (proj2 (Z.eqb_neq _ _) (descriptor_sets _ _)).
    apply wp_bind. eapply deref_texture_wp.
    { wsimpl.
      rewrite (stage_frame_view (disp w)); [exact Hview|].
      apply stage_frame_insert with (pps := pps); [exact Hpps | reflexivity]. }
    intros src Hsrc.
    assert (Hlt : (i < length (m_post_processing_stages (disp w)))%nat)
      by (eapply lookup_lt_Some; exact Hpps).
    destruct (shader_use_push_constants shader) eqn:Hpush.
    + wp_run. rewrite (proj2 (Z.leb_le _ _) (Hfit eq_refl)). wp_run.
      unfold stage_at. wp_run. wsimpl.
      rewrite list_lookup_insert_eq by exact Hlt. wp_run.
      split.
      { unfold stage_frame. wsimpl. repeat split.
        eapply keys_insert_twice; [exact Hpps | reflexivity]. }
      split; [reflexivity|].
      wsimpl. rewrite <- !app_assoc. eexists. split; [reflexivity|].
      intros p. cbn. rewrite Hsrc. reflexivity.
    + wp_run. rewrite ubo_space. cbn [negb]. wp_run.
      unfold stage_at. wp_run. wsimpl.
      rewrite list_lookup_insert_eq by exact Hlt. wp_run.
      split.
      { unfold stage_frame. wsimpl. repeat split.
        eapply keys_insert_twice; [exact Hpps | reflexivity]. }
      split; [reflexivity|].
      wsimpl. rewrite <- !app_assoc. eexists. split; [reflexivity|].
      intros p. cbn. rewrite Hsrc. reflexivity.
Qed.

End Stages.

Lemma push_constants_fit_keys `{Externals} (chain : list PostProcessingShader)
    (l l' : list PostProcessingStage) :
  stage_key <$> l' = stage_key <$> l ->
  push_constants_fit chain l -> push_constants_fit chain l'.
Proof.
  intros Hk Hfit i shader pps' Hsh Hpps' Hpush.
  assert (Hi : (stage_key <$> l') !! i = (stage_key <$> l) !! i) by (rewrite Hk; reflexivity).
  rewrite !list_lookup_fmap, Hpps' in Hi.
  destruct (l !! i) as [pps|] eqn:Hpps; cbn in Hi; [|discriminate].
  injection Hi as _ _ _ Hu. rewrite Hu. eapply Hfit; eauto.
Qed.

(** The loop over the stages draws, from stage [i] on, exactly the passes
    the chain prescribes. *)
Lemma apply_stages_wp `{Externals} (target_fb target_width target_height : Z)
    (sc : SwapChain)
    (descriptor_sets : forall t layout, ext_AllocateDescriptorSet t layout <> VK_NULL_HANDLE)
    (ubo_space : forall t ubo size alignment,
        (ext_StreamBuffer_ReserveMemory t ubo size alignment).1 = true)
    (n : nat) :
  forall (i : nat) (texture : TexRef) (source : Z) (w : World),
    length (m_post_processing_stages (disp w)) = (i + n)%nat ->
    Z.of_nat (length (m_post_processing_stages (disp w))) < 2 ^ 32 ->
    (length (m_post_processing_stages (disp w))
     <= length (m_post_processing_chain (disp w)))%nat ->
    m_swap_chain (disp w) = Some sc ->
    push_constants_fit (m_post_processing_chain (disp w)) (m_post_processing_stages (disp w)) ->
    view_of (disp w) texture = Some source ->
    wp (apply_stages n i (u32 (Z.of_nat (length (m_post_processing_stages (disp w))) - 1))
          target_fb texture target_width target_height)
       (λ _ w', exists evs,
            trace w' = trace w ++ evs
            /\ draws evs (stage_passes target_fb source
                            (drop i (m_post_processing_stages (disp w))))) w.
Proof.
  induction n as [|n IH]; intros i texture source w Hlen Hsmall Hchain Hsc Hfit Hview;
    cbn [apply_stages].
  - apply wp_ret. exists []. rewrite app_nil_r. split; [reflexivity|].
    rewrite drop_ge by lia. apply draws_nil.
  - destruct (lookup_lt_is_Some_2 (m_post_processing_stages (disp w)) i) as [pps Hpps];
      [lia|].
    destruct (lookup_lt_is_Some_2 (m_post_processing_chain (disp w)) i) as [shader Hsh];
      [lia|].
    assert (Hfinal : u32 (Z.of_nat (length (m_post_processing_stages (disp w))) - 1)
                     = Z.of_nat (i + n)).
    { unfold u32. rewrite Z.mod_small by lia. lia. }
    rewrite Hfinal.
    apply wp_bind.
    eapply wp_mono.
    { apply (apply_stage_wp target_fb target_width target_height sc descriptor_sets
               ubo_space i (Z.of_nat (i + n)) texture source pps shader w);
        auto.
      intros Hpush. eapply Hfit; eauto. }
    intros r w1 (Hframe & -> & evs1 & Ht1 & Hd1).
    rewrite (drop_S _ _ _ Hpps).
    destruct n as [|n].
    + (* stage i is the last *)
      replace (Z.of_nat i =? Z.of_nat (i + 0)) with true in *
        by (symmetry; apply Z.eqb_eq; lia).
      cbn [apply_stages]. apply wp_ret.
      exists evs1. split; [exact Ht1|].
      rewrite drop_ge by lia. exact Hd1.
    + replace (Z.of_nat i =? Z.of_nat (i + S n)) with false in *
        by (symmetry; apply Z.eqb_neq; lia).
      pose proof (stage_frame_length _ _ Hframe) as Hlen1.
      destruct Hframe as (Hfix & Hsc1 & Hch1 & Hin1 & Hk1).
      assert (Hfinal1 : Z.of_nat (i + S n)
                        = u32 (Z.of_nat (length (m_post_processing_stages (disp w1))) - 1)).
      { rewrite Hlen1. symmetry. exact Hfinal. }
      rewrite Hfinal1.
      eapply wp_mono.
      { apply (IH (S i) (RefStageOutput i) (tex_view (output_texture pps)) w1).
        - rewrite Hlen1. lia.
        - rewrite Hlen1. exact Hsmall.
        - rewrite Hlen1, Hch1. exact Hchain.
        - rewrite Hsc1. exact Hsc.
        - rewrite Hch1. eapply push_constants_fit_keys; eauto.
        - rewrite (stage_frame_view (disp w)) by (repeat split; assumption).
          cbn [view_of]. rewrite Hpps. reflexivity. }
      cbn beta. intros _ w2 (evs2 & Ht2 & Hd2).
      exists (evs1 ++ evs2). split; [rewrite Ht2, Ht1, app_assoc; reflexivity|].
      rewrite (stage_passes_keys target_fb _ _
                 (drop (S i) (m_post_processing_stages (disp w)))) in Hd2
        by (rewrite !fmap_drop, Hk1; reflexivity).
      destruct (drop (S i) (m_post_processing_stages (disp w))) as [|q rest] eqn:Hrest.
      { apply (f_equal length) in Hrest. rewrite length_drop in Hrest. cbn in Hrest. lia. }
      cbn [stage_passes].
      change (?x :: ?l) with ([x] ++ l) at 1.
      apply draws_app; assumption.
Qed.

(** [stage_passes] by index: one draw per stage, in index order. *)
Lemma stage_passes_from (target_fb input_view : Z) (rest : list PostProcessingStage) :
  forall (done : list PostProcessingStage) (source : Z),
    source = stage_source input_view (done ++ rest) (length done) ->
    stage_passes target_fb source rest
    = imap (λ k, stage_pass_at target_fb input_view (done ++ rest) (length done + k)) rest.
Proof.
  induction rest as [|pps rest IH]; intros done source Hsource; [reflexivity|].
  cbn [stage_passes]. rewrite imap_cons.
  assert (Hhead : forall target,
             target = (if bool_decide (S (length done + 0) = length (done ++ pps :: rest))
                       then target_fb else output_framebuffer pps) ->
             {| pass_target := target; pass_source := source;
                pass_pipeline := pipeline pps |}
             = stage_pass_at target_fb input_view (done ++ pps :: rest)
                 (length done + 0) pps).
  { intros target ->. unfold stage_pass_at. rewrite Nat.add_0_r, <- Hsource.
    reflexivity. }
  destruct rest as [|q rest].
  - cbn [imap]. f_equal. apply Hhead.
    rewrite bool_decide_eq_true_2; [reflexivity|].
    rewrite length_app. cbn. lia.
  - f_equal.
    + apply Hhead. rewrite bool_decide_eq_false_2; [reflexivity|].
      rewrite length_app. cbn. lia.
    + rewrite (IH (done ++ [pps]) (tex_view (output_texture pps))).
      * rewrite <- app_assoc. cbn [app]. apply imap_ext. intros k x _.
        cbn. rewrite length_app. cbn. f_equal. lia.
      * rewrite <- app_assoc, length_app. cbn [app length]. rewrite Nat.add_1_r.
        cbn [stage_source]. rewrite lookup_app_r, Nat.sub_diag by lia. reflexivity.
Qed.

Lemma stage_passes_by_index (target_fb input_view : Z) (stages : list PostProcessingStage) :
  stage_passes target_fb input_view stages
  = imap (stage_pass_at target_fb input_view stages) stages.
Proof. apply (stage_passes_from target_fb input_view stages []). reflexivity. Qed.

(** C6: for a chain of N stages, with the render targets in place and the
    driver handing out descriptor sets and uniform-buffer space,
    ApplyPostProcessingChain returns having drawn, in this order: the
    display, sampled from the display texture, into the post-processing
    input framebuffer; then the stages in index order 0..N-1, stage 0
    sampling the input texture and stage i+1 the output texture of stage
    i; each stage but the last into its own output framebuffer, and the
    last, index N-1, and only it, into the target framebuffer the caller
    passed. *)
Theorem ApplyPostProcessingChain_passes `{Externals}
    (target_fb final_left final_top final_width final_height : Z) (display : Texture)
    (texture_view_x texture_view_y texture_view_width texture_view_height : Z)
    (target_width target_height : Z) (sc : SwapChain) (w w1 : World) :
  (forall t layout, ext_AllocateDescriptorSet t layout <> VK_NULL_HANDLE) ->
  (forall t ubo size alignment,
      (ext_StreamBuffer_ReserveMemory t ubo size alignment).1 = true) ->
  CheckPostProcessingRenderTargets target_width target_height w = Returned true w1 ->
  let stages := m_post_processing_stages (disp w1) in
  let chain := m_post_processing_chain (disp w1) in
  Z.of_nat (length stages) < 2 ^ 32 ->
  (length stages <= length chain)%nat ->
  m_swap_chain (disp w1) = Some sc ->
  push_constants_fit chain stages ->
  exists w' evs,
    ApplyPostProcessingChain target_fb final_left final_top final_width final_height
      (RefExternal display) texture_view_x texture_view_y texture_view_width
      texture_view_height target_width target_height w = Returned tt w'
    /\ trace w' = trace w1 ++ evs
    /\ passes evs
       = {| pass_target := m_post_processing_input_framebuffer (disp w1);
            pass_source := tex_view display;
            pass_pipeline := m_display_pipeline (fixed (disp w1)) |}
         :: imap (stage_pass_at target_fb
                    (tex_view (m_post_processing_input_texture (disp w1))) stages)
              stages.
Proof.
  intros Hds Hubo Hcheck stages chain Hsmall Hchain Hsc Hfit.
  rewrite <- stage_passes_by_index.
  cut (wp (ApplyPostProcessingChain target_fb final_left final_top final_width final_height
             (RefExternal display) texture_view_x texture_view_y texture_view_width
             texture_view_height target_width target_height)
          (λ _ w', exists evs,
               trace w' = trace w1 ++ evs
               /\ passes evs
                  = {| pass_target := m_post_processing_input_framebuffer (disp w1);
                       pass_source := tex_view display;
                       pass_pipeline := m_display_pipeline (fixed (disp w1)) |}
                    :: stage_passes target_fb
                         (tex_view (m_post_processing_input_texture (disp w1))) stages) w).
  { intros Hwp. apply wp_returned in Hwp as ([] & w' & Hrun & evs & Ht & Hp).
    exists w', evs. auto. }
  unfold ApplyPostProcessingChain.
  apply wp_bind. eapply wp_of_returned; [exact Hcheck|].
  wp_run. cbn [negb]. unfold Texture_TransitionToLayout. wp_run.
  eapply BeginSwapChainRenderPass_wp; [wsimpl; exact Hsc|].
  unfold RenderDisplay_to, deref_texture. wp_run.
  rewrite (proj2 (Z.eqb_neq _ _) (Hds _ _)). wp_run.
  lazymatch goal with |- wp _ _ ?w2 => remember w2 as W eqn:HW end.
  assert (Hd : m_post_processing_stages (disp W) = stages
               /\ m_post_processing_chain (disp W) = chain
               /\ m_swap_chain (disp W) = Some sc
               /\ tex_view (m_post_processing_input_texture (disp W))
                  = tex_view (m_post_processing_input_texture (disp w1))).
  { subst W. wsimpl. auto. }
  destruct Hd as (Hst & Hch & Hsc' & Hin).
  assert (Hsize : u32 (Z.of_nat (length stages)) = Z.of_nat (length stages))
    by (unfold u32; apply Z.mod_small; lia).
  pose proof (apply_stages_wp target_fb target_width target_height sc Hds Hubo
                (length stages) 0%nat RefPostProcessingInput
                (tex_view (m_post_processing_input_texture (disp w1))) W) as Hloop.
  rewrite Hst, Hch in Hloop. rewrite Hst, Hsize, Nat2Z.id.
  eapply wp_mono.
  { apply Hloop; auto. cbn [view_of]. rewrite Hin. reflexivity. }
  cbn beta. intros _ w' (evs2 & Ht2 & Hd2).
  subst W. wsimpl. rewrite <- !app_assoc in Ht2.
  eexists. split; [exact Ht2|].
  unfold passes. rewrite !passes_from_app.
  rewrite drop_0 in Hd2. rewrite Hd2. reflexivity.
Qed.

Lemma ApplyPostProcessingChain_passes_witness :
  let E := scripted cooperative in
  let w := world_with_three_stages in
  let w1 := final (@CheckPostProcessingRenderTargets E 640 480 w) in
  exists w' evs,
    @ApplyPostProcessingChain E 99 0 0 640 480 (RefExternal a_texture) 0 0 320 240
      640 480 w = Returned tt w'
    /\ trace w' = trace w1 ++ evs
    /\ passes evs
       = [ {| pass_target := 6001; pass_source := 42; pass_pipeline := 23 |};
           {| pass_target := 6003; pass_source := 1001; pass_pipeline := 71 |};
           {| pass_target := 6005; pass_source := 1003; pass_pipeline := 72 |};
           {| pass_target := 99; pass_source := 1005; pass_pipeline := 73 |} ].
Proof.
  intros E w w1.
  destruct (@ApplyPostProcessingChain_passes E 99 0 0 640 480 a_texture 0 0 320 240
              640 480 a_swap_chain w w1) as (w' & evs & Hrun & Ht & Hp).
  - intros t layout. unfold E. cbn. unfold fresh, VK_NULL_HANDLE. lia.
  - intros t ubo size alignment. reflexivity.
  - vm_compute. reflexivity.
  - vm_compute. reflexivity.
  - vm_compute. lia.
  - vm_compute. reflexivity.
  - intros i shader pps Hsh Hpps Hpush.
    destruct i as [|[|[|i]]]; vm_compute in Hsh, Hpps;
      try discriminate; injection Hsh as <-; injection Hpps as <-;
      try discriminate Hpush; vm_compute; discriminate.
  - exists w', evs. split; [exact Hrun|]. split; [exact Ht|].
    rewrite Hp. vm_compute. reflexivity.
Defined.

(** When the render targets cannot be set up, the chain is not applied:
    the display is drawn straight into the target framebuffer. *)
Lemma ApplyPostProcessingChain_fallback `{Externals}
    (target_fb final_left final_top final_width final_height : Z) (texture : TexRef)
    (texture_view_x texture_view_y texture_view_width texture_view_height : Z)
    (target_width target_height : Z) (w w1 : World) :
  CheckPostProcessingRenderTargets target_width target_height w = Returned false w1 ->
  ApplyPostProcessingChain target_fb final_left final_top final_width final_height
    texture texture_view_x texture_view_y texture_view_width texture_view_height
    target_width target_height w
  = (BeginSwapChainRenderPass target_fb target_width target_height;;
     RenderDisplay_to final_left final_top final_width final_height texture
       texture_view_x texture_view_y texture_view_width texture_view_height
       (IsUsingLinearFiltering (disp w1))) w1.
Proof.
  intros Hcheck. unfold ApplyPostProcessingChain.
  rewrite bind_run, Hcheck. run. reflexivity.
Qed.

(** ** Texture formats *)

Lemma required_features_bits (features : Z) :
  (Z.land features (Z.lor VK_FORMAT_FEATURE_SAMPLED_IMAGE_BIT
                          VK_FORMAT_FEATURE_TRANSFER_DST_BIT)
   =? Z.lor VK_FORMAT_FEATURE_SAMPLED_IMAGE_BIT VK_FORMAT_FEATURE_TRANSFER_DST_BIT)
  = Z.testbit features 0 && Z.testbit features 15.
Proof.
  change (Z.lor VK_FORMAT_FEATURE_SAMPLED_IMAGE_BIT VK_FORMAT_FEATURE_TRANSFER_DST_BIT)
    with (Z.lor (2 ^ 0) (2 ^ 15)).
  assert (Hbit : forall n, 0 <= n ->
             Z.testbit (Z.lor (2 ^ 0) (2 ^ 15)) n = (0 =? n) || (15 =? n)).
  { intros n Hn. rewrite Z.lor_spec, !Z.pow2_bits_eqb by lia. reflexivity. }
  apply eq_true_iff_eq. rewrite Z.eqb_eq, andb_true_iff. split.
  - intros Heq. split.
    + apply (f_equal (λ z, Z.testbit z 0)) in Heq. cbv beta in Heq.
      rewrite Z.land_spec, (Hbit 0) in Heq by lia.
      cbn in Heq. rewrite andb_true_r in Heq. exact Heq.
    + apply (f_equal (λ z, Z.testbit z 15)) in Heq. cbv beta in Heq.
      rewrite Z.land_spec, (Hbit 15) in Heq by lia.
      cbn in Heq. rewrite andb_true_r in Heq. exact Heq.
  - intros [H0 H15]. apply Z.bits_inj'. intros n Hn.
    rewrite Z.land_spec, (Hbit n Hn).
    destruct (0 =? n) eqn:E0; [apply Z.eqb_eq in E0; subst n; rewrite H0; reflexivity|].
    destruct (15 =? n) eqn:E15; [apply Z.eqb_eq in E15; subst n; rewrite H15; reflexivity|].
    apply andb_false_r.
Qed.

(** X1: SupportsTextureFormat answers without touching the display or
    making a call that is recorded, and it answers true exactly when the
    format has a Vulkan format and the device reports both the
    sampled-image bit (bit 0) and the transfer-destination bit (bit 15) in
    optimalTilingFeatures; no other feature bit matters. *)
Theorem SupportsTextureFormat_bits `{FormatExternals} (format : GPUTexture_Format)
    (w : World) :
  SupportsTextureFormat format w
  = Returned
      (negb (ext_GetVkFormat format =? VK_FORMAT_UNDEFINED)
       && (Z.testbit (ext_optimalTilingFeatures (trace w) (ext_GetVkFormat format)) 0
           && Z.testbit (ext_optimalTilingFeatures (trace w) (ext_GetVkFormat format)) 15))
      w.
Proof.
  unfold SupportsTextureFormat. cbv zeta.
  destruct (ext_GetVkFormat format =? VK_FORMAT_UNDEFINED); [reflexivity|].
  run. rewrite required_features_bits. reflexivity.
Qed.

(** ** Moving a post-processing stage *)

(** X2: the move constructor of PostProcessingStage hands over the
    pipeline, the output framebuffer, the output texture and the size of
    the uniforms unchanged, and the destructor of the stage moved from
    defers neither a framebuffer nor a pipeline: all it does is Destroy
    on the texture the move left behind, which records a call only if
    that texture still holds an image. *)
Theorem PostProcessingStage_move_releases_once (move : PostProcessingStage)
    (moved_texture : Texture) (w : World) :
  (PostProcessingStage_move move moved_texture).1 = move
  /\ destroy_stage (PostProcessingStage_move move moved_texture).2 w
     = Returned tt (if tex_image moved_texture =? VK_NULL_HANDLE then w
                    else log (EvTextureDestroy (tex_image moved_texture) true) w).
Proof.
  split.
  - destruct move; reflexivity.
  - unfold destroy_stage, PostProcessingStage_move, Texture_Destroy.
    cbn [snd pipeline output_framebuffer output_texture]. run.
    change (VK_NULL_HANDLE =? VK_NULL_HANDLE) with true. cbn [negb]. run.
    destruct (tex_image moved_texture =? VK_NULL_HANDLE); run; destruct w; reflexivity.
Qed.

(** ** The adapter and fullscreen-mode list *)

(** X3: GetAdapterAndModeList lists fullscreen modes only when there is a
    global context and the window is not surfaceless: then one string per
    mode of the surface, in order; otherwise none.  And whatever the
    loader answers, its calls keep the loader protocol: with a context the
    library is neither loaded nor unloaded; without one, a library that
    was loaded is unloaded again, an instance that was created is
    destroyed before that, and adapters are only enumerated on an
    instance whose functions were loaded. *)
Theorem GetAdapterAndModeList_protocol `{LoaderExternals} (g_vulkan_context : option Z)
    (d : Display) :
  fullscreen_modes (GetAdapterAndModeList g_vulkan_context d).1
  = match g_vulkan_context with
    | Some instance =>
        if is_surfaceless (wi_type (m_window_info d)) then []
        else (λ fmi, ext_GetFullscreenModeString (fmi_width fmi) (fmi_height fmi)
                       (fmi_refresh_rate fmi))
             <$> ext_GetSurfaceFullscreenModes instance (m_window_info d)
    | None => []
    end
  /\ loader_scan g_vulkan_context loader_idle (GetAdapterAndModeList g_vulkan_context d).2
     = Some loader_idle.
Proof.
  unfold GetAdapterAndModeList, StaticGetAdapterAndModeList.
  destruct g_vulkan_context as [instance|].
  - destruct (is_surfaceless (wi_type (m_window_info d))); cbn [negb fst snd fullscreen_modes].
    + split; [reflexivity|].
      repeat (cbn; rewrite ?Z.eqb_refl, ?orb_true_r). reflexivity.
    + split.
      * destruct (ext_GetSurfaceFullscreenModes instance (m_window_info d)); reflexivity.
      * repeat (cbn; rewrite ?Z.eqb_refl, ?orb_true_r). reflexivity.
  - destruct (negb (is_surfaceless (wi_type (m_window_info d))));
      (destruct ext_LoadVulkanLibrary; [|split; reflexivity]);
      (destruct (ext_CreateVulkanInstance =? VK_NULL_HANDLE) eqn:Hnull; cbn [negb];
       [split; [reflexivity|]; repeat (cbn; rewrite ?Z.eqb_refl, ?Hnull); reflexivity|]);
      destruct (ext_LoadVulkanInstanceFunctions ext_CreateVulkanInstance) eqn:Hfn;
      (split; [reflexivity|]; repeat (cbn; rewrite ?Z.eqb_refl, ?Hnull); reflexivity).
Qed.

(** ** More on the readback staging buffer *)

(** X4: DestroyStagingBuffer leaves no staging buffer: afterwards the
    handle is null and a second call does nothing.  With a buffer at hand
    it makes one call, vmaDestroyBuffer on that buffer and its allocation,
    the buffer is no longer live, and allocation, mapping and recorded
    size are reset; with no buffer it changes nothing. *)
Theorem DestroyStagingBuffer_idempotent (w : World) :
  let buffer := m_readback_staging_buffer (disp w) in
  exists w1,
    DestroyStagingBuffer w = Returned tt w1
    /\ DestroyStagingBuffer w1 = Returned tt w1
    /\ m_readback_staging_buffer (disp w1) = VK_NULL_HANDLE
    /\ if buffer =? VK_NULL_HANDLE then w1 = w
       else added w w1 [EvVmaDestroyBuffer buffer (m_readback_staging_allocation (disp w))]
            /\ vma_buffers w1 = delete buffer (vma_buffers w)
            /\ m_readback_staging_allocation (disp w1) = VK_NULL_HANDLE
            /\ m_readback_staging_buffer_map (disp w1) = nullptr
            /\ m_readback_staging_buffer_size (disp w1) = 0.
Proof.
  intros buffer. exists (staging_destroyed w).
  split; [apply DestroyStagingBuffer_run|].
  rewrite DestroyStagingBuffer_run. unfold staging_destroyed. fold buffer.
  destruct (buffer =? VK_NULL_HANDLE) eqn:Hnull.
  - fold buffer. rewrite Hnull. split; [reflexivity|]. split; [|reflexivity].
    apply Z.eqb_eq. exact Hnull.
  - cbn. split; [reflexivity|]. repeat split.
Qed.

Lemma staging_destroyed_tracked (w : World) :
  staging_tracked w ->
  m_readback_staging_buffer (disp (staging_destroyed w)) = VK_NULL_HANDLE
  /\ vma_buffers (staging_destroyed w) = ∅.
Proof.
  intros Htracked. unfold staging_destroyed.
  destruct (m_readback_staging_buffer (disp w) =? VK_NULL_HANDLE) eqn:Hnull.
  - apply Z.eqb_eq in Hnull. split; [exact Hnull|].
    apply map_eq. intros b. rewrite lookup_empty.
    apply eq_None_not_Some. intros Hb. apply Htracked in Hb as [-> Hb]. contradiction.
  - cbn. split; [reflexivity|].
    apply map_eq. intros b. rewrite lookup_empty.
    destruct (decide (b = m_readback_staging_buffer (disp w))) as [->|Hne].
    + apply lookup_delete_eq.
    + rewrite lookup_delete_ne by congruence.
      apply eq_None_not_Some. intros Hb. apply Htracked in Hb as [-> _]. contradiction.
Qed.

Lemma CheckStagingBufferSize_tracked `{Externals} (required_size : Z) (w : World) :
  vma_null_on_failure -> staging_tracked w ->
  exists ok w1, CheckStagingBufferSize required_size w = Returned ok w1
                /\ staging_tracked w1.
Proof.
  intros Hvma Htracked. rewrite CheckStagingBufferSize_run.
  destruct (m_readback_staging_buffer_size (disp w) >=? required_size); [eauto|].
  cbn zeta. destruct (staging_destroyed_tracked w Htracked) as [_ Hempty].
  specialize (Hvma (trace (staging_destroyed w)) required_size).
  destruct (ext_vmaCreateBuffer (trace (staging_destroyed w)) required_size)
    as [[[res buffer] allocation] mapped].
  cbn [fst snd] in Hvma. rewrite Hvma.
  destruct (buffer =? VK_NULL_HANDLE) eqn:Hnull; cbn [negb].
  - apply Z.eqb_eq in Hnull. subst buffer.
    eexists _, _. split; [reflexivity|]. intros b. cbn. rewrite Hempty, lookup_empty.
    split; [intros [? ?]; discriminate | intros [-> ?]; contradiction].
  - apply Z.eqb_neq in Hnull.
    eexists _, _. split; [reflexivity|]. intros b. cbn. rewrite Hempty.
    destruct (decide (b = buffer)) as [->|Hne].
    + rewrite lookup_insert_eq. split; [auto | eauto].
    + rewrite lookup_insert_ne, lookup_empty by congruence.
      split; [intros [? ?]; discriminate | intros [-> ?]; contradiction].
Qed.

(** What DownloadTexture does once the staging buffer is there: it only
    records commands and calls, and returns true. *)
Lemma DownloadTexture_after_check `{Externals} (tex : Texture) (x y width height : Z)
    (out_data : list Z) (out_data_stride : Z) (w : World) (ok : bool) (w1 : World) :
  let pitch := ext_CalcUpdatePitch tex width in
  let size := u32 (pitch * height) in
  CheckStagingBufferSize size w = Returned ok w1 ->
  exists data evs,
    DownloadTexture tex x y width height out_data out_data_stride w
    = Returned (ok, data) {| disp := disp w1; trace := trace w1 ++ evs;
                             vma_buffers := vma_buffers w1 |}
    /\ if ok
       then layout_scan (tex_image tex) (tex_layout tex) evs = Some (tex_layout tex)
            /\ List.filter is_copy evs
               = [EvCopyImageToBuffer (tex_image tex) (m_readback_staging_buffer (disp w1))
                    x y width height (ext_CalcUpdateRowLength tex pitch)
                    (if ext_IsDepthFormat (tex_format tex)
                     then VK_IMAGE_ASPECT_DEPTH_BIT else VK_IMAGE_ASPECT_COLOR_BIT)]
       else data = out_data /\ evs = [].
Proof.
  intros pitch size Hcheck. unfold DownloadTexture. fold pitch. fold size.
  rewrite bind_run, Hcheck. destruct ok; cbn [negb].
  - destruct (tex_layout tex =? VK_IMAGE_LAYOUT_TRANSFER_SRC_OPTIMAL) eqn:Hsrc;
      cbn [negb]; run; rewrite <- !app_assoc; cbn [app];
      eexists _, _; (split; [reflexivity|]);
      cbn [layout_scan List.filter is_copy]; rewrite ?Z.eqb_refl, ?Hsrc;
      cbn [layout_scan List.filter is_copy]; rewrite ?Z.eqb_refl; split; reflexivity.
  - exists out_data, []. rewrite app_nil_r. split; [|split; reflexivity].
    destruct w1; reflexivity.
Qed.

(** X5: DownloadTexture keeps track of its staging buffer: on a driver
    whose vmaCreateBuffer hands out a buffer exactly when it succeeds, if
    the allocator's only live buffer is the one the display holds (or
    there is none) before the call, the same is true after it: a buffer
    that is replaced is destroyed first, and a failed allocation leaves
    the display holding no buffer. *)
Theorem DownloadTexture_tracks_staging `{Externals} (tex : Texture) (x y width height : Z)
    (out_data : list Z) (out_data_stride : Z) (w : World) :
  vma_null_on_failure -> staging_tracked w ->
  staging_tracked (final (DownloadTexture tex x y width height out_data out_data_stride w)).
Proof.
  intros Hvma Htracked.
  destruct (CheckStagingBufferSize_tracked
              (u32 (ext_CalcUpdatePitch tex width * height)) w Hvma Htracked)
    as (ok & w1 & Hcheck & Htracked1).
  destruct (DownloadTexture_after_check tex x y width height out_data out_data_stride
              w ok w1 Hcheck) as (data & evs & -> & _).
  exact Htracked1.
Qed.

Lemma DownloadTexture_tracks_staging_witness :
  staging_tracked (windowed_world None)
  /\ staging_tracked
       (final (@DownloadTexture (scripted cooperative) big_texture 0 0 64 64 [] 256
                 (windowed_world None))).
Proof.
  assert (Hstart : staging_tracked (windowed_world None)).
  { intros b. cbn. rewrite lookup_empty.
    split; [intros [? ?]; discriminate | intros [-> ?]; contradiction]. }
  split; [exact Hstart|].
  apply (@DownloadTexture_tracks_staging (scripted cooperative)); [|exact Hstart].
  intros t size. cbn. unfold fresh, VK_NULL_HANDLE.
  destruct (Z.eqb_spec (1000 + Z.of_nat (length t)) 0); [lia | reflexivity].
Defined.


(** ** Render passes in the command stream *)

Lemma cmd_scan_app (a b : Trace) : forall inside,
  cmd_scan inside (a ++ b)
  = match cmd_scan inside a with
    | Some inside' => cmd_scan inside' b
    | None => None
    end.
Proof.
  induction a as [|e a IH]; intros inside; [reflexivity|].
  cbn [app cmd_scan]. destruct (cmd_step inside e); [apply IH | reflexivity].
Qed.

Lemma runs_mono {A} (inside : bool) (m : M A) (Q Q' : A -> bool -> World -> Prop)
    (w : World) :
  runs inside m Q w -> (forall a b w', Q a b w' -> Q' a b w') -> runs inside m Q' w.
Proof.
  unfold runs. destruct (m w); [|auto].
  intros (evs & b & Ht & Hs & HQ) Himp. exists evs, b. auto.
Qed.

Lemma runs_ret {A} (inside : bool) (a : A) (Q : A -> bool -> World -> Prop) (w : World) :
  Q a inside w -> runs inside (mret a) Q w.
Proof. intros HQ. exists [], inside. rewrite app_nil_r. auto. Qed.

Lemma runs_bind {A B} (inside : bool) (m : M A) (k : A -> M B)
    (Q : B -> bool -> World -> Prop) (w : World) :
  runs inside m (λ a inside' w', runs inside' (k a) Q w') w ->
  runs inside (m ≫= k) Q w.
Proof.
  unfold runs. rewrite bind_run. destruct (m w) as [a w1|]; [|auto].
  intros (evs1 & b1 & Ht1 & Hs1 & Hk).
  destruct (k a w1) as [b w2|]; [|auto].
  destruct Hk as (evs2 & b2 & Ht2 & Hs2 & HQ).
  exists (evs1 ++ evs2), b2.
  split; [rewrite Ht2, Ht1, app_assoc; reflexivity|].
  split; [rewrite cmd_scan_app, Hs1; exact Hs2 | exact HQ].
Qed.

Lemma runs_get {A} (inside : bool) (f : Display -> A) (Q : A -> bool -> World -> Prop)
    (w : World) :
  Q (f (disp w)) inside w -> runs inside (get f) Q w.
Proof. apply runs_ret. Qed.

Lemma runs_query {A} (inside : bool) (f : Trace -> A) (Q : A -> bool -> World -> Prop)
    (w : World) :
  Q (f (trace w)) inside w -> runs inside (query f) Q w.
Proof. apply runs_ret. Qed.

Lemma runs_modify (inside : bool) (f : Display -> Display)
    (Q : unit -> bool -> World -> Prop) (w : World) :
  Q tt inside (with_disp f w) -> runs inside (modify f) Q w.
Proof. intros HQ. exists [], inside. cbn. rewrite app_nil_r. auto. Qed.

Lemma runs_vma_alloc (inside : bool) (buffer size : Z)
    (Q : unit -> bool -> World -> Prop) (w : World) :
  Q tt inside (with_vma (insert buffer size) w) -> runs inside (vma_alloc buffer size) Q w.
Proof. intros HQ. exists [], inside. cbn. rewrite app_nil_r. auto. Qed.

Lemma runs_vma_free (inside : bool) (buffer : Z)
    (Q : unit -> bool -> World -> Prop) (w : World) :
  Q tt inside (with_vma (delete buffer) w) -> runs inside (vma_free buffer) Q w.
Proof. intros HQ. exists [], inside. cbn. rewrite app_nil_r. auto. Qed.

Lemma runs_abort {A} (inside : bool) (f : Fault) (Q : A -> bool -> World -> Prop)
    (w : World) :
  runs inside (abort f) Q w.
Proof. exact I. Qed.

Lemma runs_emit (inside inside' : bool) (e : Event) (Q : unit -> bool -> World -> Prop)
    (w : World) :
  cmd_step inside e = Some inside' -> Q tt inside' (log e w) -> runs inside (emit e) Q w.
Proof.
  intros Hstep HQ. exists [e], inside'. cbn [cmd_scan]. rewrite Hstep. auto.
Qed.

Lemma runs_ask {A} (inside inside' : bool) (f : Trace -> A) (ev : A -> Event)
    (Q : A -> bool -> World -> Prop) (w : World) :
  cmd_step inside (ev (f (trace w))) = Some inside' ->
  Q (f (trace w)) inside' (log (ev (f (trace w))) w) ->
  runs inside (ask f ev) Q w.
Proof.
  intros Hstep HQ. exists [ev (f (trace w))], inside'. cbn [cmd_scan]. rewrite Hstep. auto.
Qed.

(** What [runs] says of a run that returned. *)
Lemma runs_returned {A} (inside : bool) (m : M A) (Q : A -> bool -> World -> Prop)
    (w w' : World) (a : A) :
  runs inside m Q w -> m w = Returned a w' ->
  exists evs inside',
    trace w' = trace w ++ evs /\ cmd_scan inside evs = Some inside' /\ Q a inside' w'.
Proof. unfold runs. intros Hruns Hm. rewrite Hm in Hruns. exact Hruns. Qed.

(** One step through the structure of a method body. *)
Ltac runs_step :=
  lazymatch goal with
  | |- runs _ (mbind _ _) _ _ => apply runs_bind
  | |- runs _ (mret _) _ _ => apply runs_ret
  | |- runs _ (get _) _ _ => apply runs_get
  | |- runs _ (query _) _ _ => apply runs_query
  | |- runs _ (modify _) _ _ => apply runs_modify
  | |- runs _ (abort _) _ _ => apply runs_abort
  | |- runs _ (vma_alloc _ _) _ _ => apply runs_vma_alloc
  | |- runs _ (vma_free _) _ _ => apply runs_vma_free
  | |- runs _ (emit _) _ _ => eapply runs_emit; [reflexivity|]
  | |- runs _ (ask _ _) _ _ => eapply runs_ask; [reflexivity|]
  | |- runs _ (let _ := _ in _) _ _ => cbv zeta
  | |- runs _ (if ?c then _ else _) _ _ => destruct c eqn:?
  | |- runs _ (match ?x with _ => _ end) _ _ => destruct x eqn:?
  end.

(** A method that another lemma covers, followed by the rest. *)
Ltac runs_with lem :=
  apply runs_bind; eapply runs_mono; [apply lem|]; cbv beta.

(** The same, when the method is all that is left. *)
Ltac runs_by lem :=
  eapply runs_mono; [apply lem|]; cbv beta.

Lemma same_stage_count_refl w : same_stage_count w w.
Proof. reflexivity. Qed.

Lemma same_stage_count_trans w1 w2 w3 :
  same_stage_count w1 w2 -> same_stage_count w2 w3 -> same_stage_count w1 w3.
Proof. unfold same_stage_count. congruence. Qed.

Section RenderPasses.
Context `{Externals}.

Lemma runs_BeginSwapChainRenderPass (framebuffer width height : Z) (w : World) :
  runs false (BeginSwapChainRenderPass framebuffer width height)
       (λ _ inside' w', inside' = true /\ disp w' = disp w) w.
Proof using Type.
  unfold BeginSwapChainRenderPass, deref_swap_chain. repeat runs_step. split; reflexivity.
Qed.

Lemma runs_RenderDisplay_to (left top width height : Z) (texture : TexRef)
    (vx vy vw vh : Z) (linear_filter : bool) (w : World) :
  runs true (RenderDisplay_to left top width height texture vx vy vw vh linear_filter)
       (λ _ inside' w', inside' = true /\ disp w' = disp w) w.
Proof using Type.
  unfold RenderDisplay_to, deref_texture. repeat runs_step; split; reflexivity.
Qed.

Lemma runs_RenderSoftwareCursor (w : World) :
  runs true RenderSoftwareCursor (λ _ inside' w', inside' = true /\ disp w' = disp w) w.
Proof using Type.
  unfold RenderSoftwareCursor, RenderSoftwareCursor_to.
  repeat runs_step; split; reflexivity.
Qed.

Lemma runs_GetRenderPassForDisplay (inside : bool) (w : World) :
  runs inside GetRenderPassForDisplay (λ _ inside' w', inside' = inside /\ w' = w) w.
Proof using Type.
  unfold GetRenderPassForDisplay. repeat runs_step; split; reflexivity.
Qed.

(** The leaves of a method that leaves the stage count alone. *)
Ltac same_count :=
  unfold same_stage_count in *; wsimpl; rewrite ?length_insert in *; try reflexivity;
  try congruence.

Lemma runs_check_stage_targets (inside : bool) (target_width target_height : Z)
    (n : nat) :
  forall (i : nat) (w : World),
    runs inside (check_stage_targets n i target_width target_height)
         (λ ok inside' w',
            inside' = inside /\ same_stage_count w w'
            /\ (ok = true ->
                n = 0%nat
                \/ (i + n <= length (m_post_processing_stages (disp w)))%nat)) w.
Proof using Type.
  induction n as [|n IH]; intros i w; cbn [check_stage_targets].
  - apply runs_ret. split; [reflexivity|]. split; [reflexivity|]. auto.
  - unfold stage_at, set_stage_at, Texture_Create, Texture_CreateFramebuffer,
      GetRenderPassForDisplay, deref_swap_chain.
    apply runs_bind, runs_bind, runs_get.
    destruct (m_post_processing_stages (disp w) !! i) as [pps|] eqn:Hi;
      [|apply runs_abort].
    apply lookup_lt_Some in Hi.
    apply runs_ret.
    repeat runs_step.
    all: try (split; [reflexivity|]; split; [same_count | discriminate]).
    all: eapply runs_mono; [apply IH|]; cbv beta;
      intros ok b w' (-> & Hcount & Hok);
      (split; [reflexivity|]);
      (split; [same_count|]);
      intros Htrue; right; specialize (Hok Htrue);
      unfold same_stage_count in *; wsimpl; rewrite ?length_insert in *; lia.
Qed.

Lemma runs_CheckPostProcessingRenderTargets (inside : bool)
    (target_width target_height : Z) (w : World) :
  runs inside (CheckPostProcessingRenderTargets target_width target_height)
       (λ ok inside' w',
          inside' = inside /\ same_stage_count w w'
          /\ (ok = true -> (0 < length (m_post_processing_stages (disp w)))%nat)) w.
Proof using Type.
  assert (Hwrap : u32 (Z.of_nat 0 - 1) = 4294967295) by reflexivity.
  unfold CheckPostProcessingRenderTargets, Texture_Create, Texture_CreateFramebuffer,
    GetRenderPassForDisplay, deref_swap_chain.
  repeat runs_step.
  all: try (split; [reflexivity|]; split; [same_count | discriminate]).
  all: eapply runs_mono; [apply runs_check_stage_targets|]; cbv beta;
    intros ok b w' (-> & Hcount & Hok);
    (split; [reflexivity|]);
    (split; [same_count|]);
    intros Htrue; specialize (Hok Htrue);
    unfold same_stage_count in *; wsimpl;
    destruct (length (m_post_processing_stages (disp w))) eqn:Hlen; [|lia];
    rewrite Hwrap in Hok; lia.
Qed.

Lemma runs_apply_stage (i : nat) (final_stage target_fb : Z) (texture : TexRef)
    (target_width target_height : Z) (w : World) :
  runs false (apply_stage i final_stage target_fb texture target_width target_height)
       (λ r inside' w',
          same_stage_count w w'
          /\ inside' = match r with
                       | None => true
                       | Some _ => Z.of_nat i =? final_stage
                       end) w.
Proof using Type.
  unfold apply_stage, stage_at, GetShaderStage, Texture_TransitionToLayout, set_stage_at,
    BeginSwapChainRenderPass, deref_swap_chain, deref_texture.
  destruct (Z.of_nat i =? final_stage); cbn [negb];
    repeat runs_step; (split; [same_count | reflexivity]).
Qed.

Lemma runs_apply_stages (final_stage target_fb target_width target_height : Z) (n : nat) :
  forall (i : nat) (texture : TexRef) (w : World),
    (1 <= n)%nat ->
    final_stage = Z.of_nat (i + n) - 1 ->
    runs false (apply_stages n i final_stage target_fb texture target_width target_height)
         (λ _ inside' w', inside' = true /\ same_stage_count w w') w.
Proof using Type.
  induction n as [|n IH]; intros i texture w Hn Hfinal; [lia|].
  cbn [apply_stages]. runs_with runs_apply_stage.
  intros [texture'|] b w1 (Hcount & ->).
  - destruct n as [|n].
    + replace (Z.of_nat i =? final_stage) with true by (symmetry; apply Z.eqb_eq; lia).
      cbn [apply_stages]. apply runs_ret. auto.
    + replace (Z.of_nat i =? final_stage) with false by (symmetry; apply Z.eqb_neq; lia).
      eapply runs_mono; [apply IH; lia|]. cbv beta.
      intros _ b w2 (-> & Hcount2). split; [reflexivity|].
      eapply same_stage_count_trans; eauto.
  - apply runs_ret. auto.
Qed.

Lemma runs_ApplyPostProcessingChain (target_fb final_left final_top final_width
    final_height : Z) (texture : TexRef) (vx vy vw vh target_width target_height : Z)
    (w : World) :
  Z.of_nat (length (m_post_processing_stages (disp w))) < 2 ^ 32 ->
  runs false (ApplyPostProcessingChain target_fb final_left final_top final_width
                final_height texture vx vy vw vh target_width target_height)
       (λ _ inside' w', inside' = true /\ same_stage_count w w') w.
Proof using Type.
  intros Hsmall. unfold ApplyPostProcessingChain.
  runs_with runs_CheckPostProcessingRenderTargets.
  intros ok b w1 (-> & Hcount1 & Hok).
  apply runs_bind, runs_get. destruct ok; cbn [negb].
  - specialize (Hok eq_refl).
    unfold Texture_TransitionToLayout.
    repeat runs_step.
    runs_by runs_BeginSwapChainRenderPass. intros _ b w2 (-> & Hd2).
    runs_with runs_RenderDisplay_to. intros _ b w3 (-> & Hd3).
    repeat runs_step.
    assert (Hlen : length (m_post_processing_stages (disp w3))
                   = length (m_post_processing_stages (disp w))).
    { rewrite Hd3, Hd2. wsimpl. exact Hcount1. }
    assert (Hsize : u32 (Z.of_nat (length (m_post_processing_stages (disp w))))
                    = Z.of_nat (length (m_post_processing_stages (disp w))))
      by (unfold u32; apply Z.mod_small; lia).
    wsimpl. rewrite Hlen, Hsize, Nat2Z.id.
    eapply runs_mono.
    { apply runs_apply_stages; [lia|].
      unfold u32. rewrite Z.mod_small by lia. lia. }
    cbv beta. intros _ b w4 (-> & Hcount4). split; [reflexivity|].
    unfold same_stage_count in *. rewrite Hcount4. wsimpl. exact Hlen.
  - runs_with runs_BeginSwapChainRenderPass. intros _ b w2 (-> & Hd2).
    eapply runs_mono; [apply runs_RenderDisplay_to|]. cbv beta.
    intros _ b w3 (-> & Hd3). split; [reflexivity|].
    unfold same_stage_count in *. rewrite Hd3, Hd2. exact Hcount1.
Qed.

(** The leaves of a method that leaves the stage list alone. *)
Ltac runs_done :=
  repeat match goal with
    | |- _ /\ _ => split
    | Hd : disp ?w' = disp _ |- context [disp ?w'] => rewrite Hd
    end;
  try reflexivity; same_count.

Lemma runs_RenderDisplay (w : World) :
  Z.of_nat (length (m_post_processing_stages (disp w))) < 2 ^ 32 ->
  runs false RenderDisplay (λ _ inside' w', inside' = true /\ same_stage_count w w') w.
Proof using Type.
  intros Hsmall. unfold RenderDisplay, deref_swap_chain.
  repeat first
    [ runs_step
    | runs_by runs_BeginSwapChainRenderPass; intros _ ? ? (-> & ?)
    | runs_by runs_RenderDisplay_to; intros _ ? ? (-> & ?)
    | eapply runs_mono; [apply runs_ApplyPostProcessingChain; exact Hsmall|];
      cbv beta; intros _ ? ? (-> & ?) ].
  all: runs_done.
Qed.

Lemma runs_render_frame (w : World) :
  Z.of_nat (length (m_post_processing_stages (disp w))) < 2 ^ 32 ->
  runs false render_frame (λ _ inside' w', inside' = false /\ same_stage_count w w') w.
Proof using Type.
  intros Hsmall.
  unfold render_frame, swap_chain_texture_update, Texture_TransitionToLayout,
    deref_swap_chain, RenderImGui.
  repeat first
    [ runs_step
    | eapply runs_mono; [apply runs_RenderDisplay; wsimpl; exact Hsmall|];
      cbv beta; intros _ ? ? (-> & ?)
    | runs_by runs_RenderSoftwareCursor; intros _ ? ? (-> & ?) ].
  all: runs_done.
Qed.

Lemma runs_Render (skip_present : bool) (w : World) :
  Z.of_nat (length (m_post_processing_stages (disp w))) < 2 ^ 32 ->
  runs false (Render skip_present)
       (λ _ inside' w', inside' = false /\ same_stage_count w w') w.
Proof using Type.
  intros Hsmall.
  unfold Render, acquire_with_retry, ResizeRenderWindow, SwapChain_AcquireNextImage,
    SwapChain_ResizeSwapChain, SwapChain_RecreateSurface, reset_swap_chain,
    deref_swap_chain.
  repeat first
    [ runs_step
    | eapply runs_mono; [apply runs_render_frame; wsimpl; exact Hsmall|];
      cbv beta; intros _ ? ? (-> & ?) ].
  all: runs_done.
Qed.

Lemma runs_DownloadTexture (tex : Texture) (x y width height : Z) (out_data : list Z)
    (out_data_stride : Z) (w : World) :
  runs false (DownloadTexture tex x y width height out_data out_data_stride)
       (λ _ inside' w', inside' = false /\ same_stage_count w w') w.
Proof using Type.
  unfold DownloadTexture, CheckStagingBufferSize, DestroyStagingBuffer.
  repeat runs_step. all: runs_done.
Qed.

Lemma runs_RenderScreenshot (width height : Z) (out : Screenshot) (w : World) :
  Z.of_nat (length (m_post_processing_stages (disp w))) < 2 ^ 32 ->
  runs false (RenderScreenshot width height out)
       (λ _ inside' w', inside' = false /\ same_stage_count w w') w.
Proof using Type.
  intros Hsmall.
  unfold RenderScreenshot, Texture_Create, Texture_Destroy, Texture_CreateFramebuffer,
    Texture_TransitionToLayout.
  repeat first
    [ runs_step
    | runs_by runs_BeginSwapChainRenderPass; intros _ ? ? (-> & ?)
    | runs_by runs_RenderDisplay_to; intros _ ? ? (-> & ?)
    | runs_by runs_DownloadTexture; intros ? ? ? (-> & ?)
    | eapply runs_mono; [apply runs_ApplyPostProcessingChain; wsimpl; exact Hsmall|];
      cbv beta; intros _ ? ? (-> & ?) ].
  all: runs_done.
Qed.

End RenderPasses.

(** X7: whenever Render returns, with true or with false, the commands it
    recorded fit a command buffer that is outside a render pass at the
    call and leave it outside a render pass: render passes are begun and
    ended in turn and never nested; every draw, of the display, of a
    post-processing stage, of ImGui or of the cursor, is inside a render
    pass; and every layout transition, and the execution or submission of
    the command buffer, is outside one.  The stage list keeps its length.
    (The stage count has to fit the u32 the loops count in.) *)
Theorem Render_command_stream `{Externals} (skip_present : bool) (w w' : World)
    (r : bool) :
  Z.of_nat (length (m_post_processing_stages (disp w))) < 2 ^ 32 ->
  Render skip_present w = Returned r w' ->
  exists evs,
    added w w' evs
    /\ cmd_scan false evs = Some false
    /\ same_stage_count w w'.
Proof.
  intros Hsmall Hrun.
  destruct (runs_returned _ _ _ _ _ _ (runs_Render skip_present w Hsmall) Hrun)
    as (evs & b & Ht & Hscan & -> & Hcount).
  exists evs. auto.
Qed.

Lemma Render_command_stream_witness :
  exists w' evs,
    @Render (scripted cooperative) false world_with_three_stages = Returned true w'
    /\ added world_with_three_stages w' evs
    /\ cmd_scan false evs = Some false
    /\ length (List.filter (λ e, match e with EvDraw _ => true | _ => false end) evs)
       = 4%nat.
Proof.
  eexists (final (@Render (scripted cooperative) false world_with_three_stages)).
  destruct (@Render_command_stream (scripted cooperative) false world_with_three_stages
              (final (@Render (scripted cooperative) false world_with_three_stages)) true)
    as (evs & Hadd & Hscan & _).
  - vm_compute. reflexivity.
  - vm_compute. reflexivity.
  - exists evs. split; [vm_compute; reflexivity|]. split; [exact Hadd|].
    split; [exact Hscan|].
    unfold added in Hadd. vm_compute in Hadd. rewrite <- Hadd.
    vm_compute. reflexivity.
Defined.

(** X8: the same holds of RenderScreenshot, whatever it returns: the
    screenshot is drawn inside render passes that are all ended before
    the image is transitioned and copied to the staging buffer, and the
    command buffer is executed outside a render pass. *)
Theorem RenderScreenshot_command_stream `{Externals} (width height : Z) (out : Screenshot)
    (w w' : World) (r : bool * Screenshot) :
  Z.of_nat (length (m_post_processing_stages (disp w))) < 2 ^ 32 ->
  RenderScreenshot width height out w = Returned r w' ->
  exists evs,
    added w w' evs
    /\ cmd_scan false evs = Some false
    /\ same_stage_count w w'.
Proof.
  intros Hsmall Hrun.
  destruct (runs_returned _ _ _ _ _ _ (runs_RenderScreenshot width height out w Hsmall) Hrun)
    as (evs & b & Ht & Hscan & -> & Hcount).
  exists evs. auto.
Qed.

Lemma RenderScreenshot_command_stream_witness :
  let out := {| out_pixels := []; out_stride := 0; out_format := Format_Unknown |} in
  exists r w' evs,
    @RenderScreenshot (scripted cooperative) 4 4 out world_with_three_stages
    = Returned (true, r) w'
    /\ added world_with_three_stages w' evs
    /\ cmd_scan false evs = Some false
    /\ length (List.filter is_copy evs) = 1%nat.
Proof.
  intros out.
  pose (o := @RenderScreenshot (scripted cooperative) 4 4 out world_with_three_stages).
  destruct (@RenderScreenshot_command_stream (scripted cooperative) 4 4 out
              world_with_three_stages (final o)
              (true, {| out_pixels := replicate 16 0xFF000000; out_stride := 16;
                        out_format := BGRA8 |}))
    as (evs & Hadd & Hscan & _).
  - vm_compute. reflexivity.
  - vm_compute. reflexivity.
  - eexists _, (final o), evs. split; [vm_compute; reflexivity|]. split; [exact Hadd|].
    split; [exact Hscan|].
    unfold added in Hadd. vm_compute in Hadd. rewrite <- Hadd.
    vm_compute. reflexivity.
Defined.

(** ** Render: what is presented *)

Lemma bind_returned {A B} (m : M A) (k : A -> M B) (w w' : World) (b : B) :
  (m ≫= k) w = Returned b w' ->
  exists a w1, m w = Returned a w1 /\ k a w1 = Returned b w'.
Proof.
  rewrite bind_run. destruct (m w) as [a w1|f w1]; [eauto | discriminate].
Qed.

(** The first step of a sequence that returned, with the calls it made. *)
Lemma bind_returned_within {A B} (m : M A) (k : A -> M B) (w w' : World) (b : B) :
  within any_event m ->
  (m ≫= k) w = Returned b w' ->
  exists a w1 evs, trace w1 = trace w ++ evs /\ k a w1 = Returned b w'.
Proof.
  intros Hm Hrun. apply bind_returned in Hrun as (a & w1 & Hm1 & Hk).
  destruct (Hm w) as [(evs & Ht & _) _]. rewrite Hm1 in Ht. eauto.
Qed.

Lemma within_swap_chain_texture_update `{Externals} (f : Texture -> M Texture) :
  (forall t, within any_event (f t)) -> within any_event (swap_chain_texture_update f).
Proof.
  intros Hf. pose proof (within_deref_swap_chain any_event).
  unfold swap_chain_texture_update. footprint.
Qed.

Lemma render_frame_presents `{Externals} (w w' : World) (r : bool) :
  render_frame w = Returned r w' -> r = true /\ presented w w'.
Proof.
  unfold render_frame. intros Hrun.
  apply bind_returned_within in Hrun as (_ & w1 & e1 & Ht1 & Hrun);
    [|apply within_swap_chain_texture_update; intros; apply within_ret].
  apply bind_returned_within in Hrun as (_ & w2 & e2 & Ht2 & Hrun);
    [|apply within_swap_chain_texture_update; intros;
      apply within_Texture_TransitionToLayout, any_quiet].
  apply bind_returned_within in Hrun as (_ & w3 & e3 & Ht3 & Hrun);
    [|apply within_RenderDisplay, any_quiet].
  apply bind_returned_within in Hrun as (ctx & w4 & e4 & Ht4 & Hrun);
    [|apply within_query].
  apply bind_returned_within in Hrun as (_ & w5 & e5 & Ht5 & Hrun);
    [|destruct ctx; [apply within_RenderImGui, any_quiet | apply within_ret]].
  apply bind_returned_within in Hrun as (_ & w6 & e6 & Ht6 & Hrun);
    [|apply within_RenderSoftwareCursor, any_quiet].
  apply bind_returned_within in Hrun as (_ & w7 & e7 & Ht7 & Hrun);
    [|apply within_emit; exact I].
  unfold swap_chain_texture_update, deref_swap_chain, Texture_TransitionToLayout in Hrun.
  run_in Hrun.
  destruct (m_swap_chain (disp w7)) as [sc|] eqn:Hsc; run_in Hrun; [|discriminate].
  repeat (progress (cbn in Hrun; rewrite ?Hsc in Hrun; run_in Hrun)).
  injection Hrun as <- <-. split; [reflexivity|].
  exists (set_sc_current_texture
            (set_tex_layout VK_IMAGE_LAYOUT_PRESENT_SRC_KHR (sc_current_texture sc)) sc),
         (e1 ++ e2 ++ e3 ++ e4 ++ e5 ++ e6 ++ e7).
  split; [reflexivity|]. split; [reflexivity|].
  unfold added. cbn. rewrite Ht7, Ht6, Ht5, Ht4, Ht3, Ht2, Ht1, <- !app_assoc.
  reflexivity.
Qed.

Lemma nothing_submitted_log (w w' : World) (e : Event) :
  nothing_submitted w w' -> is_submit e = false -> nothing_submitted w (log e w').
Proof.
  intros (evs & Hadd & Hall) He. exists (evs ++ [e]). split.
  - unfold added in *. cbn. rewrite Hadd, app_assoc. reflexivity.
  - apply Forall_app. auto.
Qed.

Lemma nothing_submitted_refl (w : World) : nothing_submitted w w.
Proof. exists []. split; [unfold added; rewrite app_nil_r; reflexivity | constructor]. Qed.

Lemma nothing_submitted_disp (w w' : World) (d : Display) :
  nothing_submitted w w' ->
  nothing_submitted w {| disp := d; trace := trace w'; vma_buffers := vma_buffers w' |}.
Proof. intros (evs & Hadd & Hall). exists evs. auto. Qed.

Lemma presented_from (w w1 w' : World) (evs : Trace) :
  trace w1 = trace w ++ evs -> presented w1 w' -> presented w w'.
Proof.
  intros Ht (sc & evs' & Hsc & Hl & Hadd). exists sc, (evs ++ evs').
  split; [exact Hsc|]. split; [exact Hl|].
  unfold added in *. rewrite Hadd, Ht, <- !app_assoc. reflexivity.
Qed.

(** What acquire_with_retry does when it returns: it submits nothing. *)
Lemma acquire_with_retry_submits_nothing `{Externals} (res : VkResult) (w w' : World)
    (r : option VkResult) :
  acquire_with_retry res w = Returned r w' -> nothing_submitted w w'.
Proof.
  assert (Hw : within (λ e, is_submit e = false) (acquire_with_retry res)).
  { unfold acquire_with_retry, ResizeRenderWindow, SwapChain_ResizeSwapChain,
      SwapChain_AcquireNextImage, SwapChain_RecreateSurface, reset_swap_chain,
      deref_swap_chain.
    repeat first
      [ apply within_ret | apply within_get | apply within_abort
      | apply within_emit; reflexivity
      | apply within_ask; intros; reflexivity
      | apply within_modify; intros; split; [reflexivity | cbn; auto]
      | apply within_bind; [|intros]
      | match goal with
        | |- within _ (if ?b then _ else _) => destruct b
        | |- within _ (match ?x with _ => _ end) => destruct x
        end ]. }
  intros Hrun. destruct (Hw w) as [(evs & Ht & Hall) _]. rewrite Hrun in Ht.
  exists evs. auto.
Qed.



(** ** More on the render window *)

(** X10: for a window that is not surfaceless, ChangeRenderWindow returns
    whether the display has a render surface afterwards.  When it returns
    true, m_window_info is the window info of the swap chain.  When it
    returns false there is no swap chain left (one whose surface could not be
    recreated has been destroyed), m_window_info is what it was, and a
    surface that was created for a swap chain that then could not be
    made has been destroyed again, as the last call. *)
Theorem ChangeRenderWindow_windowed `{Externals} (new_wi : WindowInfo) (w w' : World)
    (ok : bool) :
  is_surfaceless (wi_type new_wi) = false ->
  ChangeRenderWindow new_wi w = Returned ok w' ->
  HasRenderSurface (disp w') = ok
  /\ if ok
     then exists sc, m_swap_chain (disp w') = Some sc
                     /\ m_window_info (disp w') = sc_window_info sc
     else m_swap_chain (disp w') = None
          /\ m_window_info (disp w') = m_window_info (disp w)
          /\ exists evs,
               added w w' evs
               /\ forall wi surface,
                    EvCreateVulkanSurface wi surface ∈ evs ->
                    surface <> VK_NULL_HANDLE ->
                    last evs = Some (EvDestroyVulkanSurface surface).
Proof.
  intros Hty Hrun. unfold ChangeRenderWindow in Hrun. rewrite Hty in Hrun.
  run_in Hrun. unfold HasRenderSurface in Hrun.
  (* the calls made are an explicit list at every exit *)
  assert (Hlist : forall (evs : Trace) (s : Z),
             (forall wi surface, EvCreateVulkanSurface wi surface ∈ evs -> surface = s) ->
             (s <> VK_NULL_HANDLE -> last evs = Some (EvDestroyVulkanSurface s)) ->
             forall wi surface,
               EvCreateVulkanSurface wi surface ∈ evs ->
               surface <> VK_NULL_HANDLE ->
               last evs = Some (EvDestroyVulkanSurface surface)).
  { intros evs s Hin Hlast wi surface Hel Hs.
    rewrite (Hin _ _ Hel) in *. auto. }
  destruct (m_swap_chain (disp w)) as [sc|] eqn:Hsc.
  - rewrite bool_decide_eq_true_2 in Hrun by eauto.
    unfold SwapChain_RecreateSurface, deref_swap_chain in Hrun. run_in Hrun.
    cbn in Hrun. rewrite Hsc in Hrun. run_in Hrun.
    destruct (ext_RecreateSurface _ sc new_wi) as [[|] sc'] eqn:Hrec; run_in Hrun;
      cbn in Hrun.
    + injection Hrun as <- <-. unfold HasRenderSurface. cbn.
      split; [first [reflexivity | apply bool_decide_eq_true_2; eauto]|].
      eexists; split; reflexivity.
    + rewrite reset_swap_chain_run in Hrun. run_in Hrun.
      cbn [disp trace reset_events] in Hrun.
      destruct (ext_CreateVulkanSurface _ new_wi) as [surface wi_copy] eqn:Hsurf.
      cbn [fst snd] in Hrun.
      destruct (surface =? VK_NULL_HANDLE) eqn:Hnull.
      * injection Hrun as <- <-. unfold HasRenderSurface. cbn.
        split; [reflexivity|]. split; [reflexivity|]. split; [reflexivity|].
        eexists. split; [unfold added; cbn; rewrite <- !app_assoc; reflexivity|].
        apply (Hlist _ surface).
        { intros wi s Hin.
          repeat (apply elem_of_cons in Hin as [Hin|Hin]; [try discriminate Hin|]);
            [injection Hin as _ ->; reflexivity | apply elem_of_nil in Hin; contradiction]. }
        { apply Z.eqb_eq in Hnull. intros Hs. contradiction. }
      * run_in Hrun.
        destruct (ext_SwapChain_Create _ wi_copy surface false) as [sc3|] eqn:Hsc3;
          run_in Hrun; injection Hrun as <- <-; unfold HasRenderSurface; cbn.
        { split; [reflexivity|]. eexists; split; reflexivity. }
        { split; [reflexivity|]. split; [reflexivity|]. split; [reflexivity|].
          eexists. split; [unfold added; cbn; rewrite <- !app_assoc; reflexivity|].
          apply (Hlist _ surface).
          - intros wi s Hin.
            repeat (apply elem_of_cons in Hin as [Hin|Hin]; [try discriminate Hin|]);
              [injection Hin as _ ->; reflexivity
              |apply elem_of_nil in Hin; contradiction].
          - reflexivity. }
  - rewrite bool_decide_eq_false_2 in Hrun by (intros [? ?]; discriminate).
    run_in Hrun.
    destruct (ext_CreateVulkanSurface _ new_wi) as [surface wi_copy] eqn:Hsurf.
    cbn [fst snd] in Hrun.
    destruct (surface =? VK_NULL_HANDLE) eqn:Hnull.
    + injection Hrun as <- <-. unfold HasRenderSurface. cbn. rewrite Hsc.
      split; [apply bool_decide_eq_false_2; intros [? ?]; discriminate|].
      split; [reflexivity|]. split; [reflexivity|].
      eexists. split; [unfold added; cbn; rewrite <- !app_assoc; reflexivity|].
      apply (Hlist _ surface).
      { intros wi s Hin.
        repeat (apply elem_of_cons in Hin as [Hin|Hin]; [try discriminate Hin|]);
          [injection Hin as _ ->; reflexivity | apply elem_of_nil in Hin; contradiction]. }
      { apply Z.eqb_eq in Hnull. intros Hs. contradiction. }
    + run_in Hrun.
      destruct (ext_SwapChain_Create _ wi_copy surface false) as [sc3|] eqn:Hsc3;
        run_in Hrun; injection Hrun as <- <-; unfold HasRenderSurface; cbn.
      { split; [reflexivity|]. eexists; split; reflexivity. }
      { split; [reflexivity|]. split; [reflexivity|]. split; [reflexivity|].
        eexists. split; [unfold added; cbn; rewrite <- !app_assoc; reflexivity|].
        apply (Hlist _ surface).
        - intros wi s Hin.
          repeat (apply elem_of_cons in Hin as [Hin|Hin]; [try discriminate Hin|]);
            [injection Hin as _ ->; reflexivity
            |apply elem_of_nil in Hin; contradiction].
        - reflexivity. }
Qed.

Lemma ChangeRenderWindow_windowed_witness :
  let w' := final (@ChangeRenderWindow (scripted no_swap_chain) a_window
                     (windowed_world None)) in
  HasRenderSurface (disp w') = false
  /\ m_swap_chain (disp w') = None
  /\ m_window_info (disp w') = a_window
  /\ last (trace w') = Some (EvDestroyVulkanSurface 1003).
Proof.
  intros w'.
  destruct (@ChangeRenderWindow_windowed (scripted no_swap_chain) a_window
              (windowed_world None) w' false) as (Hhas & Hnone & Hwi & evs & Hadd & Hlast).
  - reflexivity.
  - vm_compute. reflexivity.
  - split; [exact Hhas|]. split; [exact Hnone|]. split; [exact Hwi|].
    vm_compute. reflexivity.
Defined.

(** X11: ResizeRenderWindow returns only when there is a swap chain and
    the driver resizes it.  Without a swap chain it stops on the null
    swap-chain pointer, having waited for the GPU; when the driver
    refuses the resize it panics with "Failed to resize swap chain", the
    swap chain being what the driver left and m_window_info what it was. *)
Theorem ResizeRenderWindow_faults `{Externals} (width height : Z) (w : World) :
  match m_swap_chain (disp w) with
  | None =>
      ResizeRenderWindow width height w
      = Aborted NullDereference (log EvWaitForGPUIdle w)
  | Some sc =>
      let r := ext_ResizeSwapChain (trace w ++ [EvWaitForGPUIdle]) sc width height in
      if r.1 then exists w', ResizeRenderWindow width height w = Returned tt w'
      else
        exists w',
          ResizeRenderWindow width height w
          = Aborted (Panic "Failed to resize swap chain") w'
          /\ m_swap_chain (disp w') = Some r.2
          /\ m_window_info (disp w') = m_window_info (disp w)
          /\ added w w' [EvWaitForGPUIdle; EvResizeSwapChain width height false]
  end.
Proof.
  destruct (m_swap_chain (disp w)) as [sc|] eqn:Hsc.
  - rewrite (ResizeRenderWindow_run width height w sc Hsc). cbn zeta.
    destruct (ext_ResizeSwapChain (trace w ++ [EvWaitForGPUIdle]) sc width height)
      as [[|] sc']; cbn [fst snd].
    + eexists. reflexivity.
    + eexists. split; [reflexivity|]. repeat split.
  - apply ResizeRenderWindow_null, Hsc.
Qed.

(** X12: when the first acquire of Render answers VK_SUBOPTIMAL_KHR or
    VK_ERROR_OUT_OF_DATE_KHR and the driver refuses to resize the swap
    chain, Render does not return: it stops on the panic of
    ResizeRenderWindow, with no second acquire and nothing submitted. *)
Theorem Render_resize_refused `{Externals} (w : World) (sc : SwapChain) :
  m_swap_chain (disp w) = Some sc ->
  let first := ext_AcquireNextImage (trace w ++ [EvWaitForPresentComplete]) sc in
  let t1 := trace w ++ [EvWaitForPresentComplete; EvAcquireNextImage first.1] in
  first.1 = VK_SUBOPTIMAL_KHR \/ first.1 = VK_ERROR_OUT_OF_DATE_KHR ->
  (ext_ResizeSwapChain (t1 ++ [EvWaitForGPUIdle]) first.2 0 0).1 = false ->
  exists w',
    Render false w = Aborted (Panic "Failed to resize swap chain") w'
    /\ added w w' [EvWaitForPresentComplete; EvAcquireNextImage first.1;
                   EvWaitForGPUIdle; EvResizeSwapChain 0 0 false].
Proof.
  intros Hsc first t1 Hres Hno.
  rewrite (Render_first_acquire w sc Hsc). cbn zeta. fold first.
  assert (Hr : (first.1 =? VK_SUCCESS) = false)
    by (destruct Hres as [-> | ->]; reflexivity).
  assert (Hq : (first.1 =? VK_SUBOPTIMAL_KHR) || (first.1 =? VK_ERROR_OUT_OF_DATE_KHR)
               = true)
    by (destruct Hres as [-> | ->]; reflexivity).
  rewrite Hr. unfold acquire_with_retry. rewrite Hq. rewrite bind_run.
  rewrite (ResizeRenderWindow_run 0 0 _ first.2) by reflexivity.
  cbn zeta. cbn [trace disp]. fold t1. rewrite Hno.
  eexists. split; [reflexivity|].
  unfold added, t1. cbn. rewrite <- !app_assoc. reflexivity.
Qed.

Lemma Render_resize_refused_witness :
  exists w',
    @Render (scripted refuses_resize) false (windowed_world None)
    = Aborted (Panic "Failed to resize swap chain") w'
    /\ added (windowed_world None) w'
         [EvWaitForPresentComplete; EvAcquireNextImage VK_ERROR_OUT_OF_DATE_KHR;
          EvWaitForGPUIdle; EvResizeSwapChain 0 0 false].
Proof.
  apply (@Render_resize_refused (scripted refuses_resize) (windowed_world None)
           a_swap_chain eq_refl).
  - right. reflexivity.
  - reflexivity.
Defined.

(** ** The render targets of the chain *)

Lemma check_stage_targets_ready `{Externals} (target_width target_height : Z) (w : World)
    (n : nat) :
  forall i : nat,
    (i + n < length (m_post_processing_stages (disp w)))%nat ->
    targets_ready target_width target_height (disp w) ->
    check_stage_targets n i target_width target_height w = Returned true w.
Proof.
  induction n as [|n IH]; intros i Hlt Hready; cbn [check_stage_targets]; [reflexivity|].
  destruct (lookup_lt_is_Some_2 (m_post_processing_stages (disp w)) i) as [pps Hpps];
    [lia|].
  pose proof Hready as (Hw & Hh & Hstages).
  destruct (Hstages i pps Hpps) as [Hpw Hph]; [lia|].
  unfold stage_at. run. rewrite Hpps. run.
  rewrite Hpw, Hph, !Z.eqb_refl. cbn [negb orb]. run.
  apply IH; [lia | exact Hready].
Qed.

(** X13: when the input texture and the output texture of every stage
    but the last already have the size asked for, and there is at least
    one stage, CheckPostProcessingRenderTargets returns true at once: it
    makes no call, creates and destroys nothing and leaves the display as
    it is.  (The stage count has to fit the u32 it is counted in.) *)
Theorem CheckPostProcessingRenderTargets_ready `{Externals}
    (target_width target_height : Z) (w : World) :
  targets_ready target_width target_height (disp w) ->
  m_post_processing_stages (disp w) <> [] ->
  Z.of_nat (length (m_post_processing_stages (disp w))) <= 2 ^ 32 ->
  CheckPostProcessingRenderTargets target_width target_height w = Returned true w.
Proof.
  intros Hready Hne Hsmall. pose proof Hready as (Hw & Hh & _).
  unfold CheckPostProcessingRenderTargets. run.
  rewrite Hw, Hh, !Z.eqb_refl. cbn [negb orb]. run.
  assert (Hpos : (0 < length (m_post_processing_stages (disp w)))%nat).
  { destruct (m_post_processing_stages (disp w)); [contradiction | cbn; lia]. }
  apply check_stage_targets_ready; [|exact Hready].
  unfold u32. rewrite Z.mod_small by lia. lia.
Qed.

Lemma CheckPostProcessingRenderTargets_ready_witness :
  @CheckPostProcessingRenderTargets (scripted cooperative) 640 480 world_with_ready_targets
  = Returned true world_with_ready_targets.
Proof.
  apply (@CheckPostProcessingRenderTargets_ready (scripted cooperative)).
  - split; [reflexivity|]. split; [reflexivity|].
    intros i pps Hpps Hlt. destruct i as [|[|i]]; cbn in Hpps, Hlt.
    + injection Hpps as <-. split; reflexivity.
    + lia.
    + lia.
  - discriminate.
  - vm_compute. discriminate.
Defined.

Lemma check_stage_targets_without_stages `{Externals} (target_width target_height : Z)
    (w : World) (n : nat) :
  n <> 0%nat ->
  m_post_processing_stages (disp w) = [] ->
  check_stage_targets n 0 target_width target_height w = Aborted OutOfBounds w.
Proof.
  intros Hn Hnone. destruct n as [|n]; [contradiction|].
  cbn [check_stage_targets]. unfold stage_at. run. rewrite Hnone. reflexivity.
Qed.

(** X14: with an empty stage list, which the DebugAssert at the head of
    CheckPostProcessingRenderTargets rules out in debug builds only, the
    method never returns true: the count of targets, size() - 1 in u32,
    wraps around to 4294967295, and the loop indexes stage 0 of the empty
    list.  When the input texture already has the size asked for, that
    is the first thing it does. *)
Theorem CheckPostProcessingRenderTargets_without_stages `{Externals}
    (target_width target_height : Z) (w : World) :
  m_post_processing_stages (disp w) = [] ->
  (forall w', CheckPostProcessingRenderTargets target_width target_height w
              <> Returned true w')
  /\ (tex_width (m_post_processing_input_texture (disp w)) = target_width ->
      tex_height (m_post_processing_input_texture (disp w)) = target_height ->
      CheckPostProcessingRenderTargets target_width target_height w
      = Aborted OutOfBounds w).
Proof.
  intros Hnone. split.
  - intros w' Hrun.
    destruct (runs_returned _ _ _ _ _ _
                (runs_CheckPostProcessingRenderTargets false target_width target_height w)
                Hrun) as (_ & _ & _ & _ & _ & _ & Hpos).
    specialize (Hpos eq_refl). rewrite Hnone in Hpos. cbn in Hpos. lia.
  - intros Hw Hh. unfold CheckPostProcessingRenderTargets. run.
    rewrite Hw, Hh, !Z.eqb_refl. cbn [negb orb]. run. rewrite Hnone.
    apply check_stage_targets_without_stages; [|exact Hnone].
    change (u32 (Z.of_nat (length (@nil PostProcessingStage)) - 1)) with 4294967295.
    lia.
Qed.

Lemma CheckPostProcessingRenderTargets_without_stages_witness :
  (forall w', @CheckPostProcessingRenderTargets (scripted cooperative) 0 0
                (windowed_world (Some a_texture)) <> Returned true w')
  /\ @CheckPostProcessingRenderTargets (scripted cooperative) 0 0
       (windowed_world (Some a_texture))
     = Aborted OutOfBounds (windowed_world (Some a_texture)).
Proof.
  destruct (@CheckPostProcessingRenderTargets_without_stages (scripted cooperative) 0 0
              (windowed_world (Some a_texture)) eq_refl) as [Hnever Hfault].
  split; [exact Hnever|]. apply Hfault; reflexivity.
Defined.

(** ** More on building the post-processing chain *)

Lemma destroy_stage_run (pps : PostProcessingStage) (w : World) :
  destroy_stage pps w
  = Returned tt {| disp := disp w; trace := trace w ++ stage_release pps;
                   vma_buffers := vma_buffers w |}.
Proof.
  unfold destroy_stage, Texture_Destroy, stage_release.
  destruct (output_framebuffer pps =? VK_NULL_HANDLE),
           (tex_image (output_texture pps) =? VK_NULL_HANDLE),
           (pipeline pps =? VK_NULL_HANDLE); cbn [negb]; run;
    rewrite <- ?app_assoc; cbn [app]; rewrite ?app_nil_r; destruct w; reflexivity.
Qed.

Lemma destroy_stages_run (l : list PostProcessingStage) : forall w : World,
  destroy_stages l w
  = Returned tt {| disp := disp w; trace := trace w ++ flat_map stage_release l;
                   vma_buffers := vma_buffers w |}.
Proof.
  induction l as [|pps l IH]; intros w; cbn [destroy_stages flat_map].
  - rewrite app_nil_r. destruct w; reflexivity.
  - rewrite bind_run, destroy_stage_run, IH. cbn [disp trace vma_buffers].
    rewrite <- app_assoc. reflexivity.
Qed.

Lemma clear_stages_run (w : World) :
  clear_stages w
  = Returned tt {| disp := set_m_post_processing_stages [] (disp w);
                   trace := trace w ++ flat_map stage_release
                                         (m_post_processing_stages (disp w));
                   vma_buffers := vma_buffers w |}.
Proof.
  unfold clear_stages. run. rewrite ?bind_run, destroy_stages_run. run. reflexivity.
Qed.

(** X15: SetPostProcessingChain with an empty config returns true having
    executed the command buffer and then released every stage of the old
    list, in order: the output framebuffer and the pipeline go to
    deferred destruction and the output texture is destroyed deferred,
    each only where the stage has one; nothing else is called, and the
    stage list and the chain are empty afterwards. *)
Theorem SetPostProcessingChain_empty_releases `{Externals} (w : World) :
  SetPostProcessingChain EmptyString w
  = Returned true
      {| disp := set_m_post_processing_chain []
                   (set_m_post_processing_stages [] (disp w));
         trace := trace w ++ EvExecuteCommandBuffer true
                            :: flat_map stage_release (m_post_processing_stages (disp w));
         vma_buffers := vma_buffers w |}.
Proof.
  unfold SetPostProcessingChain, ClearStages. run. rewrite ?bind_run, clear_stages_run.
  run. rewrite <- app_assoc. reflexivity.
Qed.

Lemma build_stages_builds `{Externals} (n : nat) :
  forall (i : nat) (only : bool) (w : World),
    length (m_post_processing_chain (disp w)) = (i + n)%nat ->
    Forall2 stage_built_for (take i (m_post_processing_chain (disp w)))
      (m_post_processing_stages (disp w)) ->
    wp (build_stages n i only)
       (λ r w',
          match r with
          | Some _ =>
              m_post_processing_chain (disp w') = m_post_processing_chain (disp w)
              /\ Forall2 stage_built_for (m_post_processing_chain (disp w))
                   (m_post_processing_stages (disp w'))
          | None => True
          end) w.
Proof.
  induction n as [|n IH]; intros i only w Hlen Hbuilt; cbn [build_stages].
  - apply wp_ret. split; [reflexivity|].
    rewrite take_ge in Hbuilt by lia. exact Hbuilt.
  - destruct (lookup_lt_is_Some_2 (m_post_processing_chain (disp w)) i) as [shader Hsh];
      [lia|].
    apply wp_bind. unfold GetShaderStage. apply wp_bind, wp_get. rewrite Hsh.
    apply wp_ret. cbv zeta.
    do 2 (apply wp_bind, wp_ask).
    wp_step.
    + do 2 (apply wp_bind; wp_step; wp_step).
      all: apply clear_both_wp; intros; exact I.
    + apply wp_bind, wp_get. cbv zeta.
      apply wp_bind. unfold GetRenderPassForDisplay. apply wp_bind, wp_get.
      wp_step; wp_step; apply wp_bind, wp_ask; do 2 (apply wp_bind, wp_emit).
      all: wp_step; [apply clear_both_wp; intros; exact I|].
      all: apply wp_bind, wp_modify.
      all: eapply wp_mono;
        [apply IH; wsimpl;
         [lia
         |rewrite (take_S_r _ _ _ Hsh); apply Forall2_app; [exact Hbuilt|];
          constructor; [|constructor];
          repeat split;
          match goal with Hp : (_ =? VK_NULL_HANDLE) = false |- _ <> _ =>
            apply Z.eqb_neq; exact Hp end]|].
      all: intros [r|] w'; wsimpl; [exact id | auto].
Qed.

Lemma SetPostProcessingChain_builds_wp `{Externals} (config : string) (w : World) :
  config <> EmptyString ->
  wp (SetPostProcessingChain config)
     (λ ok w',
        ok = true ->
        m_post_processing_chain (disp w')
        = (ext_CreateFromString (trace w ++ [EvExecuteCommandBuffer true])
             (m_post_processing_chain (disp w)) config).2
        /\ Forall2 stage_built_for (m_post_processing_chain (disp w'))
             (m_post_processing_stages (disp w'))) w.
Proof.
  intros Hconfig. unfold SetPostProcessingChain. apply wp_bind, wp_emit.
  destruct config as [|c config]; [contradiction|].
  apply wp_bind, wp_get. apply wp_bind, wp_ask. apply wp_bind, wp_modify. wsimpl.
  set (parsed := ext_CreateFromString (trace w ++ [EvExecuteCommandBuffer true])
                   (m_post_processing_chain (disp w)) (String c config)).
  destruct parsed.1 eqn:Hparsed; cbn [negb]; [|apply wp_ret; discriminate].
  apply wp_bind. eapply wp_mono; [apply clear_stages_wp|]. cbn beta.
  intros _ w1 Hd1. wsimpl.
  assert (Hchain1 : m_post_processing_chain (disp w1) = parsed.2)
    by (rewrite Hd1; reflexivity).
  assert (Hstages1 : m_post_processing_stages (disp w1) = [])
    by (rewrite Hd1; reflexivity).
  apply wp_bind, wp_get. apply wp_bind.
  eapply wp_mono.
  { apply (build_stages_builds _ 0%nat); [reflexivity|].
    rewrite Hstages1. cbn [take]. constructor. }
  intros [only|] w2 Hbuilt; [|apply wp_ret; discriminate].
  destruct Hbuilt as [Hchain2 Hbuilt2].
  apply wp_bind, wp_get. apply wp_bind.
  assert (Hubo : forall Q : bool -> World -> Prop,
             (forall b w3, m_post_processing_stages (disp w3)
                           = m_post_processing_stages (disp w2) ->
                           m_post_processing_chain (disp w3)
                           = m_post_processing_chain (disp w2) -> Q b w3) ->
             wp (if negb only && (sb_current_size (m_post_processing_ubo (disp w2))
                                  <? UBO_SIZE)
                 then
                   r ← ask (λ t, ext_StreamBuffer_Create t
                                   (m_post_processing_ubo (disp w2))
                                   VK_BUFFER_USAGE_UNIFORM_BUFFER_BIT UBO_SIZE)
                           (λ r, EvStreamBufferCreate
                                   VK_BUFFER_USAGE_UNIFORM_BUFFER_BIT UBO_SIZE r.1);
                   modify (set_m_post_processing_ubo r.2);;
                   mret r.1
                 else mret true) Q w2).
  { intros Q HQ. wp_step.
    - apply wp_bind, wp_ask. apply wp_bind, wp_modify. apply wp_ret.
      apply HQ; reflexivity.
    - apply wp_ret. apply HQ; reflexivity. }
  apply Hubo. intros ok w3 Hs3 Hc3. destruct ok; cbn [negb].
  - apply wp_bind, wp_emit. apply wp_ret. intros _. wsimpl.
    rewrite Hc3, Hs3, Hchain2, Hchain1 in *. split; [reflexivity | exact Hbuilt2].
  - apply clear_both_wp. intros; discriminate.
Qed.

(** X16: when SetPostProcessingChain returns true for a config that is
    not empty, the chain is the one the parser produced and the stage
    list has one stage per shader of the chain, in order: stage i holds
    the size of the uniforms of shader i and a pipeline that is not null,
    and has no output framebuffer or texture yet.  So the stage list and
    the chain have the same length, and every stage index is a shader
    index. *)
Theorem SetPostProcessingChain_builds `{Externals} (config : string) (w w' : World) :
  config <> EmptyString ->
  SetPostProcessingChain config w = Returned true w' ->
  m_post_processing_chain (disp w')
  = (ext_CreateFromString (trace w ++ [EvExecuteCommandBuffer true])
       (m_post_processing_chain (disp w)) config).2
  /\ Forall2 stage_built_for (m_post_processing_chain (disp w'))
       (m_post_processing_stages (disp w'))
  /\ length (m_post_processing_stages (disp w'))
     = length (m_post_processing_chain (disp w')).
Proof.
  intros Hconfig Hrun.
  pose proof (SetPostProcessingChain_builds_wp config w Hconfig) as Hwp.
  unfold wp in Hwp. rewrite Hrun in Hwp. destruct (Hwp eq_refl) as [Hchain Hbuilt].
  split; [exact Hchain|]. split; [exact Hbuilt|].
  symmetry. eapply Forall2_length. exact Hbuilt.
Qed.

Lemma SetPostProcessingChain_builds_witness :
  let w' := final (@SetPostProcessingChain (scripted parses_two) "crt:bloom"
                     world_with_chain) in
  m_post_processing_chain (disp w') = [a_shader; a_ubo_shader]
  /\ Forall2 stage_built_for (m_post_processing_chain (disp w'))
       (m_post_processing_stages (disp w'))
  /\ (uniforms_size <$> m_post_processing_stages (disp w')) = [16; 256].
Proof.
  intros w'.
  destruct (@SetPostProcessingChain_builds (scripted parses_two) "crt:bloom"
              world_with_chain w') as (Hchain & Hbuilt & _).
  - discriminate.
  - vm_compute. reflexivity.
  - split; [exact Hchain|]. split; [exact Hbuilt|]. vm_compute. reflexivity.
Defined.

Lemma stage_release_no_shader_module (l : list PostProcessingStage) (module : Z) :
  EvDestroyShaderModule module ∉ flat_map stage_release l.
Proof.
  induction l as [|pps l IH]; cbn [flat_map]; [apply not_elem_of_nil|].
  intros Hin. apply elem_of_app in Hin as [Hin|Hin]; [|exact (IH Hin)].
  unfold stage_release in Hin.
  destruct (output_framebuffer pps =? VK_NULL_HANDLE),
           (tex_image (output_texture pps) =? VK_NULL_HANDLE),
           (pipeline pps =? VK_NULL_HANDLE); cbn in Hin;
    repeat (apply elem_of_cons in Hin as [Hin|Hin]; [discriminate Hin|]);
    apply elem_of_nil in Hin; contradiction.
Qed.

(** X17: when the vertex shader of the first stage does not compile but
    its fragment shader does, SetPostProcessingChain gives up and returns
    false, and the clean-up destroys the wrong module: the one call to
    vkDestroyShaderModule is made on the null vertex module, and the
    fragment module is never destroyed. *)
Theorem SetPostProcessingChain_vertex_failure `{Externals} (config : string) (w : World)
    (shader : PostProcessingShader) (rest : list PostProcessingShader) (fs_mod : Z) :
  config <> EmptyString ->
  let t0 := trace w ++ [EvExecuteCommandBuffer true] in
  let t1 := t0 ++ EvCreateFromString config true
                  :: flat_map stage_release (m_post_processing_stages (disp w)) in
  ext_CreateFromString t0 (m_post_processing_chain (disp w)) config
  = (true, shader :: rest) ->
  ext_GetVertexShader t1 shader = VK_NULL_HANDLE ->
  ext_GetFragmentShader (t1 ++ [EvGetVertexShader shader VK_NULL_HANDLE]) shader = fs_mod ->
  fs_mod <> VK_NULL_HANDLE ->
  exists w',
    SetPostProcessingChain config w = Returned false w'
    /\ trace w' = t1 ++ [EvGetVertexShader shader VK_NULL_HANDLE;
                         EvGetFragmentShader shader fs_mod;
                         EvDestroyShaderModule VK_NULL_HANDLE]
    /\ EvDestroyShaderModule fs_mod ∉ drop (length (trace w)) (trace w').
Proof.
  intros Hconfig t0 t1 Hparse Hvs Hfs Hnot.
  assert (Hrun : exists w',
             SetPostProcessingChain config w = Returned false w'
             /\ trace w' = t1 ++ [EvGetVertexShader shader VK_NULL_HANDLE;
                                  EvGetFragmentShader shader fs_mod;
                                  EvDestroyShaderModule VK_NULL_HANDLE]).
  { unfold SetPostProcessingChain. destruct config as [|c config]; [contradiction|].
    run. fold t0. rewrite Hparse. run.
    rewrite ?bind_run, clear_stages_run. run.
    cbn [length build_stages]. unfold GetShaderStage. run.
    cbn [lookup list_lookup]. run.
    rewrite <- !app_assoc. cbn [app].
    unfold t1 in Hvs, Hfs. rewrite <- ?app_assoc in Hfs. cbn [app] in Hfs.
    rewrite Hvs. change (VK_NULL_HANDLE =? VK_NULL_HANDLE) with true. cbn [orb negb]. run.
    rewrite Hfs, (proj2 (Z.eqb_neq _ _) Hnot). cbn [negb]. run.
    rewrite ?bind_run, clear_stages_run. unfold ClearStages. run.
    cbn [flat_map]. rewrite app_nil_r.
    eexists. split; [reflexivity|]. cbn [trace]. unfold t1.
    repeat (progress (rewrite <- ?app_assoc; cbn [app])). reflexivity. }
  destruct Hrun as (w' & Hrun & Ht). exists w'. split; [exact Hrun|]. split; [exact Ht|].
  rewrite Ht. unfold t1, t0. rewrite <- !app_assoc, drop_app_length.
  cbn [app]. intros Hin.
  do 2 (apply elem_of_cons in Hin as [Hin|Hin]; [discriminate Hin|]).
  apply elem_of_app in Hin as [Hin|Hin];
    [exact (stage_release_no_shader_module _ _ Hin)|].
  do 2 (apply elem_of_cons in Hin as [Hin|Hin]; [discriminate Hin|]).
  apply elem_of_cons in Hin as [Hin|Hin]; [injection Hin as ->; contradiction|].
  apply elem_of_nil in Hin. contradiction.
Qed.

Lemma SetPostProcessingChain_vertex_failure_witness :
  exists w',
    @SetPostProcessingChain (without_vertex_shaders (scripted parses_two)) "crt:bloom"
      world_with_chain = Returned false w'
    /\ trace w'
       = [EvExecuteCommandBuffer true; EvCreateFromString "crt:bloom" true;
          EvTextureDestroy 1 true; EvDeferPipelineDestruction 71;
          EvGetVertexShader a_shader VK_NULL_HANDLE;
          EvGetFragmentShader a_shader 1005;
          EvDestroyShaderModule VK_NULL_HANDLE]
    /\ EvDestroyShaderModule 1005 ∉ trace w'.
Proof.
  destruct (@SetPostProcessingChain_vertex_failure (without_vertex_shaders (scripted parses_two))
              "crt:bloom" world_with_chain a_shader [a_ubo_shader] 1005)
    as (w' & Hrun & Ht & Hnot).
  - discriminate.
  - reflexivity.
  - reflexivity.
  - reflexivity.
  - discriminate.
  - exists w'. split; [exact Hrun|]. split; [rewrite Ht; reflexivity|].
    exact Hnot.
Defined.

(** ** More on screenshots *)

(** X18: for a swap-chain format it handles, RenderScreenshot sizes the
    destination so that the image fits: with a stride of 4 bytes per
    pixel for the 32-bit formats and 2 for the 16-bit ones, height rows
    of that stride take no more bytes than the out_pixels words hold (for
    the 16-bit formats the word count is rounded up), as long as the
    byte size of the image does not overflow the u32 arithmetic. *)
Theorem size_for_format_holds_rows (format : VkFormat) (width height : Z)
    (out : Screenshot) :
  is_32bit_format format || is_16bit_format format = true ->
  0 <= width -> 0 <= height ->
  4 * width < 2 ^ 32 -> width * height < 2 ^ 32 - 1 ->
  let sized := size_for_format format width height out in
  out_stride sized = (if is_32bit_format format then 4 else 2) * width
  /\ out_stride sized * height <= 4 * Z.of_nat (length (out_pixels sized)).
Proof.
  intros Hformat Hw Hh Hrow Hsize sized.
  assert (Hpixels : 0 <= width * height) by nia.
  assert (H4 : u32 (4 * width) = 4 * width) by (unfold u32; apply Z.mod_small; lia).
  assert (H2 : u32 (2 * width) = 2 * width) by (unfold u32; apply Z.mod_small; lia).
  assert (Hn : u32 (width * height) = width * height)
    by (unfold u32; apply Z.mod_small; lia).
  assert (Hn1 : u32 (u32 (width * height) + 1) = width * height + 1)
    by (rewrite Hn; unfold u32; apply Z.mod_small; lia).
  destruct (size_for_format_length format width height out) as [H32 H16].
  fold sized in H32, H16.
  destruct (is_32bit_format format) eqn:E32.
  - rewrite (H32 eq_refl), Hn, Z2Nat.id by lia.
    assert (Hstride : out_stride sized = u32 (4 * width)).
    { unfold sized, size_for_format. unfold is_32bit_format in E32.
      destruct (format =? VK_FORMAT_R8G8B8A8_UNORM); [reflexivity|].
      destruct (format =? VK_FORMAT_R8G8B8A8_SRGB); [reflexivity|].
      destruct (format =? VK_FORMAT_B8G8R8A8_UNORM); [reflexivity|].
      destruct (format =? VK_FORMAT_B8G8R8A8_SRGB); [reflexivity|].
      discriminate E32. }
    rewrite Hstride, H4. split; lia.
  - cbn [orb] in Hformat. rewrite (H16 Hformat), Hn1.
    assert (Hstride : out_stride sized = u32 (2 * width)).
    { unfold sized, size_for_format. unfold is_32bit_format in E32.
      unfold is_16bit_format in Hformat.
      destruct (format =? VK_FORMAT_R8G8B8A8_UNORM); [discriminate E32|].
      destruct (format =? VK_FORMAT_R8G8B8A8_SRGB); [discriminate E32|].
      destruct (format =? VK_FORMAT_B8G8R8A8_UNORM); [discriminate E32|].
      destruct (format =? VK_FORMAT_B8G8R8A8_SRGB); [discriminate E32|].
      cbn [orb].
      destruct (format =? VK_FORMAT_A1R5G5B5_UNORM_PACK16); [reflexivity|].
      destruct (format =? VK_FORMAT_R5G6B5_UNORM_PACK16); [reflexivity|].
      discriminate Hformat. }
    rewrite Hstride, H2. split; [reflexivity|].
    rewrite Z2Nat.id by (apply Z.div_pos; lia).
    assert (Hhalf : width * height <= 2 * ((width * height + 1) / 2)).
    { pose proof (Z.div_mod (width * height + 1) 2 ltac:(lia)) as Hdm.
      pose proof (Z.mod_pos_bound (width * height + 1) 2 ltac:(lia)) as Hmb.
      lia. }
    nia.
Qed.

Lemma size_for_format_holds_rows_witness :
  let out := {| out_pixels := []; out_stride := 0; out_format := Format_Unknown |} in
  let sized := size_for_format VK_FORMAT_R5G6B5_UNORM_PACK16 3 5 out in
  out_stride sized = 6
  /\ length (out_pixels sized) = 8%nat
  /\ out_stride sized * 5 <= 4 * Z.of_nat (length (out_pixels sized)).
Proof.
  intros out sized.
  destruct (size_for_format_holds_rows VK_FORMAT_R5G6B5_UNORM_PACK16 3 5 out)
    as [Hstride Hfits]; try reflexivity; try lia.
  split; [exact Hstride|]. split; [reflexivity | exact Hfits].
Defined.

(** ** Render without presenting *)

Lemma Render_skipped_run `{Externals} (skip_present : bool) (w : World) :
  skip_present = true \/ m_swap_chain (disp w) = None ->
  Render skip_present w
  = Returned false (if ext_ImGui_GetCurrentContext (trace w)
                    then log EvImGuiRender w else w).
Proof.
  intros Hskip. unfold Render. run. unfold HasRenderSurface.
  assert (Hcond : skip_present || negb (bool_decide (is_Some (m_swap_chain (disp w))))
                  = true).
  { destruct Hskip as [-> | ->]; [reflexivity|].
    rewrite bool_decide_eq_false_2 by (intros [? ?]; discriminate).
    apply orb_true_r. }
  rewrite Hcond. run.
  destruct (ext_ImGui_GetCurrentContext (trace w)); run; destruct w; reflexivity.
Qed.

(** X19: when presenting is skipped, or there is no swap chain, Render
    returns false and leaves the display as it is; the only call it
    makes is ImGui::Render, to end the ImGui frame, and only if there is
    an ImGui context.  No image is acquired and nothing is recorded. *)
Theorem Render_without_presenting `{Externals} (skip_present : bool) (w : World) :
  skip_present = true \/ m_swap_chain (disp w) = None ->
  exists w',
    Render skip_present w = Returned false w'
    /\ disp w' = disp w
    /\ vma_buffers w' = vma_buffers w
    /\ added w w' (if ext_ImGui_GetCurrentContext (trace w) then [EvImGuiRender] else []).
Proof.
  intros Hskip. rewrite (Render_skipped_run skip_present w Hskip).
  eexists. split; [reflexivity|].
  destruct (ext_ImGui_GetCurrentContext (trace w)); repeat split.
  unfold added. rewrite app_nil_r. reflexivity.
Qed.

Lemma Render_without_presenting_witness :
  (exists w',
     @Render (scripted cooperative) false (new_world (new_display (some_fixed None)))
     = Returned false w'
     /\ trace w' = [])
  /\ (exists w',
        @Render (scripted cooperative) true (windowed_world (Some a_texture))
        = Returned false w'
        /\ trace w' = []).
Proof.
  split.
  - destruct (@Render_without_presenting (scripted cooperative) false
                (new_world (new_display (some_fixed None)))) as (w' & Hrun & _ & _ & Ht);
      [right; reflexivity|].
    exists w'. split; [exact Hrun | exact Ht].
  - destruct (@Render_without_presenting (scripted cooperative) true
                (windowed_world (Some a_texture))) as (w' & Hrun & _ & _ & Ht);
      [left; reflexivity|].
    exists w'. split; [exact Hrun | exact Ht].
Defined.

(** ** The chain when its render targets cannot be made *)

(** X20: when CheckPostProcessingRenderTargets fails, the chain is left
    out and ApplyPostProcessingChain draws exactly one pass: the display
    texture, with the display pipeline, straight into the framebuffer the
    caller passed; the display is left as the check left it.  (There is
    a swap chain, and the driver hands out a descriptor set.) *)
Theorem ApplyPostProcessingChain_fallback_draws `{Externals}
    (target_fb final_left final_top final_width final_height : Z) (display : Texture)
    (texture_view_x texture_view_y texture_view_width texture_view_height : Z)
    (target_width target_height : Z) (sc : SwapChain) (w w1 : World) :
  CheckPostProcessingRenderTargets target_width target_height w = Returned false w1 ->
  m_swap_chain (disp w1) = Some sc ->
  ext_AllocateDescriptorSet
    (trace w1 ++ [EvBeginRenderPass (sc_clear_render_pass sc) target_fb
                    target_width target_height])
    (m_descriptor_set_layout (fixed (disp w1))) <> VK_NULL_HANDLE ->
  exists w' evs,
    ApplyPostProcessingChain target_fb final_left final_top final_width final_height
      (RefExternal display) texture_view_x texture_view_y texture_view_width
      texture_view_height target_width target_height w = Returned tt w'
    /\ disp w' = disp w1
    /\ trace w' = trace w1 ++ evs
    /\ passes evs = [{| pass_target := target_fb; pass_source := tex_view display;
                        pass_pipeline := m_display_pipeline (fixed (disp w1)) |}].
Proof.
  intros Hcheck Hsc Hds.
  rewrite (ApplyPostProcessingChain_fallback _ _ _ _ _ _ _ _ _ _ _ _ w w1 Hcheck).
  unfold BeginSwapChainRenderPass, deref_swap_chain, RenderDisplay_to, deref_texture.
  run. rewrite Hsc. run. rewrite (proj2 (Z.eqb_neq _ _) Hds). run.
  eexists _, _. split; [reflexivity|]. split; [reflexivity|].
  cbn [trace]. rewrite <- !app_assoc. split; [reflexivity|]. reflexivity.
Qed.

Lemma ApplyPostProcessingChain_fallback_draws_witness :
  exists w' evs,
    @ApplyPostProcessingChain (scripted no_textures) 99 0 0 640 480 (RefExternal a_texture)
      0 0 320 240 640 480 world_with_three_stages = Returned tt w'
    /\ disp w' = disp world_with_three_stages
    /\ trace w' = [EvTextureCreate 640 480 VK_FORMAT_B8G8R8A8_UNORM pp_usage false] ++ evs
    /\ passes evs = [{| pass_target := 99; pass_source := 42; pass_pipeline := 23 |}].
Proof.
  destruct (@ApplyPostProcessingChain_fallback_draws (scripted no_textures) 99 0 0 640 480
              a_texture 0 0 320 240 640 480 a_swap_chain world_with_three_stages
              (final (@CheckPostProcessingRenderTargets (scripted no_textures) 640 480
                        world_with_three_stages)))
    as (w' & evs & Hrun & Hd & Ht & Hp).
  - vm_compute. reflexivity.
  - reflexivity.
  - vm_compute. discriminate.
  - exists w', evs. split; [exact Hrun|]. split; [rewrite Hd; reflexivity|].
    split; [rewrite Ht; reflexivity | exact Hp].
Defined.

(** ** Render: how often an image is acquired *)

Lemma acquire_with_retry_acquires `{Externals} (res : VkResult) (w : World)
    (sc : SwapChain) :
  m_swap_chain (disp w) = Some sc ->
  exists evs,
    trace (final (acquire_with_retry res w)) = trace w ++ evs
    /\ (count_acquires evs <= 1)%nat.
Proof.
  intros Hsc. unfold acquire_with_retry.
  destruct ((res =? VK_SUBOPTIMAL_KHR) || (res =? VK_ERROR_OUT_OF_DATE_KHR)).
  - rewrite bind_run, (ResizeRenderWindow_run 0 0 w sc Hsc). cbn zeta.
    destruct (ext_ResizeSwapChain (trace w ++ [EvWaitForGPUIdle]) sc 0 0) as [[|] sc'];
      cbn [fst snd].
    + rewrite bind_run, (AcquireNextImage_run _ sc') by reflexivity. cbn zeta. run.
      eexists. split; [cbn; rewrite <- !app_assoc; reflexivity|]. cbn. lia.
    + eexists. split; [cbn; reflexivity|]. cbn. lia.
  - destruct (res =? VK_ERROR_SURFACE_LOST_KHR).
    + run. rewrite (RecreateSurface_run w sc _ Hsc). cbn zeta. run.
      destruct (ext_RecreateSurface (trace w) sc (m_window_info (disp w))) as [[|] sc'];
        cbn [fst snd negb].
      * rewrite !bind_run, (AcquireNextImage_run _ sc') by reflexivity. cbn zeta. run.
        eexists. split; [cbn; rewrite <- !app_assoc; reflexivity|]. cbn. lia.
      * run. rewrite reset_swap_chain_run. run.
        eexists. split; [cbn; rewrite <- !app_assoc; reflexivity|]. cbn. lia.
    + exists []. split; [cbn; rewrite app_nil_r; reflexivity|]. cbn. lia.
Qed.

(** X21: whatever the driver answers, one call of Render asks for the
    next swap-chain image once or twice, whether it returns or stops on a
    fault, and not at all when presenting is skipped or there is no swap
    chain: a failed acquire is retried once and never in a loop. *)
Theorem Render_acquires_at_most_twice `{Externals} (skip_present : bool) (w : World) :
  let acquires := count_acquires (new_calls w (Render skip_present w)) in
  if skip_present || negb (HasRenderSurface (disp w))
  then acquires = 0%nat
  else (1 <= acquires <= 2)%nat.
Proof.
  cbv zeta.
  assert (Hnone : skip_present = true \/ m_swap_chain (disp w) = None ->
                  count_acquires (new_calls w (Render skip_present w)) = 0%nat).
  { intros Hskip. rewrite (Render_skipped_run skip_present w Hskip).
    unfold new_calls.
    destruct (ext_ImGui_GetCurrentContext (trace w)); cbn [final log trace].
    - rewrite drop_app_length. reflexivity.
    - rewrite drop_all. reflexivity. }
  unfold HasRenderSurface.
  destruct skip_present; cbn [orb]; [apply Hnone; auto|].
  destruct (m_swap_chain (disp w)) as [sc|] eqn:Hsc.
  2: { rewrite bool_decide_eq_false_2 by (intros [? ?]; discriminate).
       apply Hnone. auto. }
  rewrite bool_decide_eq_true_2 by eauto. cbn [negb].
  rewrite (Render_first_acquire w sc Hsc). cbn zeta.
  set (first := ext_AcquireNextImage (trace w ++ [EvWaitForPresentComplete]) sc).
  set (w1 := {| disp := set_m_swap_chain (Some first.2) (disp w);
                trace := trace w ++ [EvWaitForPresentComplete;
                                     EvAcquireNextImage first.1];
                vma_buffers := vma_buffers w |}).
  assert (Hframe : forall w2 evs,
             trace w2 = trace w1 ++ evs -> (count_acquires evs <= 1)%nat ->
             (1 <= count_acquires (new_calls w (render_frame w2)) <= 2)%nat).
  { intros w2 evs Ht Hc. destruct (render_frame_no_acquire w2) as (evs2 & Ht2 & Hc2).
    rewrite (new_calls_added w _ ([EvWaitForPresentComplete; EvAcquireNextImage first.1]
                                  ++ evs ++ evs2)).
    - rewrite !count_acquires_app, Hc2. cbn. lia.
    - rewrite Ht2, Ht. cbn [w1 trace]. rewrite <- !app_assoc. reflexivity. }
  destruct (first.1 =? VK_SUCCESS).
  - apply (Hframe w1 []); [rewrite app_nil_r; reflexivity | cbn; lia].
  - destruct (acquire_with_retry_acquires first.1 w1 first.2 eq_refl)
      as (evs & Ht & Hc).
    destruct (acquire_with_retry first.1 w1) as [[res|] w2|f w2]; cbn [final] in Ht.
    + destruct (negb (res =? VK_SUCCESS) && negb (res =? VK_SUBOPTIMAL_KHR)).
      * rewrite (new_calls_added w _
                   ([EvWaitForPresentComplete; EvAcquireNextImage first.1]
                    ++ evs ++ [EvExecuteCommandBuffer false])).
        { rewrite !count_acquires_app. cbn. lia. }
        { cbn [final log trace]. rewrite Ht. cbn [w1 trace].
          rewrite <- !app_assoc. reflexivity. }
      * apply (Hframe w2 evs); assumption.
    + rewrite (new_calls_added w _
                 ([EvWaitForPresentComplete; EvAcquireNextImage first.1] ++ evs)).
      * rewrite !count_acquires_app. cbn. lia.
      * cbn [final]. rewrite Ht. cbn [w1 trace]. rewrite <- !app_assoc. reflexivity.
    + rewrite (new_calls_added w _
                 ([EvWaitForPresentComplete; EvAcquireNextImage first.1] ++ evs)).
      * rewrite !count_acquires_app. cbn. lia.
      * cbn [final]. rewrite Ht. cbn [w1 trace]. rewrite <- !app_assoc. reflexivity.
Qed.

(** ** Creating textures *)

(** X22: CreateTexture hands out a texture exactly when the format has a
    Vulkan format and Texture::Create succeeds; for a format without a
    Vulkan format it makes no call at all, and after a failed Create none
    but that.  A texture handed out is in SHADER_READ_ONLY_OPTIMAL and
    has been written exactly once before it got there: with the caller's
    data if there are any, cleared otherwise, the clear finding the image
    in TRANSFER_DST_OPTIMAL.  Create is asked for an array view exactly
    when there is more than one layer.  And a format that
    SupportsTextureFormat accepts is never turned down before Create. *)
Theorem CreateTexture_outcome `{FormatExternals} `{TextureFactory}
    (width height layers levels samples : Z) (format : GPUTexture_Format)
    (data data_stride : Z) (w : World) :
  let vk_format := ext_GetVkFormat format in
  let view_type := if layers >? 1 then VK_IMAGE_VIEW_TYPE_2D_ARRAY
                   else VK_IMAGE_VIEW_TYPE_2D in
  let usage := Z.lor (Z.lor VK_IMAGE_USAGE_TRANSFER_SRC_BIT VK_IMAGE_USAGE_TRANSFER_DST_BIT)
                     VK_IMAGE_USAGE_SAMPLED_BIT in
  let created := ext_Texture_Create_image width height levels layers vk_format samples
                   view_type VK_IMAGE_TILING_OPTIMAL usage in
  let r := CreateTexture width height layers levels samples format data data_stride in
  match r.1 with
  | Some texture =>
      vk_format <> VK_FORMAT_UNDEFINED
      /\ Some texture = set_tex_layout VK_IMAGE_LAYOUT_SHADER_READ_ONLY_OPTIMAL <$> created
      /\ new_texture_layout VK_IMAGE_LAYOUT_UNDEFINED r.2
         = Some VK_IMAGE_LAYOUT_SHADER_READ_ONLY_OPTIMAL
      /\ (exists image layout,
            List.filter is_fill r.2
            = [if negb (data =? nullptr)
               then TcUpdate image 0 0 width height 0 0 data data_stride
               else TcClearColorImage image layout])
  | None =>
      (vk_format = VK_FORMAT_UNDEFINED /\ r.2 = []
       /\ SupportsTextureFormat format w = Returned false w)
      \/ (vk_format <> VK_FORMAT_UNDEFINED /\ created = None
          /\ r.2 = [TcCreate width height levels layers vk_format samples view_type
                      VK_IMAGE_TILING_OPTIMAL usage false])
  end.
Proof.
  cbv zeta. unfold CreateTexture, SupportsTextureFormat. cbv zeta.
  destruct (ext_GetVkFormat format =? VK_FORMAT_UNDEFINED) eqn:Hformat.
  - left. apply Z.eqb_eq in Hformat. auto.
  - apply Z.eqb_neq in Hformat.
    destruct (ext_Texture_Create_image _ _ _ _ _ _ _ _ _) as [texture|] eqn:Hcreate;
      cbn [fst snd].
    + split; [exact Hformat|]. split; [reflexivity|]. split.
      * destruct (data =? nullptr); reflexivity.
      * destruct (data =? nullptr); cbn [negb List.filter is_fill]; eauto.
    + right. split; [exact Hformat|]. split; reflexivity.
Qed.

(** ** What the staging buffer provides *)

(** X23: when CheckStagingBufferSize returns true, the staging buffer
    covers the request: either the recorded size already did, and
    nothing was touched; or the buffer the display now holds is a live
    allocation of exactly the size asked for, made by the last call,
    vmaCreateBuffer, which succeeded, and the display holds the
    allocation and the mapping that call handed out. *)
Theorem CheckStagingBufferSize_provides `{Externals} (required_size : Z) (w w' : World) :
  CheckStagingBufferSize required_size w = Returned true w' ->
  if m_readback_staging_buffer_size (disp w) >=? required_size then w' = w
  else
    let buffer := m_readback_staging_buffer (disp w') in
    vma_buffers w' !! buffer = Some required_size
    /\ last (trace w')
       = Some (staging_request (m_is_adreno (disp w)) required_size VK_SUCCESS buffer)
    /\ ext_vmaCreateBuffer (trace (staging_destroyed w)) required_size
       = (VK_SUCCESS, buffer, m_readback_staging_allocation (disp w'),
          m_readback_staging_buffer_map (disp w')).
Proof.
  rewrite CheckStagingBufferSize_run.
  destruct (m_readback_staging_buffer_size (disp w) >=? required_size);
    [intros Hrun; injection Hrun as <-; reflexivity|].
  cbn zeta.
  destruct (ext_vmaCreateBuffer (trace (staging_destroyed w)) required_size)
    as [[[res buffer] allocation] mapped].
  destruct (res =? VK_SUCCESS) eqn:Hres; [|discriminate].
  apply Z.eqb_eq in Hres. subst res.
  intros Hrun. injection Hrun as <-. cbn.
  split; [apply lookup_insert_eq|]. split; [apply last_snoc | reflexivity].
Qed.

Lemma CheckStagingBufferSize_provides_witness :
  let w' := final (@CheckStagingBufferSize (scripted cooperative) 1024
                     (windowed_world None)) in
  m_readback_staging_buffer (disp w') = 1000
  /\ vma_buffers w' !! 1000 = Some 1024
  /\ m_readback_staging_buffer_map (disp w') = 1002.
Proof.
  intros w'.
  destruct (@CheckStagingBufferSize_provides (scripted cooperative) 1024
              (windowed_world None) w') as (Hlive & _ & Hcall).
  - vm_compute. reflexivity.
  - split; [reflexivity|]. split; [exact Hlive|]. reflexivity.
Defined.

(** ** A screenshot that could not be read back *)

Lemma DownloadTexture_without_buffer `{Externals} (tex : Texture) (x y width height : Z)
    (out_data : list Z) (out_data_stride : Z) (w : World) :
  (forall t size, (ext_vmaCreateBuffer t size).1.1.1 <> VK_SUCCESS) ->
  m_readback_staging_buffer_size (disp w) = 0 ->
  0 < u32 (ext_CalcUpdatePitch tex width * height) ->
  exists w',
    DownloadTexture tex x y width height out_data out_data_stride w
    = Returned (false, out_data) w'.
Proof.
  intros Hvma Hzero Hpos.
  pose proof (CheckStagingBufferSize_run (u32 (ext_CalcUpdatePitch tex width * height)) w)
    as Hcheck.
  rewrite Hzero in Hcheck.
  destruct (0 >=? u32 (ext_CalcUpdatePitch tex width * height)) eqn:Hge; [lia|].
  cbn zeta in Hcheck.
  specialize (Hvma (trace (staging_destroyed w))
                (u32 (ext_CalcUpdatePitch tex width * height))).
  destruct (ext_vmaCreateBuffer (trace (staging_destroyed w))
              (u32 (ext_CalcUpdatePitch tex width * height)))
    as [[[res buffer] allocation] mapped].
  cbn [fst] in Hvma. rewrite (proj2 (Z.eqb_neq _ _) Hvma) in Hcheck.
  destruct (DownloadTexture_after_check tex x y width height out_data out_data_stride
              w false _ Hcheck) as (data & evs & Hrun & -> & ->).
  eexists. exact Hrun.
Qed.

(** A first step that returned leaves a recorded staging size of zero
    at zero. *)
Lemma bind_returned_keeps {A B} (m : M A) (k : A -> M B) (w w' : World) (b : B) :
  within any_event m ->
  m_readback_staging_buffer_size (disp w) = 0 ->
  (m ≫= k) w = Returned b w' ->
  exists a w1,
    m_readback_staging_buffer_size (disp w1) = 0 /\ k a w1 = Returned b w'.
Proof.
  intros Hm Hzero Hrun. apply bind_returned in Hrun as (a & w1 & Hm1 & Hk).
  destruct (Hm w) as [_ [_ Hkeep]]. rewrite Hm1 in Hkeep. eauto.
Qed.

(** X24: RenderScreenshot does not look at the result of DownloadTexture.
    On a driver that provides no staging buffer, with a display texture
    to draw, no staging buffer recorded and an image of more than zero
    bytes, a call that gets as far as the download still returns true,
    and whenever it returns true what it hands back is the destination as
    it sized it: stride and format set and out_pixels resized, but not a
    pixel read back. *)
Theorem RenderScreenshot_ignores_failed_download `{Externals} (width height : Z)
    (out out' : Screenshot) (w w' : World) (sc : SwapChain) (display : Texture) :
  (forall t size, (ext_vmaCreateBuffer t size).1.1.1 <> VK_SUCCESS) ->
  (forall tex, 0 < u32 (ext_CalcUpdatePitch tex width * height)) ->
  m_swap_chain (disp w) = Some sc ->
  m_display_texture (fixed (disp w)) = Some display ->
  m_readback_staging_buffer_size (disp w) = 0 ->
  RenderScreenshot width height out w = Returned (true, out') w' ->
  out' = size_for_format (sc_texture_format sc) width height out.
Proof.
  intros Hvma Hpos Hsc Htex Hzero Hrun.
  unfold RenderScreenshot in Hrun. run_in Hrun. rewrite Hsc in Hrun. run_in Hrun.
  unfold HasDisplayTexture in Hrun. rewrite Htex in Hrun.
  rewrite bool_decide_eq_true_2 in Hrun by eauto. cbn [negb] in Hrun.
  unfold Texture_Create in Hrun. run_in Hrun.
  destruct (ext_Texture_Create (trace w) Texture_default width height
              (sc_texture_format sc) _) as [created tex] eqn:Hcreate.
  cbn [fst snd] in Hrun. destruct created; cbn [negb] in Hrun.
  2: { apply bind_returned in Hrun as (? & ? & _ & Hrun). discriminate. }
  run_in Hrun. cbn [disp] in Hrun. rewrite Hsc in Hrun. run_in Hrun.
  destruct (sc_clear_render_pass sc =? VK_NULL_HANDLE).
  { apply bind_returned in Hrun as (? & ? & _ & Hrun). discriminate. }
  apply bind_returned_keeps in Hrun as (fb & w1 & Hz1 & Hrun);
    [|apply within_Texture_CreateFramebuffer, any_quiet|exact Hzero].
  destruct (fb =? VK_NULL_HANDLE).
  { apply bind_returned in Hrun as (? & ? & _ & Hrun). discriminate. }
  apply bind_returned_keeps in Hrun as (tex1 & w2 & Hz2 & Hrun);
    [|apply within_Texture_TransitionToLayout, any_quiet|exact Hz1].
  run_in Hrun. unfold id in Hrun.
  destruct (ext_CalculateDrawRect (disp w2) width height) as [[[dl dt] dw] dh].
  apply bind_returned_keeps in Hrun as ([] & w3 & Hz3 & Hrun); [| |exact Hz2].
  2: { destruct (negb _).
       - apply (within_ApplyPostProcessingChain any_event any_quiet).
       - apply within_bind; [apply (within_BeginSwapChainRenderPass any_event any_quiet)|intros _].
         apply (within_RenderDisplay_to any_event any_quiet). }
  apply bind_returned_keeps in Hrun as ([] & w3' & Hz3' & Hrun);
    [|apply (within_emit any_event EvEndRenderPass); exact I|exact Hz3].
  apply bind_returned_keeps in Hrun as (tex2 & w4 & Hz4 & Hrun);
    [|apply within_Texture_TransitionToLayout, any_quiet|exact Hz3'].
  destruct (DownloadTexture_without_buffer tex2 0 0 width height
              (out_pixels (size_for_format (sc_texture_format sc) width height out))
              (out_stride (size_for_format (sc_texture_format sc) width height out))
              w4 Hvma Hz4 (Hpos tex2)) as (w5 & Hdl).
  apply bind_returned in Hrun as (dl' & w5' & Hdl' & Hrun).
  rewrite Hdl in Hdl'. injection Hdl' as <- <-.
  apply bind_returned in Hrun as (? & ? & _ & Hrun).
  apply bind_returned in Hrun as (? & ? & _ & Hrun).
  injection Hrun as <- _. cbn [snd].
  destruct (size_for_format (sc_texture_format sc) width height out); reflexivity.
Qed.

Lemma RenderScreenshot_ignores_failed_download_witness :
  let out := {| out_pixels := []; out_stride := 0; out_format := Format_Unknown |} in
  exists out' w',
    @RenderScreenshot (scripted no_buffers) 4 4 out world_with_three_stages
    = Returned (true, out') w'
    /\ out' = {| out_pixels := replicate 16 0; out_stride := 16; out_format := BGRA8 |}.
Proof.
  intros out.
  pose (o := @RenderScreenshot (scripted no_buffers) 4 4 out world_with_three_stages).
  assert (Hrun : o = Returned (true, {| out_pixels := replicate 16 0; out_stride := 16;
                                        out_format := BGRA8 |}) (final o))
    by (vm_compute; reflexivity).
  eexists _, (final o). split; [exact Hrun|].
  etransitivity;
    [eapply (@RenderScreenshot_ignores_failed_download (scripted no_buffers) 4 4 out _
               world_with_three_stages (final o))|].
  - intros t size. vm_compute. discriminate.
  - intros tex. vm_compute. reflexivity.
  - lazy. reflexivity.
  - lazy. reflexivity.
  - vm_compute. reflexivity.
  - exact Hrun.
  - vm_compute. reflexivity.
Defined.
